(** * Fkdptaxi backend: the request broker of [backend.js]

    A shallow embedding of the JavaScript of [src/backend.js] (the
    start-up of the module, the phone number normalizer and the four
    POST handlers) and of what [src/unnamed/part_000] adds to it (the
    handler of the OPTIONS requests), together with the part of
    the ECMAScript semantics the handlers rely on: JSON values, truthiness,
    property reads that throw on [null]/[undefined], [Number(...)],
    [toFixed(2)], [parseFloat], template literals and the two regular
    expressions of the booking message.

    Conventions.
    - A JavaScript string is a Rocq [string] holding its UTF-8 bytes.
    - A JavaScript number is an IEEE 754 binary64 value, [spec_float] with
      precision 53 and maximal exponent 1024; arithmetic is the correctly
      rounded arithmetic of [SpecFloat].
    - A computation that may throw returns [result]; a handler returns an
      [outcome]: the status it sets and the value it hands to [res.json],
      or the rejection of its promise when an exception escapes it.
    - The two providers (Twilio, Google Routes) are arguments of the
      handlers: the handler is a function of what the provider answers. *)

From Stdlib Require Import ZArith NArith List String Ascii Bool Lia.
From Stdlib Require Import SpecFloat.
Import ListNotations.

Local Open Scope string_scope.

(* ================================================================== *)
(** * Bytes and strings *)
(* ================================================================== *)

Module Str.

Definition code (c : ascii) : N := N_of_ascii c.

Definition LF : ascii := ascii_of_N 10.

(** [\d] of a regular expression without the [u] flag: [0-9]. *)
Definition is_digit (c : ascii) : bool :=
  (48 <=? code c)%N && (code c <=? 57)%N.

Definition digit_val (c : ascii) : N := (code c - 48)%N.

(** One-byte members of WhiteSpace and LineTerminator:
    TAB, LF, VT, FF, CR, SP. *)
Definition ws1 (c : ascii) : bool :=
  ((9 <=? code c)%N && (code c <=? 13)%N) || (code c =? 32)%N.

(** U+00A0 is the only two-byte member. *)
Definition ws2 (c1 c2 : ascii) : bool :=
  (code c1 =? 194)%N && (code c2 =? 160)%N.

(** Three-byte members: U+1680, U+2000..U+200A, U+2028, U+2029, U+202F,
    U+205F, U+3000, U+FEFF. *)
Definition ws3 (c1 c2 c3 : ascii) : bool :=
  let a := code c1 in let b := code c2 in let c := code c3 in
  ((a =? 225) && (b =? 154) && (c =? 128))%N
  || ((a =? 226) && (b =? 128)
      && (((128 <=? c) && (c <=? 138)) || (c =? 168) || (c =? 169) || (c =? 175)))%N
  || ((a =? 226) && (b =? 129) && (c =? 159))%N
  || ((a =? 227) && (b =? 128) && (c =? 128))%N
  || ((a =? 239) && (b =? 187) && (c =? 191))%N.

(** [String.prototype.trimStart]. *)
Fixpoint trimStart (s : string) : string :=
  match s with
  | EmptyString => EmptyString
  | String c1 r1 =>
      if ws1 c1 then trimStart r1 else
      match r1 with
      | EmptyString => s
      | String c2 r2 =>
          if ws2 c1 c2 then trimStart r2 else
          match r2 with
          | EmptyString => s
          | String c3 r3 => if ws3 c1 c2 c3 then trimStart r3 else s
          end
      end
  end.

Definition is_empty (s : string) : bool :=
  match s with EmptyString => true | _ => false end.

(** The string consists of white space only. *)
Definition all_ws (s : string) : bool := is_empty (trimStart s).

(** [String.prototype.trimEnd]: cut at the first position from which only
    white space follows. *)
Fixpoint trimEnd (s : string) : string :=
  match s with
  | EmptyString => EmptyString
  | String c r => if all_ws s then EmptyString else String c (trimEnd r)
  end.

(** [String.prototype.trim]. *)
Definition trim (s : string) : string := trimEnd (trimStart s).

(** [s.replace(/\s+/g, ' ')]: every maximal run of white space becomes
    one space.  [prev] tells that the previous character was white
    space, so the run has already been replaced. *)
Fixpoint collapse_from (prev : bool) (s : string) : string :=
  let sp := if prev then EmptyString else " " in
  match s with
  | EmptyString => EmptyString
  | String c1 r1 =>
      if ws1 c1 then sp ++ collapse_from true r1 else
      match r1 with
      | EmptyString => String c1 EmptyString
      | String c2 r2 =>
          if ws2 c1 c2 then sp ++ collapse_from true r2 else
          match r2 with
          | EmptyString => String c1 (collapse_from false r1)
          | String c3 r3 =>
              if ws3 c1 c2 c3 then sp ++ collapse_from true r3
              else String c1 (collapse_from false r1)
          end
      end
  end.

Definition collapse_ws (s : string) : string := collapse_from false s.

(** First alternative of [/^\s*\n|\n\s*$/g], which can only match at
    index 0: the greedy [\s*] backtracks to the last line feed of the
    leading white space.  [Some r] is what follows the match. *)
Fixpoint after_leading_blank (s : string) : option string :=
  match s with
  | EmptyString => None
  | String c1 r1 =>
      if ws1 c1 then
        match after_leading_blank r1 with
        | Some r => Some r
        | None => if (code c1 =? 10)%N then Some r1 else None
        end
      else
      match r1 with
      | EmptyString => None
      | String c2 r2 =>
          if ws2 c1 c2 then after_leading_blank r2 else
          match r2 with
          | EmptyString => None
          | String c3 r3 =>
              if ws3 c1 c2 c3 then after_leading_blank r3 else None
          end
      end
  end.

(** Second alternative: the first line feed after which only white space
    follows, up to the end of the input, is cut off with what follows. *)
Fixpoint cut_trailing_blank (s : string) : string :=
  match s with
  | EmptyString => EmptyString
  | String c r =>
      if (code c =? 10)%N && all_ws r then EmptyString
      else String c (cut_trailing_blank r)
  end.

(** [s.replace(/^\s*\n|\n\s*$/g, '')]. *)
Definition strip_blank_edges (s : string) : string :=
  match after_leading_blank s with
  | Some r => cut_trailing_blank r
  | None => cut_trailing_blank s
  end.

(** [s.replace(/[^\d+]/g, '')]: keep the digits and every ['+']. *)
Fixpoint keep_digits_plus (s : string) : string :=
  match s with
  | EmptyString => EmptyString
  | String c r =>
      if is_digit c || (code c =? 43)%N then String c (keep_digits_plus r)
      else keep_digits_plus r
  end.

(** [s.startsWith('+')]. *)
Definition startsWith_plus (s : string) : bool :=
  match s with
  | String c _ => (code c =? 43)%N
  | EmptyString => false
  end.

Fixpoint all_digits (s : string) : bool :=
  match s with
  | EmptyString => true
  | String c r => is_digit c && all_digits r
  end.

Fixpoint contains (p : ascii -> bool) (s : string) : bool :=
  match s with
  | EmptyString => false
  | String c r => p c || contains p r
  end.

(** The longest prefix of [s] whose characters satisfy [p], and the rest. *)
Fixpoint span (p : ascii -> bool) (s : string) : string * string :=
  match s with
  | EmptyString => (EmptyString, EmptyString)
  | String c r =>
      if p c then let '(a, b) := span p r in (String c a, b)
      else (EmptyString, s)
  end.

(** Value of a string of digits in base [base]; [dv] gives the value of a
    digit. *)
Fixpoint digits_value (base : N) (dv : ascii -> N) (acc : N) (s : string) : N :=
  match s with
  | EmptyString => acc
  | String c r => digits_value base dv (acc * base + dv c)%N r
  end.

Definition decimal_value (s : string) : N := digits_value 10 digit_val 0 s.

Definition digit_char (d : N) : ascii := ascii_of_N (48 + d mod 10).

(** Decimal digits of [n], most significant first; ["0"] for zero. *)
Fixpoint digits_aux (fuel : nat) (n : N) (acc : string) : string :=
  let acc' := String (digit_char n) acc in
  match fuel with
  | O => acc'
  | S f => if (n / 10 =? 0)%N then acc' else digits_aux f (n / 10)%N acc'
  end.

Definition of_N (n : N) : string :=
  digits_aux (N.to_nat (N.log2 n)) n EmptyString.

Fixpoint repeat_char (c : ascii) (n : nat) : string :=
  match n with
  | O => EmptyString
  | S k => String c (repeat_char c k)
  end.

(** Decimal digits of [n], padded on the left with zeros to at least
    [k] digits. *)
Definition of_N_padded (k : nat) (n : N) : string :=
  let d := of_N n in
  repeat_char "0"%char (k - String.length d) ++ d.

End Str.

(* ================================================================== *)
(** * Numbers: IEEE 754 binary64 *)
(* ================================================================== *)

Module Num.

Local Open Scope Z_scope.

Definition prec : Z := 53.
Definition emax : Z := 1024.

Definition num : Type := spec_float.

Definition NaN : num := S754_nan.
Definition zero : num := S754_zero false.
Definition Infinity : num := S754_infinity false.
Definition negInfinity : num := S754_infinity true.

Definition add : num -> num -> num := SFadd prec emax.
Definition div : num -> num -> num := SFdiv prec emax.
Definition ltb : num -> num -> bool := SFltb.

(** Global [isNaN] applied to a number. *)
Definition isNaN (x : num) : bool :=
  match x with S754_nan => true | _ => false end.

Definition isFinite (x : num) : bool :=
  match x with S754_zero _ | S754_finite _ _ _ => true | _ => false end.

(** ToBoolean of a number: [+0], [-0] and [NaN] are falsy. *)
Definition truthy (x : num) : bool :=
  match x with S754_zero _ | S754_nan => false | _ => true end.

(** Same representation (not the [===] of JavaScript, which identifies
    the two zeros and separates NaN from itself). *)
Definition same (x y : num) : bool :=
  match x, y with
  | S754_zero a, S754_zero b => Bool.eqb a b
  | S754_infinity a, S754_infinity b => Bool.eqb a b
  | S754_nan, S754_nan => true
  | S754_finite a m e, S754_finite b m' e' =>
      Bool.eqb a b && (m =? m')%positive && (e =? e')
  | _, _ => false
  end.

(** The integer [z] rounded to the nearest number, ties to even. *)
Definition of_Z (z : Z) : num := binary_normalize prec emax z 0 false.

(** The value of the decimal [(-1)^neg * m * 10^e10] rounded to the
    nearest number, ties to even: what a decimal literal denotes. *)
Definition of_decimal (neg : bool) (m : N) (e10 : Z) : num :=
  match m with
  | N0 => S754_zero neg
  | Npos p =>
      if 0 <=? e10
      then binary_round prec emax neg (p * Z.to_pos (10 ^ e10)) 0
      else SFdiv prec emax (S754_finite neg p 0)
                           (S754_finite false (Z.to_pos (10 ^ (- e10))) 0)
  end.

(** [1_000_000_000]. *)
Definition billion : num := Eval vm_compute in of_Z 1000000000.

(** ** Reading numbers from strings *)

(** An ExponentPart at the head of [s]: [e] or [E], an optional sign and
    at least one digit.  Returns the exponent and the rest of [s]; the
    exponent 0 and [s] itself when there is none. *)
Definition read_exponent (s : string) : Z * string :=
  match s with
  | String c r =>
      if (Str.code c =? 101)%N || (Str.code c =? 69)%N then
        let '(neg, r') :=
          match r with
          | String d r0 =>
              if (Str.code d =? 45)%N then (true, r0)
              else if (Str.code d =? 43)%N then (false, r0)
              else (false, r)
          | EmptyString => (false, r)
          end in
        let '(ds, rest) := Str.span Str.is_digit r' in
        if Str.is_empty ds then (0, s)
        else ((if neg then - Z.of_N (Str.decimal_value ds)
               else Z.of_N (Str.decimal_value ds)), rest)
      else (0, s)
  | EmptyString => (0, s)
  end.

(** A prefix of [s] read as StrUnsignedDecimalLiteral without the
    [Infinity] case: digits, an optional fraction, an optional exponent.
    Returns the digits read as one integer, the power of ten that scales
    it, and the rest of [s]; [None] when neither the integer part nor the
    fraction has a digit. *)
Definition read_decimal (s : string) : option (N * Z * string) :=
  let '(ip, r1) := Str.span Str.is_digit s in
  let '(fp, r2) :=
    match r1 with
    | String c r =>
        if (Str.code c =? 46)%N then Str.span Str.is_digit r
        else (EmptyString, r1)
    | EmptyString => (EmptyString, r1)
    end in
  if Str.is_empty ip && Str.is_empty fp then None
  else
    let '(e, rest) := read_exponent r2 in
    Some (Str.decimal_value (ip ++ fp), e - Z.of_nat (String.length fp), rest).

(** Splits an optional sign off. *)
Definition read_sign (s : string) : bool * string :=
  match s with
  | String c r =>
      if (Str.code c =? 45)%N then (true, r)
      else if (Str.code c =? 43)%N then (false, r)
      else (false, s)
  | EmptyString => (false, s)
  end.

Definition is_hex_digit (c : ascii) : bool :=
  let n := Str.code c in
  (Str.is_digit c || ((65 <=? n) && (n <=? 70)) || ((97 <=? n) && (n <=? 102)))%N.

Definition hex_val (c : ascii) : N :=
  let n := Str.code c in
  (if Str.is_digit c then n - 48 else if n <=? 70 then n - 55 else n - 87)%N.

Definition is_octal_digit (c : ascii) : bool :=
  ((48 <=? Str.code c) && (Str.code c <=? 55))%N.

Definition is_binary_digit (c : ascii) : bool :=
  ((48 <=? Str.code c) && (Str.code c <=? 49))%N.

(** NonDecimalIntegerLiteral: [0x], [0o], [0b] and their capitals. *)
Definition read_radix (s : string) : option num :=
  match s with
  | String z (String x ds) =>
      if (Str.code z =? 48)%N && negb (Str.is_empty ds) then
        let lit (ok : ascii -> bool) (base : N) (dv : ascii -> N) :=
          if Str.is_empty (snd (Str.span ok ds))
          then Some (of_Z (Z.of_N (Str.digits_value base dv 0 ds)))
          else None in
        let n := Str.code x in
        if ((n =? 120) || (n =? 88))%N then lit is_hex_digit 16%N hex_val
        else if ((n =? 111) || (n =? 79))%N then lit is_octal_digit 8%N Str.digit_val
        else if ((n =? 98) || (n =? 66))%N then lit is_binary_digit 2%N Str.digit_val
        else None
      else None
  | _ => None
  end.

(** [s] starts with [p]; the rest of [s] when it does. *)
Fixpoint strip_prefix (p s : string) : option string :=
  match p, s with
  | EmptyString, _ => Some s
  | String a p', String b s' =>
      if (Str.code a =? Str.code b)%N then strip_prefix p' s' else None
  | String _ _, EmptyString => None
  end.

(** StringToNumber: [Number(s)] for a string [s]. *)
Definition StringToNumber (s : string) : num :=
  let t := Str.trim s in
  if Str.is_empty t then zero
  else
    match read_radix t with
    | Some v => v
    | None =>
        let '(neg, u) := read_sign t in
        match strip_prefix "Infinity" u with
        | Some EmptyString => S754_infinity neg
        | _ =>
            match read_decimal u with
            | Some (m, e, EmptyString) => of_decimal neg m e
            | _ => NaN
            end
        end
    end.

(** [parseFloat(s)]: the longest prefix that is a decimal literal. *)
Definition parseFloat (s : string) : num :=
  let '(neg, u) := read_sign (Str.trimStart s) in
  match strip_prefix "Infinity" u with
  | Some _ => S754_infinity neg
  | None =>
      match read_decimal u with
      | Some (m, e, _) => of_decimal neg m e
      | None => NaN
      end
  end.

(** ** Printing numbers *)

(** A positive finite number [m * 2^e] as an exact fraction. *)
Definition fraction (m : positive) (e : Z) : Z * Z :=
  if 0 <=? e then (Zpos m * 2 ^ e, 1) else (Zpos m, 2 ^ (- e)).

(** [floor (n / d * 10^k)] for a fraction [n / d] and any integer [k]. *)
Definition scaled_floor (n d k : Z) : Z :=
  if 0 <=? k then (n * 10 ^ k) / d else n / (d * 10 ^ (- k)).

(** Twice the remainder of that division against its divisor: how the
    scaled fraction compares with the middle of the two nearest
    integers. *)
Definition scaled_half (n d k : Z) : comparison :=
  if 0 <=? k then (2 * ((n * 10 ^ k) mod d) ?= d)
  else (2 * (n mod (d * 10 ^ (- k))) ?= d * 10 ^ (- k)).

(** The decimal exponent of [n / d]: the [p] with
    [10^(p-1) <= n / d < 10^p], searched upwards from [p]. *)
Fixpoint decimal_exponent (fuel : nat) (n d p : Z) : Z :=
  match fuel with
  | O => p
  | S f =>
      if (if 0 <=? p then n <? d * 10 ^ p else n * 10 ^ (- p) <? d)
      then p else decimal_exponent f n d (p + 1)
  end.

(** Number::toString, step 5: the least [k] and the [k]-digit integer [s]
    with [s * 10^(p-k)] denoting the number; of two such [s] the one
    nearer to the number.  Returns [s] and the exponent [p], which moves
    up by one when [s] would reach [10^k]. *)
Fixpoint shortest_digits (fuel : nat) (x : num) (n d p k : Z) : N * Z :=
  let lo := scaled_floor n d (k - p) in
  let hi := lo + 1 in
  let ok_lo := same (of_decimal false (Z.to_N lo) (p - k)) x in
  let ok_hi := same (of_decimal false (Z.to_N hi) (p - k)) x in
  let pick_hi :=
    if hi =? 10 ^ k then (Z.to_N (10 ^ (k - 1)), p + 1) else (Z.to_N hi, p) in
  let pick_lo := (Z.to_N lo, p) in
  match fuel with
  | O => pick_lo
  | S f =>
      match ok_lo, ok_hi with
      | true, true =>
          match scaled_half n d (k - p) with
          | Lt => pick_lo
          | Gt => pick_hi
          | Eq => if Z.even lo then pick_lo else pick_hi
          end
      | true, false => pick_lo
      | false, true => pick_hi
      | false, false => shortest_digits f x n d p (k + 1)
      end
  end.

Definition substring_from (i : nat) (s : string) : string :=
  String.substring i (String.length s - i) s.

(** Number::toString, steps 6 to 12, for the digits [ds] (there are [k]
    of them) and the exponent [p]. *)
Definition layout_digits (ds : string) (p : Z) : string :=
  let k := Z.of_nat (String.length ds) in
  if (-5 <=? p) && (p <=? 21) then
    if k <=? p then ds ++ Str.repeat_char "0"%char (Z.to_nat (p - k))
    else if 0 <? p then
      String.substring 0 (Z.to_nat p) ds ++ "." ++ substring_from (Z.to_nat p) ds
    else "0." ++ Str.repeat_char "0"%char (Z.to_nat (- p)) ++ ds
  else
    let e := p - 1 in
    let tail := (if e <? 0 then "e-" else "e+") ++ Str.of_N (Z.to_N (Z.abs e)) in
    if k =? 1 then ds ++ tail
    else String.substring 0 1 ds ++ "." ++ substring_from 1 ds ++ tail.

(** Number::toString(x), radix 10. *)
Definition numberToString (x : num) : string :=
  match x with
  | S754_nan => "NaN"
  | S754_zero _ => "0"
  | S754_infinity s => if s then "-Infinity" else "Infinity"
  | S754_finite s m e =>
      let '(n, d) := fraction m e in
      let p := decimal_exponent 700 n d (-330) in
      let '(ds, p') := shortest_digits 17 (S754_finite false m e) n d p 1 in
      (if s then "-" else "") ++ layout_digits (Str.of_N ds) p'
  end.

(** [10^21 <= |x|] for a finite [x = m * 2^e]. *)
Definition at_least_1e21 (m : positive) (e : Z) : bool :=
  let '(n, d) := fraction m e in d * 10 ^ 21 <=? n.

(** The integer [n] for which [n / 100 - m * 2^e] is as close to zero as
    possible, the larger one if there are two. *)
Definition hundredths (m : positive) (e : Z) : N :=
  let '(n, d) := fraction m e in Z.to_N ((2 * 100 * n + d) / (2 * d)).

(** [x.toFixed(2)] (Number.prototype.toFixed with two fraction
    digits). *)
Definition toFixed2 (x : num) : string :=
  match x with
  | S754_nan => "NaN"
  | S754_infinity _ => numberToString x
  | S754_zero _ => "0.00"
  | S754_finite s m e =>
      if at_least_1e21 m e then numberToString x
      else
        let ds := Str.of_N_padded 3 (hundredths m e) in
        let k := String.length ds in
        (if s then "-" else "")
        ++ String.substring 0 (k - 2) ds ++ "." ++ substring_from (k - 2) ds
  end.

End Num.

(* ================================================================== *)
(** * Values, exceptions and the operations of the language *)
(* ================================================================== *)

Module Js.

Import Num.

(** What [JSON.parse] (so [express.json()] and [response.json()]) can
    produce, plus [undefined].  An object is the list of its own
    properties; the first binding of a key is the one that counts. *)
#[warnings="-register-all"]
Inductive value : Type :=
| VUndef
| VNull
| VBool (b : bool)
| VNum (n : num)
| VStr (s : string)
| VArr (elems : list value)
| VObj (props : list (string * value)).

(** A thrown value as the [catch] blocks look at it: whether it is an
    [instanceof Error], and its [status] and [message] properties. *)
Record exn : Type := mkExn {
  exn_isError : bool;
  exn_status : option num;
  exn_message : option string
}.

(** A [TypeError] raised by the language itself. *)
Definition TypeError (msg : string) : exn :=
  {| exn_isError := true; exn_status := None; exn_message := Some msg |}.

Inductive result (A : Type) : Type :=
| Ok (a : A)
| Throw (e : exn).
Arguments Ok {A} a.
Arguments Throw {A} e.

Definition bind {A B : Type} (r : result A) (k : A -> result B) : result B :=
  match r with
  | Ok a => k a
  | Throw e => Throw e
  end.

Declare Scope js_scope.
Delimit Scope js_scope with js.
Notation "x <- r ;; k" := (bind r (fun x => k))
  (at level 61, r at next level, right associativity) : js_scope.
Local Open Scope js_scope.

(** ToBoolean. *)
Definition truthy (v : value) : bool :=
  match v with
  | VUndef | VNull => false
  | VBool b => b
  | VNum n => Num.truthy n
  | VStr s => negb (Str.is_empty s)
  | VArr _ | VObj _ => true
  end.

(** [a || b] when evaluating [b] has no effect. *)
Definition or_else (a b : value) : value := if truthy a then a else b.

Definition is_nullish (v : value) : bool :=
  match v with VUndef | VNull => true | _ => false end.

(** [typeof v === 'number']. *)
Definition is_number (v : value) : bool :=
  match v with VNum _ => true | _ => false end.

(** [v === 'lit'] for a string literal. *)
Definition strict_eq_string (v : value) (lit : string) : bool :=
  match v with
  | VStr s => String.eqb s lit
  | _ => false
  end.

Fixpoint lookup (k : string) (props : list (string * value)) : option value :=
  match props with
  | [] => None
  | (k', v) :: rest => if String.eqb k k' then Some v else lookup k rest
  end.

Definition has_own (k : string) (props : list (string * value)) : bool :=
  match lookup k props with Some _ => true | None => false end.

(** The first character of a string, all its bytes. *)
Definition first_char (s : string) : string :=
  match s with
  | EmptyString => EmptyString
  | String c r =>
      let n := Str.code c in
      let len := (if n <? 192 then 1 else if n <? 224 then 2
                  else if n <? 240 then 3 else 4)%N in
      String.substring 0 (N.to_nat len) s
  end.

(** Length of a string in UTF-16 code units: a character of four bytes
    takes two units, a continuation byte none. *)
Fixpoint utf16_length (s : string) : N :=
  match s with
  | EmptyString => 0
  | String c r =>
      let n := Str.code c in
      ((if (128 <=? n) && (n <? 192) then 0 else if 240 <=? n then 2 else 1)
       + utf16_length r)%N
  end.

(** [v.k] for one of the data property names the handlers read; none of
    them but [length] exists on a built-in prototype, so on an object
    the read sees own properties only.  Reading from [undefined] or
    [null] throws. *)
Definition get (v : value) (k : string) : result value :=
  match v with
  | VUndef =>
      Throw (TypeError ("Cannot read properties of undefined (reading '" ++ k ++ "')"))
  | VNull =>
      Throw (TypeError ("Cannot read properties of null (reading '" ++ k ++ "')"))
  | VObj props =>
      Ok (match lookup k props with Some x => x | None => VUndef end)
  | VArr l =>
      Ok (if String.eqb k "length" then VNum (of_Z (Z.of_nat (List.length l)))
          else VUndef)
  | VStr s =>
      Ok (if String.eqb k "length" then VNum (of_Z (Z.of_N (utf16_length s)))
          else VUndef)
  | VBool _ | VNum _ => Ok VUndef
  end.

(** [v?.k]. *)
Definition get_opt (v : value) (k : string) : value :=
  match get v k with
  | Ok x => x
  | Throw _ => VUndef
  end.

(** [v[0]] for a [v] that is neither [undefined] nor [null].  Of a
    string it is the first character (for a character outside the basic
    plane JavaScript gives the first of its two code units; either is a
    non-empty string, and nothing more is read from it). *)
Definition get_index0 (v : value) : value :=
  match v with
  | VArr l => match l with x :: _ => x | [] => VUndef end
  | VStr s => if Str.is_empty s then VUndef else VStr (first_char s)
  | VObj props => match lookup "0" props with Some x => x | None => VUndef end
  | _ => VUndef
  end.

Definition not_primitive : exn :=
  TypeError "Cannot convert object to primitive value".

(** ToString.  An object of JSON that has an own [toString] property
    (which cannot be a function) has no usable conversion: the
    inherited [valueOf] returns the object itself, and the conversion
    throws.  Without it the inherited [toString] answers.  An array
    joins its elements with commas, [null] and [undefined] giving the
    empty string. *)
Fixpoint ToString (v : value) : result string :=
  match v with
  | VUndef => Ok "undefined"
  | VNull => Ok "null"
  | VBool b => Ok (if b then "true" else "false")
  | VNum n => Ok (numberToString n)
  | VStr s => Ok s
  | VArr l =>
      (fix join (l : list value) : result string :=
         match l with
         | [] => Ok ""
         | x :: rest =>
             s <- (if is_nullish x then Ok "" else ToString x) ;;
             match rest with
             | [] => Ok s
             | _ :: _ => t <- join rest ;; Ok (s ++ "," ++ t)
             end
         end) l
  | VObj props =>
      if has_own "toString" props then Throw not_primitive
      else Ok "[object Object]"
  end.

(** ToNumber, which is [Number(v)]. *)
Definition ToNumber (v : value) : result num :=
  match v with
  | VUndef => Ok NaN
  | VNull => Ok zero
  | VBool b => Ok (if b then of_Z 1 else zero)
  | VNum n => Ok n
  | VStr s => Ok (StringToNumber s)
  | VArr _ | VObj _ => s <- ToString v ;; Ok (StringToNumber s)
  end.

(** [v > 0]. *)
Definition gt_zero (v : value) : result bool :=
  n <- ToNumber v ;; Ok (ltb zero n).

(** [Number(v) || 0]. *)
Definition Number_or_0 (v : value) : result num :=
  n <- ToNumber v ;; Ok (if Num.truthy n then n else zero).

(** The object literal [{ k1: v1, ... }]. *)
Definition obj (props : list (string * value)) : value := VObj props.

(** [JSON.stringify(n)] for a number [n], to which [res.json] hands the
    numbers of its argument: the text of a finite number, and [null]
    for NaN and the infinities. *)
Definition JSON_stringify_number (n : num) : string :=
  if isFinite n then numberToString n else "null".

End Js.

(* ================================================================== *)
(** * backend.js *)
(* ================================================================== *)

Module Backend.

Import Num Js.
Local Open Scope js_scope.
Local Open Scope Z_scope.

(** ** The outside world *)

(** The response of [fetch]: its status and what [response.json()]
    gives, a value or a rejection when the body does not parse. *)
Record response : Type := mkResponse {
  status : Z;
  json : result value
}.

(** [response.ok]: the status is in the range 200 to 299. *)
Definition ok (r : response) : bool := (200 <=? status r) && (status r <=? 299).

(** The configuration read at start-up and the calls the handlers make
    to the two providers, each as a function of its arguments. *)
Record world : Type := mkWorld {
  TWILIO_PHONE_NUMBER : value;
  (** [verifications.create({ to, channel: 'sms' })] *)
  verifications_create : value -> result value;
  (** [verificationChecks.create({ to, code })] *)
  verificationChecks_create : value -> value -> result value;
  (** [messages.create({ body, to, from })] *)
  messages_create : string -> value -> value -> result value;
  (** [fetch(routesApiUrl, ...)] for the addresses [pickup], [dropoff] *)
  fetch : value -> value -> result response
}.

(** What a handler does with its request: the status it sets and the
    value it hands to [res.json], or the exception that escapes it. *)
Inductive outcome : Type :=
| Respond (code : Z) (body : value)
| Rejected (e : exn).

(** [res.status(code).json({ message })]. *)
Definition message_only (code : Z) (msg : string) : outcome :=
  Respond code (obj [("message", VStr msg)]).

(** ** formatPhoneNumberForTwilio *)

Definition formatPhoneNumberForTwilio (number : value) : result value :=
  if negb (truthy number) then Ok VNull
  else
    match number with
    | VStr s =>
        let cleanedNumber := Str.keep_digits_plus s in
        if negb (Str.startsWith_plus cleanedNumber)
        then Ok (VStr ("+91" ++ cleanedNumber))
        else Ok (VStr cleanedNumber)
    | _ => Throw (TypeError "number.replace is not a function")
    end.

(** ** The error messages of the catch blocks *)

(** [error.status && error.message] is truthy. *)
Definition has_status_and_message (error : exn) : bool :=
  match exn_status error, exn_message error with
  | Some st, Some m => Num.truthy st && negb (Str.is_empty m)
  | _, _ => false
  end.

Definition status_text (error : exn) : string :=
  match exn_status error with
  | Some st => numberToString st
  | None => "undefined"
  end.

Definition message_text (error : exn) : string :=
  match exn_message error with
  | Some m => m
  | None => "undefined"
  end.

Definition twilio_api_error (error : exn) : string :=
  "Twilio API Error (" ++ status_text error ++ "): " ++ message_text error.

(** The catch blocks of [/api/send-otp] and [/api/verify-otp]. *)
Definition errorMessageForClient (default : string) (error : exn) : string :=
  if has_status_and_message error then twilio_api_error error
  else if exn_isError error then "Server Error: " ++ message_text error
  else default.

(** ** POST /api/send-otp *)

Definition send_otp (w : world) (body : value) : outcome :=
  match (phoneNumber <- get body "phoneNumber" ;;
         formatPhoneNumberForTwilio phoneNumber) with
  | Throw e => Rejected e
  | Ok phoneNumber =>
      if negb (truthy phoneNumber)
      then message_only 400 "Phone number is required and must be valid."
      else
        match (verification <- verifications_create w phoneNumber ;;
               sid <- get verification "sid" ;;
               Ok (Respond 200 (obj [("message", VStr "OTP sent successfully!");
                                     ("sid", sid)]))) with
        | Ok r => r
        | Throw error =>
            message_only 500
              (errorMessageForClient "Failed to send OTP. Please try again." error)
        end
  end.

(** ** POST /api/verify-otp *)

(** The [try] block; the template literal of its log line converts
    [otpCode] to a string first. *)
Definition verify_otp_try (w : world) (phoneNumber otpCode : value) : result outcome :=
  _ <- ToString otpCode ;;
  verificationCheck <- verificationChecks_create w phoneNumber otpCode ;;
  st <- get verificationCheck "status" ;;
  if strict_eq_string st "approved"
  then Ok (Respond 200 (obj [("message", VStr "OTP verified successfully!");
                             ("status", VStr "approved")]))
  else Ok (Respond 400 (obj [("message", VStr "Invalid OTP. Please try again.");
                             ("status", st)])).

Definition verify_otp (w : world) (body : value) : outcome :=
  match (phoneNumber <- get body "phoneNumber" ;;
         otpCode <- get body "otpCode" ;;
         phoneNumber <- formatPhoneNumberForTwilio phoneNumber ;;
         Ok (phoneNumber, otpCode)) with
  | Throw e => Rejected e
  | Ok (phoneNumber, otpCode) =>
      if negb (truthy phoneNumber) || negb (truthy otpCode)
      then message_only 400 "Phone number and OTP code are required."
      else
        match verify_otp_try w phoneNumber otpCode with
        | Ok r => r
        | Throw error =>
            message_only 500
              (errorMessageForClient "Verification failed. Please try again." error)
        end
  end.

(** ** POST /api/send-booking-sms *)

Definition nl : string := String Str.LF EmptyString.
Definition indent : string := "            ".

(** The template literal of [messageBody] with its eight substitutions
    already converted to strings.  The characters before the fare are,
    byte for byte, those of the source file. *)
Definition template (id from to date time fare driver vehicle : string) : string :=
  nl ++ indent ++ "Fasttrack Drop Taxi Booking Confirmed!" ++
  nl ++ indent ++ "ID: " ++ id ++
  nl ++ indent ++ "From: " ++ from ++
  nl ++ indent ++ "To: " ++ to ++
  nl ++ indent ++ "Date: " ++ date ++ " " ++ time ++
  nl ++ indent ++ "Fare: â‚¹" ++ fare ++
  nl ++ indent ++ "Driver: " ++ driver ++ " (" ++ vehicle ++ ")" ++
  nl ++ indent ++ "Download App for updates!" ++
  nl ++ "        ".

(** [${bookingDetails.k || fallback}]. *)
Definition field_or (bookingDetails : value) (k fallback : string) : result string :=
  v <- get bookingDetails k ;; ToString (or_else v (VStr fallback)).

(** [bookingDetails.fareDetails?.total?.toFixed(2)]: the chain stops
    with [undefined] at a [null] or [undefined] link; otherwise
    [toFixed] is called, and only a number has it. *)
Definition fare_total_fixed (bookingDetails : value) : result value :=
  fareDetails <- get bookingDetails "fareDetails" ;;
  if is_nullish fareDetails then Ok VUndef
  else
    total <- get fareDetails "total" ;;
    if is_nullish total then Ok VUndef
    else
      match total with
      | VNum n => Ok (VStr (toFixed2 n))
      | _ => Throw (TypeError "bookingDetails.fareDetails?.total?.toFixed is not a function")
      end.

(** [${bookingDetails.fareDetails?.total?.toFixed(2) || 'N/A'}]. *)
Definition fare_text (bookingDetails : value) : result string :=
  v <- fare_total_fixed bookingDetails ;; ToString (or_else v (VStr "N/A")).

Definition messageBody (bookingDetails : value) : result string :=
  id <- field_or bookingDetails "bookingId" "N/A" ;;
  from <- field_or bookingDetails "pickup" "N/A" ;;
  to <- field_or bookingDetails "dropoff" "N/A" ;;
  date <- field_or bookingDetails "pickupDate" "N/A" ;;
  time <- field_or bookingDetails "pickupTime" "N/A" ;;
  fare <- fare_text bookingDetails ;;
  driver <- field_or bookingDetails "driverName" "Assigned Soon" ;;
  vehicle <- field_or bookingDetails "driverVehicle" "N/A" ;;
  Ok (Str.trim (Str.collapse_ws (Str.strip_blank_edges
        (template id from to date time fare driver vehicle)))).

Definition invalid_phone_format : outcome :=
  message_only 400 "Invalid phone number format for SMS.".

(** The [try] block. *)
Definition send_booking_sms_try (w : world) (phoneNumber bookingDetails : value)
  : result outcome :=
  body <- messageBody bookingDetails ;;
  _ <- ToString phoneNumber ;;
  formattedPhoneNumber <- formatPhoneNumberForTwilio phoneNumber ;;
  if negb (truthy formattedPhoneNumber) then Ok invalid_phone_format
  else if negb (truthy (TWILIO_PHONE_NUMBER w)) then
    Ok (message_only 500
          "Server configuration error: Twilio phone number for sending SMS is missing.")
  else
    _ <- messages_create w body formattedPhoneNumber (TWILIO_PHONE_NUMBER w) ;;
    Ok (message_only 200 "Booking confirmation SMS sent.").

Definition send_booking_sms (w : world) (body : value) : outcome :=
  match (phoneNumber <- get body "phoneNumber" ;;
         bookingDetails <- get body "bookingDetails" ;;
         Ok (phoneNumber, bookingDetails)) with
  | Throw e => Rejected e
  | Ok (phoneNumber, bookingDetails) =>
      if negb (truthy phoneNumber) || negb (truthy bookingDetails)
      then message_only 400 "Phone number and booking details are required."
      else
        match send_booking_sms_try w phoneNumber bookingDetails with
        | Ok r => r
        | Throw error =>
            message_only 500
              (if has_status_and_message error then twilio_api_error error
               else "Failed to send booking confirmation SMS.")
        end
  end.

(** ** POST /api/get-tolls *)

(** The callback of [estimatedPrice.forEach], as the new value of
    [calculatedToll].  The template literal of its log line converts
    the raw [units] and [nanos] to strings. *)
Definition price_step (calculatedToll : num) (price : value) : result num :=
  currencyCode <- get price "currencyCode" ;;
  if strict_eq_string currencyCode "INR" then
    rawUnits <- get price "units" ;;
    units <- Number_or_0 rawUnits ;;
    rawNanos <- get price "nanos" ;;
    nanos <- Number_or_0 rawNanos ;;
    _ <- ToString rawUnits ;;
    _ <- ToString rawNanos ;;
    if negb (isNaN units) && negb (isNaN nanos)
    then Ok (add calculatedToll (add units (div nanos billion)))
    else Ok calculatedToll
  else Ok calculatedToll.

Fixpoint forEach_price (prices : list value) (calculatedToll : num) : result num :=
  match prices with
  | [] => Ok calculatedToll
  | price :: rest =>
      t <- price_step calculatedToll price ;; forEach_price rest t
  end.

(** [estimatedPrice.forEach(...)]: only an array has [forEach]. *)
Definition forEach_estimatedPrice (estimatedPrice : value) (calculatedToll : num)
  : result num :=
  match estimatedPrice with
  | VArr prices => forEach_price prices calculatedToll
  | _ =>
      Throw (TypeError
        "firstRoute.travelAdvisory.tollInfo.estimatedPrice.forEach is not a function")
  end.

(** [calculatedToll] after the walk over the parsed response [data]. *)
Definition sum_tolls (data : value) : result num :=
  let calculatedToll := zero in
  routes <- get data "routes" ;;
  some_route <-
    (if truthy routes then len <- get routes "length" ;; gt_zero len
     else Ok false) ;;
  if some_route : bool then
    let firstRoute := get_index0 routes in
    travelAdvisory <- get firstRoute "travelAdvisory" ;;
    if truthy travelAdvisory then
      tollInfo <- get travelAdvisory "tollInfo" ;;
      if truthy tollInfo then
        estimatedPrice <- get tollInfo "estimatedPrice" ;;
        if truthy estimatedPrice
        then forEach_estimatedPrice estimatedPrice calculatedToll
        else Ok calculatedToll
      else Ok calculatedToll
    else Ok calculatedToll
  else Ok calculatedToll.

(** The final safeguard: [typeof calculatedToll !== 'number'] never
    holds, [isNaN(calculatedToll)] resets to 0. *)
Definition safeguard (calculatedToll : num) : num :=
  if isNaN calculatedToll then zero else calculatedToll.

(** [parseFloat(calculatedToll.toFixed(2))]. *)
Definition tollAmount (calculatedToll : num) : num :=
  parseFloat (toFixed2 calculatedToll).

(** The handler from [const data = await googleResponse.json()] on. *)
Definition toll_success (googleResponse : response) : result outcome :=
  data <- json googleResponse ;;
  calculatedToll <- sum_tolls data ;;
  Ok (Respond 200
        (obj [("tollAmount", VNum (tollAmount (safeguard calculatedToll)))])).

Definition could_not_parse : value :=
  obj [("message", VStr "Could not parse error response from Google API.")].

(** The branch [if (!googleResponse.ok)]. *)
Definition toll_upstream_error (googleResponse : response) : result outcome :=
  let errorData :=
    match json googleResponse with
    | Ok v => v
    | Throw _ => could_not_parse
    end in
  error <- get errorData "error" ;;
  details <-
    (if truthy error then get error "message"
     else m <- get errorData "message" ;;
          Ok (or_else m (VStr "Unknown error from Google API"))) ;;
  Ok (Respond (status googleResponse)
        (obj [("message", VStr "Error fetching route from Google Maps API");
              ("details", details)])).

(** The [try] block. *)
Definition get_tolls_try (w : world) (pickup dropoff : value) : result outcome :=
  googleResponse <- fetch w pickup dropoff ;;
  if negb (ok googleResponse) then toll_upstream_error googleResponse
  else toll_success googleResponse.

Definition internal_error (error : exn) : outcome :=
  Respond 500
    (obj [("message", VStr "Internal server error during toll calculation.");
          ("details",
           match exn_message error with
           | Some m => or_else (VStr m) (VStr "Unknown error")
           | None => VStr "Unknown error"
           end)]).

Definition get_tolls (w : world) (body : value) : outcome :=
  match (pickup <- get body "pickup" ;;
         dropoff <- get body "dropoff" ;;
         Ok (pickup, dropoff)) with
  | Throw e => Rejected e
  | Ok (pickup, dropoff) =>
      if negb (truthy pickup) || negb (truthy dropoff)
      then message_only 400 "Pickup and dropoff locations are required."
      else
        match get_tolls_try w pickup dropoff with
        | Ok r => r
        | Throw error => internal_error error
        end
  end.

End Backend.

(* ================================================================== *)
(** * The routing provider's response, as the specification types it *)
(* ================================================================== *)

Module Routes.

Import Num Js.

(** A field of a price entry: missing, or a JSON value that is not an
    object or an array. *)
Inductive piece : Type :=
| Missing
| PNull
| PBool (b : bool)
| PNum (n : num)
| PStr (s : string).

(** TollPrice { currencyCode, units, nanos }. *)
Record TollPrice : Type := mkTollPrice {
  currencyCode : piece;
  units : piece;
  nanos : piece
}.

Record TollInfo : Type := mkTollInfo {
  estimatedPrice : option (list TollPrice)
}.

Record TravelAdvisory : Type := mkTravelAdvisory {
  tollInfo : option TollInfo
}.

Record Route : Type := mkRoute {
  travelAdvisory : option TravelAdvisory
}.

Record RoutesResponse : Type := mkRoutesResponse {
  routes : option (list Route)
}.

(** ** When a parsed body is a typed response *)

Definition piece_value (p : piece) : value :=
  match p with
  | Missing => VUndef
  | PNull => VNull
  | PBool b => VBool b
  | PNum n => VNum n
  | PStr s => VStr s
  end.

(** The property [k] of [v] is absent, or is there and is seen as [a].
    Nothing is said about the other properties of [v], nor about their
    order. *)
Definition optional {A : Type} (seen_as : value -> A -> Prop)
    (v : value) (k : string) (o : option A) : Prop :=
  match o with
  | None => get v k = Ok VUndef
  | Some a => exists x, get v k = Ok x /\ seen_as x a
  end.

Definition is_price (v : value) (p : TollPrice) : Prop :=
  get v "currencyCode" = Ok (piece_value (currencyCode p))
  /\ get v "units" = Ok (piece_value (units p))
  /\ get v "nanos" = Ok (piece_value (nanos p)).

Definition is_prices (v : value) (l : list TollPrice) : Prop :=
  exists vs, v = VArr vs /\ Forall2 is_price vs l.

Definition is_tollInfo (v : value) (t : TollInfo) : Prop :=
  truthy v = true /\ optional is_prices v "estimatedPrice" (estimatedPrice t).

Definition is_advisory (v : value) (a : TravelAdvisory) : Prop :=
  truthy v = true /\ optional is_tollInfo v "tollInfo" (tollInfo a).

Definition is_route (v : value) (r : Route) : Prop :=
  optional is_advisory v "travelAdvisory" (travelAdvisory r).

Definition is_routes (v : value) (l : list Route) : Prop :=
  exists vs, v = VArr vs /\ Forall2 is_route vs l.

(** The parsed body [data] is the typed response [r]. *)
Definition is_response (data : value) (r : RoutesResponse) : Prop :=
  optional is_routes data "routes" (routes r).

(** ** The total in the words of the specification *)

(** [routes[0].travelAdvisory.tollInfo.estimatedPrice], the empty
    sequence when any link is absent. *)
Definition prices_of (r : RoutesResponse) : list TollPrice :=
  match routes r with
  | Some (first :: _) =>
      match travelAdvisory first with
      | Some a =>
          match tollInfo a with
          | Some t =>
              match estimatedPrice t with
              | Some l => l
              | None => []
              end
          | None => []
          end
      | None => []
      end
  | _ => []
  end.

Definition is_INR (p : TollPrice) : bool :=
  match currencyCode p with
  | PStr c => String.eqb c "INR"
  | _ => false
  end.

(** The number a piece stands for, [NaN] when it stands for none. *)
Definition number_of (p : piece) : num :=
  match p with
  | Missing => NaN
  | PNull => zero
  | PBool b => if b then of_Z 1 else zero
  | PNum n => n
  | PStr s => StringToNumber s
  end.

(** A piece coerced to a number: non-numeric or missing is 0 (and a
    zero of either sign is 0). *)
Definition coerced (p : piece) : num :=
  match number_of p with
  | S754_nan | S754_zero _ => zero
  | n => n
  end.

(** [units + nanos / 1_000_000_000] of an entry. *)
Definition amount (p : TollPrice) : num :=
  add (coerced (units p)) (div (coerced (nanos p)) billion).

(** The running total over the INR entries, in order, from 0. *)
Definition inr_total (r : RoutesResponse) : num :=
  fold_left add (map amount (filter is_INR (prices_of r))) zero.

(** Rounding to two decimal places, as [toFixed(2)] rounds and
    [parseFloat] reads back. *)
Definition rounded2 (x : num) : num := parseFloat (toFixed2 x).

(** [x] is not a finite number of magnitude [10^21] or more, which
    [toFixed] prints with an exponent instead of two decimals. *)
Definition printed_in_digits (x : num) : bool :=
  match x with
  | S754_finite _ m e => negb (at_least_1e21 m e)
  | _ => true
  end.

(** The same rounding, on numbers: the number nearest to [n / 100], for
    the integer [n] with [n / 100] nearest to [|x|] (the larger of two),
    with the sign of [x]. *)
Definition nearest_hundredth (x : num) : num :=
  match x with
  | S754_finite s m e => of_decimal s (hundredths m e) (-2)
  | S754_zero _ => zero
  | _ => x
  end.

End Routes.

(* ================================================================== *)
(** * Predicates and sample data the statements use *)
(* ================================================================== *)

Module Shape.

Import Num Js Backend.

(** ** Strings *)

Definition is_plus (c : ascii) : bool := (Str.code c =? 43)%N.

Definition digit_or_plus (c : ascii) : bool := Str.is_digit c || is_plus c.

(** [+<digits>]: a ['+'] followed by digits only. *)
Definition plus_then_digits (s : string) : bool :=
  match s with
  | String c r => is_plus c && Str.all_digits r
  | EmptyString => false
  end.

(** [s] starts with a digit. *)
Definition digit_first (s : string) : bool :=
  match s with
  | String c _ => Str.is_digit c
  | EmptyString => false
  end.

(** [s] starts with a digit, possibly after a minus sign. *)
Definition signed_digit_first (s : string) : bool :=
  match s with
  | String c r => if (Str.code c =? 45)%N then digit_first r else Str.is_digit c
  | EmptyString => false
  end.

Definition is_line_break (c : ascii) : bool :=
  (Str.code c =? 10)%N || (Str.code c =? 13)%N.

(** Two spaces in a row somewhere in [s]. *)
Fixpoint has_double_space (s : string) : bool :=
  match s with
  | String a ((String b _) as r) =>
      ((Str.code a =? 32)%N && (Str.code b =? 32)%N) || has_double_space r
  | _ => false
  end.

(** [s] neither starts nor ends with white space. *)
Definition no_outer_space (s : string) : bool :=
  String.eqb (Str.trimStart s) s && String.eqb (Str.trimEnd s) s.

(** ** Requests and responses *)

(** A request body with the given properties. *)
Definition request (props : list (string * value)) : value := VObj props.

Definition approved_response : outcome :=
  Respond 200 (obj [("message", VStr "OTP verified successfully!");
                    ("status", VStr "approved")]).

Definition invalid_otp_response (st : value) : outcome :=
  Respond 400 (obj [("message", VStr "Invalid OTP. Please try again.");
                    ("status", st)]).

(** What the booking handler answers once the message went to Twilio. *)
Definition after_sending (sent : result value) : outcome :=
  match sent with
  | Ok _ => message_only 200 "Booking confirmation SMS sent."
  | Throw error =>
      message_only 500
        (if has_status_and_message error then twilio_api_error error
         else "Failed to send booking confirmation SMS.")
  end.

(** The booking message when every optional field falls back to its
    placeholder. *)
Definition placeholder_message : string :=
  "Fasttrack Drop Taxi Booking Confirmed! ID: N/A From: N/A To: N/A Date: N/A N/A Fare: â‚¹N/A Driver: Assigned Soon (N/A) Download App for updates!".

(** The optional fields of [bookingDetails] are all absent: the seven
    plain ones, and [fareDetails?.total], whether [fareDetails] itself
    is there or not. *)
Definition all_absent (bookingDetails : value) : Prop :=
  Forall (fun k => get bookingDetails k = Ok VUndef)
    ["bookingId"; "pickup"; "dropoff"; "pickupDate"; "pickupTime";
     "driverName"; "driverVehicle"]
  /\ get_opt (get_opt bookingDetails "fareDetails") "total" = VUndef.

(** A toll request with both addresses. *)
Definition toll_request : value :=
  request [("pickup", VStr "Chennai"); ("dropoff", VStr "Madurai")].

(** The body [{ tollAmount: n }]. *)
Definition toll_body (n : num) : value := obj [("tollAmount", VNum n)].

Definition is_finite_number (v : value) : bool :=
  match v with
  | VNum n => isFinite n
  | _ => false
  end.

(** 0.5 and 120.5. *)
Definition half : num := S754_finite false 4503599627370496 (-53).
Definition n120_5 : num := S754_finite false 8479433673408512 (-46).

(** ** Answers of the routing provider *)

(** A price entry as the provider sends it. *)
Definition price_entry (c u n : value) : value :=
  obj [("currencyCode", c); ("units", u); ("nanos", n)].

(** The body of a successful answer with one route whose only price
    entry is [entry]. *)
Definition one_route_body (entry : value) : value :=
  obj [("routes",
        VArr [obj [("distanceMeters", VNum (of_Z 462000));
                   ("duration", VStr "25200s");
                   ("travelAdvisory",
                    obj [("tollInfo", obj [("estimatedPrice", VArr [entry])])])]])].

(** The same answer, typed. *)
Definition one_price (p : Routes.TollPrice) : Routes.RoutesResponse :=
  Routes.mkRoutesResponse
    (Some [Routes.mkRoute
             (Some (Routes.mkTravelAdvisory
                (Some (Routes.mkTollInfo (Some [p])))))]).

(** The entry of JSON for a typed one. *)
Definition entry_of (p : Routes.TollPrice) : value :=
  price_entry (Routes.piece_value (Routes.currencyCode p))
              (Routes.piece_value (Routes.units p))
              (Routes.piece_value (Routes.nanos p)).

(** INR entries: 120 units and 500000000 nanos; units that are not
    numeric; infinite units; infinite units and nanos of opposite
    signs. *)
Definition inr_120_5 : Routes.TollPrice :=
  Routes.mkTollPrice (Routes.PStr "INR") (Routes.PStr "120") (Routes.PStr "500000000").
Definition inr_abc : Routes.TollPrice :=
  Routes.mkTollPrice (Routes.PStr "INR") (Routes.PStr "abc") (Routes.PStr "500000000").
Definition inr_infinite : Routes.TollPrice :=
  Routes.mkTollPrice (Routes.PStr "INR") (Routes.PStr "Infinity") (Routes.PStr "0").
Definition inr_undefined : Routes.TollPrice :=
  Routes.mkTollPrice (Routes.PStr "INR") (Routes.PStr "Infinity") (Routes.PStr "-Infinity").

(** ** Worlds *)

(** The exception of a call that does not come through. *)
Definition unreachable : exn :=
  {| exn_isError := true; exn_status := None; exn_message := Some "unreachable" |}.

(** The world in which the verification check answers [check]. *)
Definition checking (check : result value) : world :=
  {| TWILIO_PHONE_NUMBER := VStr "+15005550006";
     verifications_create := fun _ => Throw unreachable;
     verificationChecks_create := fun _ _ => check;
     messages_create := fun _ _ _ => Throw unreachable;
     fetch := fun _ _ => Throw unreachable |}.

(** The world in which Twilio accepts every message. *)
Definition delivering : world :=
  {| TWILIO_PHONE_NUMBER := VStr "+15005550006";
     verifications_create := fun _ => Throw unreachable;
     verificationChecks_create := fun _ _ => Throw unreachable;
     messages_create := fun _ _ _ => Ok (obj [("sid", VStr "SM1")]);
     fetch := fun _ _ => Throw unreachable |}.

(** The world in which the routing provider answers [r]. *)
Definition routing (r : result response) : world :=
  {| TWILIO_PHONE_NUMBER := VStr "+15005550006";
     verifications_create := fun _ => Throw unreachable;
     verificationChecks_create := fun _ _ => Throw unreachable;
     messages_create := fun _ _ _ => Throw unreachable;
     fetch := fun _ _ => r |}.

(** The world in which the routing provider answers 200 with the parsed
    body [data]. *)
Definition answering (data : value) : world :=
  routing (Ok (mkResponse 200 (Ok data))).

End Shape.

(* ================================================================== *)
(** * Loading the module: configuration and start-up *)
(* ================================================================== *)

Module Startup.

Import Num Js.
Local Open Scope Z_scope.

(** [process.env] once [dotenv.config()] has run: a variable holds a
    string, or is not set. *)
Definition environment : Type := string -> option string.

(** [process.env.NAME]. *)
Definition env (e : environment) (name : string) : value :=
  match e name with
  | Some s => VStr s
  | None => VUndef
  end.

(** The constants of the module that the middleware and the handlers
    read. *)
Record constants : Type := mkConstants {
  port : value;
  TWILIO_VERIFY_SERVICE_SID : value;
  TWILIO_PHONE_NUMBER : value;
  GOOGLE_ROUTES_API_KEY : value;
  allowedOrigin : value
}.

(** How the statements below end: [process.exit(code)], an exception
    nothing catches, or the constants bound and the options of the
    middleware evaluated, after which the module registers its routes
    and calls [app.listen(port)]. *)
Inductive loaded : Type :=
| Exit (code : Z)
| Uncaught (e : exn)
| Configured (c : constants).

(** The number 5000. *)
Definition n5000 : num := Eval vm_compute in of_Z 5000.

Definition ReferenceError (name : string) : exn :=
  {| exn_isError := true; exn_status := None;
     exn_message := Some (name ++ " is not defined") |}.

(** The names the declarations of [src/backend.js] bind at the top
    level: its five imports and its constants. *)
Definition backend_js : list string :=
  ["dotenv"; "express"; "cors"; "twilio"; "fetch"; "app"; "port";
   "TWILIO_ACCOUNT_SID"; "TWILIO_AUTH_TOKEN"; "TWILIO_VERIFY_SERVICE_SID";
   "TWILIO_PHONE_NUMBER"; "GOOGLE_ROUTES_API_KEY"; "twilioClient";
   "formatPhoneNumberForTwilio"].

(** Those of [src/unnamed/part_000], which declares two more. *)
Definition part_000 : list string :=
  ["dotenv"; "express"; "cors"; "twilio"; "fetch"; "app"; "port";
   "allowedOrigin";
   "TWILIO_ACCOUNT_SID"; "TWILIO_AUTH_TOKEN"; "TWILIO_VERIFY_SERVICE_SID";
   "TWILIO_PHONE_NUMBER"; "GOOGLE_ROUTES_API_KEY"; "twilioClient";
   "CORS_HEADERS"; "formatPhoneNumberForTwilio"].

(** Reading the identifier [name], bound to [v] where the file declares
    it: an identifier no declaration binds throws a ReferenceError. *)
Definition identifier (declared : list string) (name : string) (v : value)
  : result value :=
  if existsb (String.eqb name) declared then Ok v
  else Throw (ReferenceError name).

(** The statements of the module from [const port] to the options
    given to [cors(...)], in a file whose top-level names are
    [declared]; [twilio] is the constructor of the client. *)
Definition load (declared : list string) (e : environment)
    (twilio : value -> value -> result value) : loaded :=
  let port := or_else (env e "PORT") (VNum n5000) in
  let TWILIO_ACCOUNT_SID := env e "TWILIO_ACCOUNT_SID" in
  let TWILIO_AUTH_TOKEN := env e "TWILIO_AUTH_TOKEN" in
  let TWILIO_VERIFY_SERVICE_SID := env e "TWILIO_VERIFY_SERVICE_SID" in
  let TWILIO_PHONE_NUMBER := env e "TWILIO_PHONE_NUMBER" in
  let GOOGLE_ROUTES_API_KEY := env e "GOOGLE_ROUTES_API_KEY" in
  if negb (truthy TWILIO_ACCOUNT_SID) || negb (truthy TWILIO_AUTH_TOKEN)
     || negb (truthy TWILIO_VERIFY_SERVICE_SID) || negb (truthy TWILIO_PHONE_NUMBER)
  then Exit 1
  else
    match twilio TWILIO_ACCOUNT_SID TWILIO_AUTH_TOKEN with
    | Throw error => Uncaught error
    | Ok twilioClient =>
        if negb (truthy GOOGLE_ROUTES_API_KEY) then Exit 1
        else
          match identifier declared "allowedOrigin" (VStr "http://localhost:3000") with
          | Throw error => Uncaught error
          | Ok origin =>
              Configured {| port := port;
                         TWILIO_VERIFY_SERVICE_SID := TWILIO_VERIFY_SERVICE_SID;
                         TWILIO_PHONE_NUMBER := TWILIO_PHONE_NUMBER;
                         GOOGLE_ROUTES_API_KEY := GOOGLE_ROUTES_API_KEY;
                         allowedOrigin := origin |}
          end
    end.

(** The five variables the module requires. *)
Definition required : list string :=
  ["TWILIO_ACCOUNT_SID"; "TWILIO_AUTH_TOKEN"; "TWILIO_VERIFY_SERVICE_SID";
   "TWILIO_PHONE_NUMBER"; "GOOGLE_ROUTES_API_KEY"].

(** The variable is set to a string that is not empty. *)
Definition is_set (e : environment) (name : string) : bool :=
  match e name with
  | Some s => negb (Str.is_empty s)
  | None => false
  end.

End Startup.

(* ================================================================== *)
(** * The preflight handler of part_000 *)
(* ================================================================== *)

Module Preflight.

Import Js.
Local Open Scope js_scope.
Local Open Scope Z_scope.

(** The response object, as far as the handler touches it.  Header
    names are kept in lower case, as Node keeps them. *)
Record res : Type := mkRes {
  statusCode : Z;
  headers : list (string * string);
  finished : bool
}.

Definition lower (c : ascii) : ascii :=
  if ((65 <=? Str.code c) && (Str.code c <=? 90))%N
  then ascii_of_N (Str.code c + 32) else c.

Fixpoint toLowerCase (s : string) : string :=
  match s with
  | EmptyString => EmptyString
  | String c r => String (lower c) (toLowerCase r)
  end.

Fixpoint header (name : string) (hs : list (string * string)) : option string :=
  match hs with
  | [] => None
  | (k, v) :: rest => if String.eqb name k then Some v else header name rest
  end.

(** [res.getHeader(name)]. *)
Definition getHeader (name : string) (r : res) : option string :=
  header (toLowerCase name) (headers r).

(** [res.setHeader(name, value)]: the value replaces what the header
    had. *)
Definition setHeader (name value : string) (r : res) : res :=
  let k := toLowerCase name in
  {| statusCode := statusCode r;
     headers := (k, value)
                :: filter (fun h => negb (String.eqb (fst h) k)) (headers r);
     finished := finished r |}.

(** [res.status(code)]. *)
Definition status (code : Z) (r : res) : res :=
  {| statusCode := code; headers := headers r; finished := finished r |}.

(** [res.end()]. *)
Definition end_ (r : res) : res :=
  {| statusCode := statusCode r; headers := headers r; finished := true |}.

Definition allowedOrigin : string := "http://localhost:3000".

Definition CORS_HEADERS : list (string * string) :=
  [("Access-Control-Allow-Origin", allowedOrigin);
   ("Access-Control-Allow-Methods", "GET, POST, PUT, DELETE, OPTIONS");
   ("Access-Control-Allow-Headers",
    "X-CSRF-Token, X-Requested-With, Accept, Accept-Version, Content-Length, Content-MD5, Content-Type, Date, X-Api-Version, Authorization");
   ("Access-Control-Allow-Credentials", "true")].

(** [s] between double quotes. *)
Definition quoted (s : string) : string :=
  String (ascii_of_N 34) (s ++ String (ascii_of_N 34) EmptyString).

(** [Object.keys(o)] of an object literal. *)
Definition keys (o : list (string * string)) : list string := map fst o.

(** The handler of [app.options('*', ...)]: the callback of the
    [forEach] reads [CORS_HEADERS[key]]; [setHeader] refuses a value
    that is [undefined]. *)
Definition options_handler (r : res) : result res :=
  r <- fold_left
         (fun acc key =>
            r <- acc ;;
            match header key CORS_HEADERS with
            | Some v => Ok (setHeader key v r)
            | None =>
                Throw (TypeError
                  ("Invalid value " ++ quoted "undefined"
                   ++ " for header " ++ quoted key))
            end)
         (keys CORS_HEADERS) (Ok r) ;;
  Ok (end_ (status 200 r)).

(** The options given to the cors middleware of the same file. *)
Record cors_options : Type := mkCorsOptions {
  origin : string;
  methods : list string;
  allowedHeaders : list string;
  credentials : bool
}.

Definition cors_config : cors_options :=
  {| origin := allowedOrigin;
     methods := ["GET"; "POST"; "PUT"; "DELETE"; "OPTIONS"];
     allowedHeaders :=
       ["X-CSRF-Token"; "X-Requested-With"; "Accept"; "Accept-Version";
        "Content-Length"; "Content-MD5"; "Content-Type"; "Date";
        "X-Api-Version"; "Authorization"];
     credentials := true |}.

(** The items joined with a comma and a space. *)
Fixpoint listed (items : list string) : string :=
  match items with
  | [] => EmptyString
  | [x] => x
  | x :: rest => x ++ ", " ++ listed rest
  end.

End Preflight.

(* ================================================================== *)
(** * Scans of white space, shapes of strings and signs of numbers *)
(* ================================================================== *)

Module Layout.

Import Js.

(** The number of bytes of the white-space character at the head of
    [s]; 0 when [s] does not start with one. *)
Definition ws_len (s : string) : nat :=
  match s with
  | EmptyString => 0
  | String c1 r1 =>
      if Str.ws1 c1 then 1 else
      match r1 with
      | EmptyString => 0
      | String c2 r2 =>
          if Str.ws2 c1 c2 then 2 else
          match r2 with
          | EmptyString => 0
          | String c3 r3 => if Str.ws3 c1 c2 c3 then 3 else 0
          end
      end
  end.

Fixpoint skip (n : nat) (s : string) : string :=
  match n, s with
  | S k, String _ r => skip k r
  | _, _ => s
  end.

Fixpoint take (n : nat) (s : string) : string :=
  match n, s with
  | S k, String c r => String c (take k r)
  | _, _ => EmptyString
  end.

(** One of the white-space characters of two or three bytes starts at
    the head of [s]. *)
Definition wide_space_at (s : string) : bool :=
  match s with
  | String c1 (String c2 r) =>
      Str.ws2 c1 c2
      || match r with
         | String c3 _ => Str.ws3 c1 c2 c3
         | EmptyString => false
         end
  | _ => false
  end.

(** ... or somewhere in [s]. *)
Fixpoint has_wide_space (s : string) : bool :=
  match s with
  | EmptyString => false
  | String _ r => wide_space_at s || has_wide_space r
  end.

(** TAB, LF, VT, FF or CR. *)
Definition is_control_space (c : ascii) : bool :=
  Str.ws1 c && negb (Str.code c =? 32)%N.

Definition starts_with_space (s : string) : bool :=
  match s with
  | String c _ => (Str.code c =? 32)%N
  | EmptyString => false
  end.

Fixpoint all_ascii (s : string) : bool :=
  match s with
  | EmptyString => true
  | String c r => (Str.code c <? 128)%N && all_ascii r
  end.

(** Whether the scan of [/\s+/g] is inside a run of white space after
    the ASCII string [s], being so before it iff [p]. *)
Fixpoint last_ws (p : bool) (s : string) : bool :=
  match s with
  | EmptyString => p
  | String c r => last_ws (Str.ws1 c) r
  end.

(** An ASCII character that is not white space. *)
Definition is_plain (c : ascii) : bool := (Str.code c <? 128)%N && negb (Str.ws1 c).

(** How every booking message starts and ends. *)
Definition message_head : string := "Fasttrack Drop Taxi Booking Confirmed! ID: ".
Definition message_foot : string := "Download App for updates!".

(** The digits of [s], in order. *)
Fixpoint digits_of (s : string) : string :=
  match s with
  | EmptyString => EmptyString
  | String c r => if Str.is_digit c then String c (digits_of r) else digits_of r
  end.

(** [typeof v === 'string']. *)
Definition is_string (v : value) : bool :=
  match v with
  | VStr _ => true
  | _ => false
  end.

(** [-?\d+\.\d\d], the whole string. *)
Definition two_decimals (s : string) : bool :=
  let u := match s with
           | String c r => if (Str.code c =? 45)%N then r else s
           | EmptyString => s
           end in
  let '(ip, r) := Str.span Str.is_digit u in
  negb (Str.is_empty ip)
  && match r with
     | String p (String d1 (String d2 EmptyString)) =>
         (Str.code p =? 46)%N && Str.is_digit d1 && Str.is_digit d2
     | _ => false
     end.

(** [+0], a positive number or [Infinity]. *)
Definition positive_sign (x : Num.num) : bool :=
  match x with
  | S754_zero s | S754_infinity s | S754_finite s _ _ => negb s
  | S754_nan => false
  end.

(** [x] is a number and its sign bit is [s]. *)
Definition sign_is (s : bool) (x : Num.num) : Prop :=
  match x with
  | S754_zero a | S754_infinity a | S754_finite a _ _ => a = s
  | S754_nan => False
  end.

(** A route of the upstream answer whose only price entry is [entry],
    and an answer made of the given routes. *)
Definition tolled_route (entry : value) : value :=
  obj [("travelAdvisory", obj [("tollInfo", obj [("estimatedPrice", VArr [entry])])])].

Definition routes_body (routes : list value) : value := obj [("routes", VArr routes)].

End Layout.

(* ================================================================== *)
(** * Properties of property reads *)
(* ================================================================== *)

Module JsFacts.

Import Js.

(** Reading a property throws exactly on [undefined] and [null]. *)
Lemma get_of_not_nullish (v : value) (k : string) :
  is_nullish v = false -> exists x, get v k = Ok x.
Proof. destruct v; simpl; try discriminate; eauto. Qed.

Lemma get_not_nullish_source (v : value) (k : string) (x : value) :
  get v k = Ok x -> is_nullish v = false.
Proof. destruct v; simpl; try discriminate; reflexivity. Qed.

(** A conversion to a string throws only the TypeError of an object
    that has no primitive value. *)
Lemma ToString_throws (v : value) :
  forall e, ToString v = Throw e -> e = not_primitive.
Proof.
  revert v. fix IH 1. intros v e.
  destruct v as [| |b|n|s|elems|props]; cbn [ToString]; try discriminate.
  - revert e. revert elems. fix IHl 1. intros [|x rest] e; [discriminate|].
    pose proof (IH x) as Hx. pose proof (IHl rest) as Hrest.
    destruct (if is_nullish x then Ok "" else ToString x) as [sx|e'] eqn:Ex;
      cbn [bind].
    + destruct rest as [|y rest']; [discriminate|].
      match goal with
      | |- context [bind ?c _] => destruct c as [t|e''] eqn:Er
      end; cbn [bind]; [discriminate|].
      intros H. injection H as <-. exact (Hrest e'' eq_refl).
    + intros H. injection H as <-.
      destruct (is_nullish x); [discriminate|]. exact (Hx e' Ex).
  - destruct (has_own "toString" props); [|discriminate].
    intros H. injection H as <-. reflexivity.
Qed.

Lemma get_throws (v : value) (k : string) (e : exn) :
  get v k = Throw e -> exn_status e = None.
Proof. destruct v; simpl; try discriminate; intros H; injection H as <-; reflexivity. Qed.

End JsFacts.

(* ================================================================== *)
(** * Properties of numbers and of their printed forms *)
(* ================================================================== *)

Module NumFacts.

Import Num Shape.
Local Open Scope Z_scope.

Lemma half_and_120_5 :
  div (of_Z 1) (of_Z 2) = half /\ add (of_Z 120) half = n120_5
  /\ numberToString half = "0.5" /\ numberToString n120_5 = "120.5".
Proof. repeat split; vm_compute; reflexivity. Qed.

(** ** Rounding never invents a NaN *)

Lemma shr_1_nonneg (mrs : shr_record) : 0 <= shr_m mrs -> 0 <= shr_m (shr_1 mrs).
Proof.
  destruct mrs as [m r s]. simpl.
  destruct m as [|[p|p|]|p]; simpl; lia.
Qed.

Lemma iter_pos_invariant {A : Type} (P : A -> Prop) (f : A -> A) :
  (forall a, P a -> P (f a)) ->
  forall (n : positive) (a : A), P a -> P (iter_pos f n a).
Proof.
  intros Hf. induction n as [n IH|n IH|]; intros a Ha; simpl; auto.
Qed.

Lemma shr_nonneg (mrs : shr_record) (e n : Z) :
  0 <= shr_m mrs -> 0 <= shr_m (fst (shr mrs e n)).
Proof.
  intros H. unfold shr. destruct n; simpl; try assumption.
  apply (iter_pos_invariant (fun r => 0 <= shr_m r)); auto using shr_1_nonneg.
Qed.

Lemma shr_record_of_loc_m (m : Z) (l : location) : shr_m (shr_record_of_loc m l) = m.
Proof. destruct l as [|[| |]]; reflexivity. Qed.

Lemma shr_fexp_nonneg (m e : Z) (l : location) :
  0 <= m -> 0 <= shr_m (fst (shr_fexp prec emax m e l)).
Proof.
  intros H. unfold shr_fexp. apply shr_nonneg.
  rewrite shr_record_of_loc_m. exact H.
Qed.

Lemma round_nearest_even_nonneg (m : Z) (l : location) :
  0 <= m -> 0 <= round_nearest_even m l.
Proof.
  intros H. unfold round_nearest_even.
  destruct l as [|[| |]]; try destruct (Z.even m); lia.
Qed.

Lemma binary_round_aux_not_nan (sx : bool) (mx ex : Z) (lx : location) :
  0 <= mx -> isNaN (binary_round_aux prec emax sx mx ex lx) = false.
Proof.
  intros H. unfold binary_round_aux.
  pose proof (shr_fexp_nonneg mx ex lx H) as H1.
  destruct (shr_fexp prec emax mx ex lx) as [mrs' e']. simpl in H1.
  pose proof (round_nearest_even_nonneg _ (loc_of_shr_record mrs') H1) as H2.
  pose proof (shr_fexp_nonneg _ e' loc_Exact H2) as H3.
  destruct (shr_fexp prec emax _ e' loc_Exact) as [mrs'' e'']. simpl in H3.
  destruct (shr_m mrs'') as [|m|m]; [reflexivity| |lia].
  destruct (e'' <=? emax - prec); reflexivity.
Qed.

Lemma binary_round_not_nan (sx : bool) (mx : positive) (ex : Z) :
  isNaN (binary_round prec emax sx mx ex) = false.
Proof.
  unfold binary_round.
  destruct (shl_align mx ex _) as [mz ez].
  apply binary_round_aux_not_nan. lia.
Qed.

Lemma div_finite_not_nan (sx sy : bool) (mx my : positive) (ex ey : Z) :
  isNaN (SFdiv prec emax (S754_finite sx mx ex) (S754_finite sy my ey)) = false.
Proof.
  unfold SFdiv, SFdiv_core_binary.
  set (s := _ - _ - Z.min _ _).
  set (m' := match s with Z0 => Z.pos mx | Z.pos _ => Z.shiftl (Z.pos mx) s | Z.neg _ => 0 end).
  assert (Hm : 0 <= m').
  { subst m'. destruct s; try lia. apply Z.shiftl_nonneg. lia. }
  pose proof (Z.div_pos m' (Z.pos my) Hm ltac:(lia)) as Hq.
  unfold Z.div in Hq.
  destruct (Z.div_eucl m' (Z.pos my)) as [q r]. simpl in Hq.
  apply binary_round_aux_not_nan. exact Hq.
Qed.

(** A decimal literal never denotes NaN. *)
Lemma of_decimal_not_nan (neg : bool) (m : N) (e10 : Z) :
  isNaN (of_decimal neg m e10) = false.
Proof.
  unfold of_decimal. destruct m as [|p]; [reflexivity|].
  destruct (0 <=? e10).
  - apply binary_round_not_nan.
  - apply div_finite_not_nan.
Qed.

(** ** A positive integer rounds to a positive number *)

Lemma digits2_pos_size (p : positive) : digits2_pos p = Pos.size p.
Proof. induction p as [p IH|p IH|]; simpl; congruence. Qed.

Lemma shr_1_m (mrs : shr_record) :
  0 <= shr_m mrs -> shr_m (shr_1 mrs) = shr_m mrs / 2.
Proof.
  destruct mrs as [m r s]. simpl. intros H.
  destruct m as [|[p|p|]|p]; simpl; try lia.
  - reflexivity.
  - apply Z.div_unique with (r := 1); lia.
  - apply Z.div_unique with (r := 0); lia.
  - reflexivity.
Qed.

Lemma iter_shr_1_m (n : positive) :
  forall mrs, 0 <= shr_m mrs ->
    0 <= shr_m (iter_pos shr_1 n mrs)
    /\ shr_m (iter_pos shr_1 n mrs) = shr_m mrs / 2 ^ Z.pos n.
Proof.
  induction n as [n IH|n IH|]; intros mrs H; simpl iter_pos.
  - pose proof (shr_1_nonneg mrs H) as H1.
    destruct (IH _ H1) as [H2 E2]. destruct (IH _ H2) as [H3 E3].
    split; [exact H3|]. rewrite E3, E2, shr_1_m by exact H.
    rewrite !Z.div_div by lia. f_equal.
    rewrite Pos2Z.inj_xI, <- Z.pow_add_r, <- Z.pow_succ_r by lia. f_equal. lia.
  - destruct (IH _ H) as [H2 E2]. destruct (IH _ H2) as [H3 E3].
    split; [exact H3|]. rewrite E3, E2.
    rewrite Z.div_div by lia. f_equal.
    rewrite Pos2Z.inj_xO, <- Z.pow_add_r by lia. f_equal. lia.
  - split; [apply shr_1_nonneg, H|]. rewrite shr_1_m by exact H. reflexivity.
Qed.

Lemma size_lower_bound (m : positive) : 2 ^ (Z.pos (Pos.size m) - 1) <= Z.pos m.
Proof.
  pose proof (Pos.size_le m) as H.
  assert (H' : 2 ^ Z.pos (Pos.size m) <= 2 * Z.pos m).
  { change (2 * Z.pos m) with (Z.pos m~0).
    rewrite <- (Pos2Z.inj_pow 2 (Pos.size m)). apply Pos2Z.pos_le_pos, H. }
  replace (Z.pos (Pos.size m)) with (Z.succ (Z.pos (Pos.size m) - 1)) in H' by lia.
  rewrite Z.pow_succ_r in H' by lia. lia.
Qed.

(** Above the least exponent, shifting to the format keeps a positive
    mantissa positive. *)
Lemma shr_fexp_pos (m : positive) (e : Z) (l : location) :
  SpecFloat.emin prec emax <= e ->
  1 <= shr_m (fst (shr_fexp prec emax (Z.pos m) e l))
  /\ SpecFloat.emin prec emax <= snd (shr_fexp prec emax (Z.pos m) e l).
Proof.
  intros He. unfold shr_fexp, shr. cbn [Zdigits2].
  rewrite digits2_pos_size.
  destruct (fexp prec emax (Z.pos (Pos.size m) + e) - e) as [|q|q] eqn:N; cbn [fst snd];
    try (rewrite shr_record_of_loc_m; unfold SpecFloat.emin, prec, emax in *; lia).
  assert (Hq : Z.pos q <= Z.pos (Pos.size m) - 1).
  { unfold fexp, SpecFloat.emin, prec, emax in *. lia. }
  destruct (iter_shr_1_m q (shr_record_of_loc (Z.pos m) l)) as [_ E].
  { rewrite shr_record_of_loc_m. lia. }
  rewrite E, shr_record_of_loc_m. split; [|lia].
  apply Z.div_le_lower_bound; [lia|]. rewrite Z.mul_1_r.
  transitivity (2 ^ (Z.pos (Pos.size m) - 1)); [|apply size_lower_bound].
  apply Z.pow_le_mono_r; lia.
Qed.

Lemma binary_round_aux_positive (sx : bool) (m : positive) (e : Z) (l : location) :
  SpecFloat.emin prec emax <= e ->
  match binary_round_aux prec emax sx (Z.pos m) e l with
  | S754_finite s _ _ | S754_infinity s => s = sx
  | _ => False
  end.
Proof.
  intros He. unfold binary_round_aux.
  destruct (shr_fexp_pos m e l He) as [H1 H2].
  destruct (shr_fexp prec emax (Z.pos m) e l) as [mrs' e']. cbn [fst snd] in H1, H2.
  assert (H3 : 1 <= round_nearest_even (shr_m mrs') (loc_of_shr_record mrs')).
  { unfold round_nearest_even.
    destruct (loc_of_shr_record mrs') as [|[| |]]; try destruct (Z.even _); lia. }
  destruct (round_nearest_even (shr_m mrs') (loc_of_shr_record mrs')) as [|m2|m2];
    try lia.
  destruct (shr_fexp_pos m2 e' loc_Exact H2) as [H4 _].
  destruct (shr_fexp prec emax (Z.pos m2) e' loc_Exact) as [mrs'' e''].
  cbn [fst] in H4.
  destruct (shr_m mrs'') as [|m3|m3]; try lia.
  destruct (e'' <=? emax - prec); reflexivity.
Qed.

(** [0 < n] as numbers, for a positive integer [n]. *)
Lemma of_Z_positive (p : positive) : ltb zero (of_Z (Z.pos p)) = true.
Proof.
  unfold of_Z, binary_normalize, binary_round.
  assert (He : SpecFloat.emin prec emax
               <= snd (shl_align p 0 (fexp prec emax (Z.pos (digits2_pos p) + 0)))).
  { unfold shl_align.
    destruct (fexp prec emax (Z.pos (digits2_pos p) + 0) - 0) eqn:E; cbn [snd];
      unfold fexp, SpecFloat.emin, prec, emax in *; lia. }
  destruct (shl_align p 0 _) as [mz ez]. cbn [snd] in He.
  pose proof (binary_round_aux_positive false mz ez loc_Exact He) as H.
  destruct (binary_round_aux prec emax false (Z.pos mz) ez loc_Exact) as [s|s| |s m e];
    try contradiction; subst s; reflexivity.
Qed.

(** ** What is read back from a printed number *)

Lemma digit_code (c : ascii) :
  Str.is_digit c = true -> (48 <= Str.code c <= 57)%N.
Proof.
  unfold Str.is_digit. intros H. apply andb_prop in H as [H1 H2].
  apply N.leb_le in H1, H2. lia.
Qed.

Lemma not_ws_lead (c : ascii) (r : string) :
  (45 <= Str.code c <= 57)%N -> Str.trimStart (String c r) = String c r.
Proof.
  intros H.
  assert (W1 : Str.ws1 c = false).
  { unfold Str.ws1.
    replace (Str.code c <=? 13)%N with false by (symmetry; apply N.leb_gt; lia).
    replace (Str.code c =? 32)%N with false by (symmetry; apply N.eqb_neq; lia).
    rewrite andb_false_r. reflexivity. }
  assert (W2 : forall c2, Str.ws2 c c2 = false).
  { intros c2. unfold Str.ws2.
    replace (Str.code c =? 194)%N with false by (symmetry; apply N.eqb_neq; lia).
    reflexivity. }
  assert (W3 : forall c2 c3, Str.ws3 c c2 c3 = false).
  { intros c2 c3. unfold Str.ws3.
    replace (Str.code c =? 225)%N with false by (symmetry; apply N.eqb_neq; lia).
    replace (Str.code c =? 226)%N with false by (symmetry; apply N.eqb_neq; lia).
    replace (Str.code c =? 227)%N with false by (symmetry; apply N.eqb_neq; lia).
    replace (Str.code c =? 239)%N with false by (symmetry; apply N.eqb_neq; lia).
    reflexivity. }
  cbn [Str.trimStart]. rewrite W1.
  destruct r as [|c2 r2]; [reflexivity|]. rewrite W2.
  destruct r2 as [|c3 r3]; [reflexivity|]. rewrite W3. reflexivity.
Qed.

Lemma read_decimal_digit_first (u : string) :
  digit_first u = true -> exists m e rest, read_decimal u = Some (m, e, rest).
Proof.
  destruct u as [|d r]; simpl; [discriminate|]. intros Hd.
  unfold read_decimal. cbn [Str.span]. rewrite Hd.
  destruct (Str.span Str.is_digit r) as [a b].
  match goal with
  | |- context [let '(fp, r2) := ?X in _] => destruct X as [fp r2]
  end.
  cbn [Str.is_empty andb].
  destruct (read_exponent r2) as [e rest]. eauto.
Qed.

Lemma parseFloat_unsigned (neg : bool) (u : string) :
  digit_first u = true ->
  isNaN (match strip_prefix "Infinity" u with
         | Some _ => S754_infinity neg
         | None =>
             match read_decimal u with
             | Some (m, e, _) => of_decimal neg m e
             | None => NaN
             end
         end) = false.
Proof.
  intros H. destruct (strip_prefix "Infinity" u); [reflexivity|].
  destruct (read_decimal_digit_first u H) as (m & e & rest & ->).
  apply of_decimal_not_nan.
Qed.

(** [parseFloat] of a string that starts with a digit, or with a minus
    sign and a digit, is a number. *)
Lemma parseFloat_signed_digit (s : string) :
  signed_digit_first s = true -> isNaN (parseFloat s) = false.
Proof.
  destruct s as [|c r]; simpl; [discriminate|].
  destruct (Str.code c =? 45)%N eqn:E; intros H.
  - apply N.eqb_eq in E. unfold parseFloat.
    rewrite (not_ws_lead c r) by lia.
    unfold read_sign. rewrite (proj2 (N.eqb_eq _ _) E).
    apply parseFloat_unsigned, H.
  - pose proof (digit_code c H) as Hc. unfold parseFloat.
    rewrite (not_ws_lead c r) by lia.
    unfold read_sign. rewrite E.
    replace (Str.code c =? 43)%N with false by (symmetry; apply N.eqb_neq; lia).
    apply parseFloat_unsigned. exact H.
Qed.

(** ** The printed forms start with a digit *)

Lemma digit_char_is_digit (d : N) : Str.is_digit (Str.digit_char d) = true.
Proof.
  unfold Str.is_digit, Str.digit_char, Str.code.
  pose proof (N.mod_lt d 10 ltac:(discriminate)) as H.
  generalize dependent (d mod 10)%N. intros k H.
  rewrite N_ascii_embedding by lia.
  apply andb_true_intro. split; apply N.leb_le; lia.
Qed.

Lemma digits_aux_digit_first (fuel : nat) (n : N) (acc : string) :
  digit_first (Str.digits_aux fuel n acc) = true.
Proof.
  revert n acc. induction fuel as [|f IH]; intros n acc; simpl.
  - apply digit_char_is_digit.
  - destruct (n / 10 =? 0)%N; [apply digit_char_is_digit | apply IH].
Qed.

Lemma of_N_digit_first (n : N) : digit_first (Str.of_N n) = true.
Proof. apply digits_aux_digit_first. Qed.

Lemma length_append (a b : string) :
  String.length (a ++ b) = (String.length a + String.length b)%nat.
Proof. induction a as [|c a IH]; simpl; [reflexivity | rewrite IH; reflexivity]. Qed.

Lemma length_repeat_char (c : ascii) (n : nat) : String.length (Str.repeat_char c n) = n.
Proof. induction n as [|n IH]; simpl; [reflexivity | rewrite IH; reflexivity]. Qed.

Lemma of_N_padded_length (k : nat) (n : N) :
  (k <= String.length (Str.of_N_padded k n))%nat.
Proof.
  unfold Str.of_N_padded. rewrite length_append, length_repeat_char. lia.
Qed.

Lemma of_N_padded_digit_first (k : nat) (n : N) :
  digit_first (Str.of_N_padded k n) = true.
Proof.
  unfold Str.of_N_padded.
  destruct (k - String.length (Str.of_N n))%nat; simpl.
  - apply of_N_digit_first.
  - reflexivity.
Qed.

Lemma digit_first_append (a b : string) :
  digit_first a = true -> digit_first (a ++ b) = true.
Proof. destruct a; simpl; [discriminate | trivial]. Qed.

Lemma digit_first_substring (n : nat) (s : string) :
  digit_first s = true -> digit_first (String.substring 0 (S n) s) = true.
Proof. destruct s; simpl; [discriminate | trivial]. Qed.

Lemma digit_first_signed (neg : bool) (s : string) :
  digit_first s = true ->
  signed_digit_first ((if neg then "-" else "") ++ s) = true.
Proof.
  destruct neg; simpl; [trivial|].
  destruct s as [|c r]; simpl; [discriminate|]. intros H.
  pose proof (digit_code c H) as Hc.
  replace (Str.code c =? 45)%N with false by (symmetry; apply N.eqb_neq; lia).
  exact H.
Qed.

Lemma layout_digits_digit_first (ds : string) (p : Z) :
  digit_first ds = true -> digit_first (layout_digits ds p) = true.
Proof.
  intros H. unfold layout_digits.
  destruct ((-5 <=? p) && (p <=? 21)).
  - destruct (Z.of_nat (String.length ds) <=? p).
    + apply digit_first_append, H.
    + destruct (0 <? p) eqn:E; [|reflexivity].
      apply Z.ltb_lt in E.
      destruct (Z.to_nat p) as [|j] eqn:J; [lia|].
      apply digit_first_append, digit_first_substring, H.
  - destruct (Z.of_nat (String.length ds) =? 1).
    + apply digit_first_append, H.
    + apply digit_first_append. apply (digit_first_substring 0), H.
Qed.

(** Number::toString of a number other than NaN and the infinities
    starts with a digit, after the sign if there is one. *)
Lemma numberToString_finite (x : num) :
  isFinite x = true -> signed_digit_first (numberToString x) = true.
Proof.
  intros H. destruct x as [s|s| |s m e]; try discriminate H.
  - reflexivity.
  - unfold numberToString.
    destruct (fraction m e) as [n d].
    destruct (shortest_digits _ _ _ _ _ _) as [ds p'].
    apply digit_first_signed, layout_digits_digit_first, of_N_digit_first.
Qed.

Lemma toFixed2_finite (x : num) :
  isFinite x = true -> signed_digit_first (toFixed2 x) = true.
Proof.
  intros H. destruct x as [s|s| |s m e]; try discriminate.
  - reflexivity.
  - unfold toFixed2. destruct (at_least_1e21 m e).
    + apply numberToString_finite. reflexivity.
    + apply digit_first_signed.
      pose proof (of_N_padded_length 3 (hundredths m e)) as L.
      destruct (String.length (Str.of_N_padded 3 (hundredths m e)))
        as [|[|[|j]]] eqn:K; try lia.
      replace (S (S (S j)) - 2)%nat with (S j) by lia.
      apply digit_first_append, digit_first_substring, of_N_padded_digit_first.
Qed.

(** [parseFloat(x.toFixed(2))] is NaN only for NaN. *)
Lemma parseFloat_toFixed2_not_nan (x : num) :
  isNaN x = false -> isNaN (parseFloat (toFixed2 x)) = false.
Proof.
  intros H. destruct x as [s|s| |s m e]; try discriminate.
  - reflexivity.
  - destruct s; reflexivity.
  - apply parseFloat_signed_digit, toFixed2_finite. reflexivity.
Qed.

(** [toFixed(2)] gives neither the empty string nor "N/A". *)
Lemma toFixed2_not_placeholder (x : num) :
  toFixed2 x <> "" /\ toFixed2 x <> "N/A".
Proof.
  destruct x as [s|s| |s m e].
  - split; discriminate.
  - destruct s; split; discriminate.
  - split; discriminate.
  - pose proof (toFixed2_finite (S754_finite s m e) eq_refl) as H.
    split; intros E; rewrite E in H; discriminate.
Qed.

(** ** Printing to two decimals and reading back *)

Lemma digits_value_append (base : N) (dv : ascii -> N) (a b : string) (acc : N) :
  Str.digits_value base dv acc (a ++ b)
  = Str.digits_value base dv (Str.digits_value base dv acc a) b.
Proof.
  revert acc. induction a as [|c a IH]; intros acc; simpl; [reflexivity | apply IH].
Qed.

Lemma digit_val_char (d : N) : Str.digit_val (Str.digit_char d) = (d mod 10)%N.
Proof.
  unfold Str.digit_val, Str.digit_char, Str.code.
  pose proof (N.mod_lt d 10 ltac:(discriminate)) as H.
  generalize dependent (d mod 10)%N. intros k H.
  rewrite N_ascii_embedding by lia. lia.
Qed.

Lemma digits_aux_acc (fuel : nat) (n : N) (acc : string) :
  Str.digits_aux fuel n acc = Str.digits_aux fuel n "" ++ acc.
Proof.
  revert n acc. induction fuel as [|f IH]; intros n acc; simpl; [reflexivity|].
  destruct (n / 10 =? 0)%N; [reflexivity|].
  rewrite IH. rewrite (IH _ (String _ "")).
  generalize (Str.digits_aux f (n / 10) ""). intros a.
  induction a as [|c a IHa]; simpl; [reflexivity | rewrite IHa; reflexivity].
Qed.

Lemma digits_aux_value (fuel : nat) (n : N) :
  (n < 10 ^ N.of_nat (S fuel))%N ->
  Str.decimal_value (Str.digits_aux fuel n "") = n.
Proof.
  unfold Str.decimal_value.
  revert n. induction fuel as [|f IH]; intros n Hn.
  - cbn [Str.digits_aux Str.digits_value]. rewrite digit_val_char.
    change (10 ^ N.of_nat 1)%N with 10%N in Hn.
    rewrite N.mod_small by exact Hn. lia.
  - cbn [Str.digits_aux]. destruct (n / 10 =? 0)%N eqn:E.
    + apply N.eqb_eq in E. cbn [Str.digits_value]. rewrite digit_val_char.
      pose proof (N.div_mod n 10 ltac:(discriminate)) as D. rewrite E in D. lia.
    + rewrite digits_aux_acc, digits_value_append, IH.
      * cbn [Str.digits_value]. rewrite digit_val_char.
        pose proof (N.div_mod n 10 ltac:(discriminate)) as D. lia.
      * apply N.Div0.div_lt_upper_bound.
        replace (N.of_nat (S (S f))) with (N.succ (N.of_nat (S f))) in Hn by lia.
        rewrite N.pow_succ_r' in Hn. exact Hn.
Qed.

Lemma of_N_value (n : N) : Str.decimal_value (Str.of_N n) = n.
Proof.
  unfold Str.of_N. apply digits_aux_value.
  destruct n as [|p]; [reflexivity|].
  pose proof (N.log2_spec (N.pos p) ltac:(lia)) as [_ H].
  eapply N.lt_le_trans; [exact H|].
  rewrite Nat2N.inj_succ, N2Nat.id.
  apply N.pow_le_mono_l. lia.
Qed.

Lemma all_digits_append (a b : string) :
  Str.all_digits (a ++ b) = Str.all_digits a && Str.all_digits b.
Proof.
  induction a as [|c a IH]; simpl; [reflexivity|].
  rewrite IH, andb_assoc. reflexivity.
Qed.

Lemma digits_aux_all_digits (fuel : nat) (n : N) (acc : string) :
  Str.all_digits acc = true -> Str.all_digits (Str.digits_aux fuel n acc) = true.
Proof.
  revert n acc. induction fuel as [|f IH]; intros n acc H; cbn [Str.digits_aux].
  - cbn [Str.all_digits]. rewrite digit_char_is_digit, H. reflexivity.
  - destruct (n / 10 =? 0)%N.
    + cbn [Str.all_digits]. rewrite digit_char_is_digit, H. reflexivity.
    + apply IH. cbn [Str.all_digits]. rewrite digit_char_is_digit, H. reflexivity.
Qed.

Lemma all_digits_zeros (k : nat) : Str.all_digits (Str.repeat_char "0"%char k) = true.
Proof. induction k as [|k IH]; simpl; [reflexivity | exact IH]. Qed.

Lemma zeros_value (k : nat) (rest : string) :
  Str.decimal_value (Str.repeat_char "0"%char k ++ rest) = Str.decimal_value rest.
Proof. induction k as [|k IH]; simpl; [reflexivity | exact IH]. Qed.

Lemma of_N_padded_all_digits (k : nat) (n : N) :
  Str.all_digits (Str.of_N_padded k n) = true.
Proof.
  unfold Str.of_N_padded. rewrite all_digits_append, all_digits_zeros.
  apply digits_aux_all_digits. reflexivity.
Qed.

Lemma of_N_padded_value (k : nat) (n : N) :
  Str.decimal_value (Str.of_N_padded k n) = n.
Proof. unfold Str.of_N_padded. rewrite zeros_value. apply of_N_value. Qed.

Lemma substring_whole (s : string) : String.substring 0 (String.length s) s = s.
Proof.
  induction s as [|c s IH]; [reflexivity|].
  cbn [String.length String.substring]. rewrite IH. reflexivity.
Qed.

(** A string is its first [i] characters followed by the others. *)
Lemma substring_split (i : nat) (s : string) :
  (i <= String.length s)%nat ->
  String.substring 0 i s ++ substring_from i s = s
  /\ String.length (substring_from i s) = (String.length s - i)%nat.
Proof.
  unfold substring_from. revert s. induction i as [|i IH]; intros s Hi.
  - rewrite Nat.sub_0_r, substring_whole.
    split; [destruct s; reflexivity | reflexivity].
  - destruct s as [|c s]; [simpl in Hi; lia|].
    cbn [String.length] in *. destruct (IH s ltac:(lia)) as [E L].
    cbn [String.substring append Nat.sub]. rewrite E. split; [reflexivity | exact L].
Qed.

Lemma span_digits (a r : string) :
  Str.all_digits a = true -> digit_first r = false ->
  Str.span Str.is_digit (a ++ r) = (a, r).
Proof.
  intros Ha Hr. induction a as [|c a IH]; cbn [append].
  - destruct r as [|d r]; [reflexivity|]. cbn [Str.span]. simpl in Hr. rewrite Hr.
    reflexivity.
  - simpl in Ha. apply andb_prop in Ha as [Hc Ha].
    cbn [Str.span]. rewrite Hc, (IH Ha). reflexivity.
Qed.

Lemma not_Infinity (u : string) : digit_first u = true -> strip_prefix "Infinity" u = None.
Proof.
  destruct u as [|c r]; [discriminate|]. cbn [digit_first]. intros H.
  pose proof (digit_code c H) as Hc.
  change (strip_prefix "Infinity" (String c r))
    with (if (73 =? Str.code c)%N then strip_prefix "nfinity" r else None).
  replace (73 =? Str.code c)%N with false by (symmetry; apply N.eqb_neq; lia).
  reflexivity.
Qed.

(** Digits, a point and digits denote the integer of all the digits
    scaled down by the number of the digits after the point. *)
Lemma read_decimal_fixed (a b : string) :
  Str.all_digits a = true -> digit_first a = true -> Str.all_digits b = true ->
  read_decimal (a ++ "." ++ b)
  = Some (Str.decimal_value (a ++ b), - Z.of_nat (String.length b), "").
Proof.
  intros Ha Hfirst Hb. unfold read_decimal.
  rewrite (span_digits a ("." ++ b) Ha eq_refl).
  cbn [append]. change (Str.code "."%char =? 46)%N with true. cbn iota.
  pose proof (span_digits b "" Hb eq_refl) as Sb.
  assert (Eb : (b ++ "")%string = b).
  { clear. induction b as [|c b IH]; simpl; [reflexivity | rewrite IH; reflexivity]. }
  rewrite Eb in Sb. rewrite Sb.
  destruct a as [|c a]; [discriminate|]. cbn [Str.is_empty andb read_exponent].
  reflexivity.
Qed.

Lemma parseFloat_fixed (neg : bool) (a b : string) :
  Str.all_digits a = true -> digit_first a = true -> Str.all_digits b = true ->
  parseFloat ((if neg then "-" else "") ++ a ++ "." ++ b)
  = of_decimal neg (Str.decimal_value (a ++ b)) (- Z.of_nat (String.length b)).
Proof.
  intros Ha Hfirst Hb.
  assert (Hu : digit_first (a ++ "." ++ b) = true) by (apply digit_first_append, Hfirst).
  unfold parseFloat. destruct neg.
  - change ("-" ++ a ++ "." ++ b)%string with (String "-"%char (a ++ "." ++ b)).
    rewrite not_ws_lead by (vm_compute; split; discriminate).
    cbn [read_sign]. change (Str.code "-"%char =? 45)%N with true. cbn iota.
    rewrite (not_Infinity _ Hu), (read_decimal_fixed a b Ha Hfirst Hb). reflexivity.
  - change ("" ++ a ++ "." ++ b)%string with (a ++ "." ++ b)%string.
    destruct a as [|c a]; [discriminate|].
    change (String c a ++ "." ++ b)%string with (String c (a ++ "." ++ b)) in *.
    cbn [digit_first] in Hfirst. pose proof (digit_code c Hfirst) as Hc.
    rewrite not_ws_lead by lia. cbn [read_sign].
    replace (Str.code c =? 45)%N with false by (symmetry; apply N.eqb_neq; lia).
    replace (Str.code c =? 43)%N with false by (symmetry; apply N.eqb_neq; lia).
    rewrite (not_Infinity _ Hu).
    change (String c (a ++ "." ++ b)) with (String c a ++ "." ++ b)%string.
    rewrite (read_decimal_fixed (String c a) b Ha Hfirst Hb). reflexivity.
Qed.

(** Below 10^21, [parseFloat(x.toFixed(2))] is the number nearest to the
    hundredth nearest to [x]. *)
Lemma parseFloat_toFixed2_below_1e21 (s : bool) (m : positive) (e : Z) :
  at_least_1e21 m e = false ->
  parseFloat (toFixed2 (S754_finite s m e)) = of_decimal s (hundredths m e) (-2).
Proof.
  intros H. unfold toFixed2. rewrite H.
  pose proof (of_N_padded_length 3 (hundredths m e)) as L.
  pose proof (of_N_padded_all_digits 3 (hundredths m e)) as D.
  pose proof (of_N_padded_digit_first 3 (hundredths m e)) as F.
  pose proof (of_N_padded_value 3 (hundredths m e)) as V.
  set (ds := Str.of_N_padded 3 (hundredths m e)) in *.
  destruct (substring_split (String.length ds - 2) ds ltac:(lia)) as [E Len].
  set (a := String.substring 0 (String.length ds - 2) ds) in *.
  set (b := substring_from (String.length ds - 2) ds) in *.
  rewrite <- E, all_digits_append in D. apply andb_prop in D as [Da Db].
  assert (Fa : digit_first a = true).
  { subst a. destruct (String.length ds) as [|[|[|j]]]; try lia.
    replace (S (S (S j)) - 2)%nat with (S j) by lia.
    apply digit_first_substring, F. }
  rewrite (parseFloat_fixed s a b Da Fa Db), E, V, Len.
  replace (String.length ds - (String.length ds - 2))%nat with 2%nat by lia.
  reflexivity.
Qed.

End NumFacts.

(* ================================================================== *)
(** * Properties of the phone number normalizer *)
(* ================================================================== *)

Module PhoneFacts.

Import Num Js Backend Shape.

Lemma keep_digits_plus_only (s : string) :
  Str.contains (fun c => negb (digit_or_plus c)) (Str.keep_digits_plus s) = false.
Proof.
  induction s as [|c r IH]; simpl; [reflexivity|].
  fold (is_plus c). fold (digit_or_plus c).
  destruct (digit_or_plus c) eqn:E; simpl; [rewrite E; simpl|]; exact IH.
Qed.

Lemma keep_digits_plus_nothing (s : string) :
  Str.contains digit_or_plus s = false -> Str.keep_digits_plus s = "".
Proof.
  induction s as [|c r IH]; simpl; [reflexivity|].
  fold (is_plus c). fold (digit_or_plus c).
  destruct (digit_or_plus c); simpl; [discriminate | exact IH].
Qed.

(** Without any ['+'] in the input, what is kept is digits. *)
Lemma keep_digits_plus_digits (s : string) :
  Str.contains is_plus s = false -> Str.all_digits (Str.keep_digits_plus s) = true.
Proof.
  induction s as [|c r IH]; simpl; [reflexivity|].
  fold (is_plus c).
  destruct (is_plus c) eqn:P; simpl; [discriminate|].
  intros H. rewrite orb_false_r.
  destruct (Str.is_digit c) eqn:D; simpl; [rewrite D; simpl|]; auto.
Qed.

(** On a string the normalizer returns a string that starts with
    ['+']. *)
Lemma normalized_string (s : string) :
  s <> "" ->
  exists q, formatPhoneNumberForTwilio (VStr s) = Ok (VStr q)
            /\ Str.startsWith_plus q = true.
Proof.
  intros Hs. unfold formatPhoneNumberForTwilio.
  destruct s as [|c r]; [congruence|]. cbn [truthy Str.is_empty negb].
  destruct (Str.startsWith_plus (Str.keep_digits_plus (String c r))) eqn:E;
    cbn [negb]; eexists; split; try reflexivity; assumption.
Qed.

Lemma startsWith_plus_nonempty (q : string) :
  Str.startsWith_plus q = true -> truthy (VStr q) = true.
Proof. destruct q; simpl; [discriminate | reflexivity]. Qed.

(** C8.  The five test vectors of the specification:
    normalize("9876543210") = "+919876543210",
    normalize("+19876543210") = "+19876543210", normalize("") = null,
    normalize(null) = null and
    normalize("98-765 43210") = "+919876543210". *)
Theorem normalizer_test_vectors :
  formatPhoneNumberForTwilio (VStr "9876543210") = Ok (VStr "+919876543210")
  /\ formatPhoneNumberForTwilio (VStr "+19876543210") = Ok (VStr "+19876543210")
  /\ formatPhoneNumberForTwilio (VStr "") = Ok VNull
  /\ formatPhoneNumberForTwilio VNull = Ok VNull
  /\ formatPhoneNumberForTwilio (VStr "98-765 43210") = Ok (VStr "+919876543210").
Proof. repeat split; reflexivity. Qed.

(** C2, at the failing input.  The comment above the normalizer and the
    specification say that only a leading ['+'] survives; the character
    class [[^\d+]] keeps every ['+'], so for "12+34" the result
    "+9112+34" has a ['+'] after the first character and is not of the
    form [+<digits>]. *)
Theorem normalizer_keeps_inner_plus :
  formatPhoneNumberForTwilio (VStr "12+34") = Ok (VStr "+9112+34")
  /\ plus_then_digits "+9112+34" = false
  /\ formatPhoneNumberForTwilio (VStr "+1+2") = Ok (VStr "+1+2")
  /\ plus_then_digits "+1+2" = false.
Proof. repeat split; reflexivity. Qed.

(** What does hold of the output in general: on an input without any
    ['+'] it is ["+91"] followed by the digits of the input. *)
Lemma normalized_without_plus (s : string) :
  s <> "" -> Str.contains is_plus s = false ->
  formatPhoneNumberForTwilio (VStr s) = Ok (VStr ("+91" ++ Str.keep_digits_plus s))
  /\ plus_then_digits ("+91" ++ Str.keep_digits_plus s) = true.
Proof.
  intros Hs Hp. pose proof (keep_digits_plus_digits s Hp) as Hd.
  unfold formatPhoneNumberForTwilio.
  destruct s as [|c r]; [congruence|]. cbn [truthy Str.is_empty negb].
  destruct (Str.keep_digits_plus (String c r)) as [|d k] eqn:E.
  - split; reflexivity.
  - cbn [Str.startsWith_plus]. simpl in Hd. apply andb_prop in Hd as [Hd1 Hd2].
    assert (Hnp : (Str.code d =? 43)%N = false).
    { unfold Str.is_digit in Hd1. apply andb_prop in Hd1 as [H1 _].
      apply N.leb_le in H1. apply N.eqb_neq. lia. }
    rewrite Hnp. cbn [negb]. split; [reflexivity|].
    cbn. rewrite Hd1, Hd2. reflexivity.
Qed.

(** Whatever the booking handler answers for a string phone number, it
    is not the answer of its invalid-format branch. *)
Lemma booking_try_not_invalid (w : world) (s : string) (bookingDetails : value) :
  s <> "" ->
  send_booking_sms_try w (VStr s) bookingDetails <> Ok invalid_phone_format.
Proof.
  intros Hs. unfold send_booking_sms_try.
  destruct (messageBody bookingDetails) as [body|e]; cbn [bind]; [|discriminate].
  destruct (normalized_string s Hs) as (q & Hq & Hplus).
  rewrite Hq. cbn [bind]. rewrite (startsWith_plus_nonempty q Hplus). cbn [negb].
  destruct (truthy (TWILIO_PHONE_NUMBER w)); cbn [negb]; [|discriminate].
  destruct (messages_create w body (VStr q) (TWILIO_PHONE_NUMBER w));
    cbn [bind]; discriminate.
Qed.

(** The normalizer returns [null] only for a falsy input; for a truthy
    one it returns a truthy string or throws. *)
Lemma normalizer_on_truthy (number : value) :
  truthy number = true ->
  (exists q, formatPhoneNumberForTwilio number = Ok (VStr q) /\ truthy (VStr q) = true)
  \/ (exists e, formatPhoneNumberForTwilio number = Throw e).
Proof.
  intros T. destruct number as [| |b|n|s|l|props].
  - discriminate T.
  - discriminate T.
  - right. unfold formatPhoneNumberForTwilio. rewrite T. cbn [negb]. eauto.
  - right. unfold formatPhoneNumberForTwilio. rewrite T. cbn [negb]. eauto.
  - left. assert (Hs : s <> "") by (destruct s; [discriminate T | congruence]).
    destruct (normalized_string s Hs) as (q & Hq & Hplus).
    exists q. auto using startsWith_plus_nonempty.
  - right. unfold formatPhoneNumberForTwilio. rewrite T. cbn [negb]. eauto.
  - right. unfold formatPhoneNumberForTwilio. rewrite T. cbn [negb]. eauto.
Qed.

(** X21.  Whatever the request holds and whatever the provider does,
    the booking handler never answers from its branch for an invalid
    phone number format: after the check of the required fields the
    normalizer returns a truthy string or throws. *)
Lemma invalid_phone_branch_is_dead (w : world) (body : value) :
  send_booking_sms w body <> invalid_phone_format.
Proof.
  unfold send_booking_sms.
  destruct (get body "phoneNumber") as [phoneNumber|e]; cbn [bind]; [|discriminate].
  destruct (get body "bookingDetails") as [bd|e]; cbn [bind]; [|discriminate].
  destruct (truthy phoneNumber) eqn:T; cbn [negb orb]; [|discriminate].
  destruct (negb (truthy bd)); [discriminate|].
  unfold send_booking_sms_try.
  destruct (messageBody bd) as [m|e]; cbn [bind];
    [|destruct (has_status_and_message e); discriminate].
  destruct (ToString phoneNumber) as [t|e]; cbn [bind];
    [|destruct (has_status_and_message e); discriminate].
  destruct (normalizer_on_truthy phoneNumber T) as [(q & Hq & Tq)|(e & He)].
  - rewrite Hq. cbn [bind]. rewrite Tq. cbn [negb].
    destruct (negb (truthy (TWILIO_PHONE_NUMBER w))); [discriminate|].
    destruct (messages_create w m (VStr q) (TWILIO_PHONE_NUMBER w)) as [x|e];
      cbn [bind]; [discriminate|].
    destruct (has_status_and_message e); discriminate.
  - rewrite He. cbn [bind]. destruct (has_status_and_message e); discriminate.
Qed.

(** C9, counterexample.  A string without any digit does not always
    normalize to "+91": "+" has no digit and normalizes to "+". *)
Lemma digitless_plus_is_not_91 :
  ~ (Str.contains Str.is_digit "+" = false ->
     formatPhoneNumberForTwilio (VStr "+") = Ok (VStr "+91")).
Proof. intros H. specialize (H eq_refl). discriminate H. Qed.

(** C9, amended.  For every truthy (non-empty) string the normalizer
    returns a truthy string that starts with ['+'], never null; a
    string with neither a digit nor a ['+'] normalizes to "+91";
    consequently, for a string [phoneNumber] the booking handler never
    answers from its invalid phone number format branch. *)
Theorem normalizer_never_null_on_strings (s : string) :
  s <> "" ->
  (exists q, formatPhoneNumberForTwilio (VStr s) = Ok (VStr q)
             /\ truthy (VStr q) = true
             /\ Str.startsWith_plus q = true)
  /\ (Str.contains digit_or_plus s = false ->
      formatPhoneNumberForTwilio (VStr s) = Ok (VStr "+91"))
  /\ (forall w bookingDetails,
        send_booking_sms_try w (VStr s) bookingDetails <> Ok invalid_phone_format)
  /\ (forall w body,
        get body "phoneNumber" = Ok (VStr s) ->
        send_booking_sms w body <> invalid_phone_format).
Proof.
  intros Hs. repeat split.
  - destruct (normalized_string s Hs) as (q & Hq & Hplus).
    exists q. auto using startsWith_plus_nonempty.
  - intros Hnone. unfold formatPhoneNumberForTwilio.
    rewrite (keep_digits_plus_nothing s Hnone).
    destruct s; [congruence | reflexivity].
  - intros w bd. apply booking_try_not_invalid, Hs.
  - intros w body Hget. unfold send_booking_sms. rewrite Hget. cbn [bind].
    destruct (get body "bookingDetails") as [bd|e]; cbn [bind]; [|discriminate].
    destruct (negb (truthy (VStr s)) || negb (truthy bd)); [discriminate|].
    pose proof (booking_try_not_invalid w s bd Hs) as Hne.
    destruct (send_booking_sms_try w (VStr s) bd) as [r|e]; [congruence|].
    discriminate.
Qed.

Lemma normalizer_never_null_on_strings_witness :
  (exists q, formatPhoneNumberForTwilio (VStr "call me") = Ok (VStr q)
             /\ truthy (VStr q) = true
             /\ Str.startsWith_plus q = true)
  /\ (Str.contains digit_or_plus "call me" = false ->
      formatPhoneNumberForTwilio (VStr "call me") = Ok (VStr "+91"))
  /\ (forall w bookingDetails,
        send_booking_sms_try w (VStr "call me") bookingDetails
        <> Ok invalid_phone_format)
  /\ (forall w body,
        get body "phoneNumber" = Ok (VStr "call me") ->
        send_booking_sms w body <> invalid_phone_format).
Proof. apply (normalizer_never_null_on_strings "call me"). discriminate. Defined.

End PhoneFacts.

(* ================================================================== *)
(** * Properties of the OTP handlers *)
(* ================================================================== *)

Module OtpFacts.

Import Num Js Backend Shape.

(** Without a phone number, or with an empty one, [/api/send-otp]
    answers 400 whatever the provider would do. *)
Lemma send_otp_needs_phone (w : world) (props : list (string * value)) :
  lookup "phoneNumber" props = None \/ lookup "phoneNumber" props = Some (VStr "") ->
  send_otp w (request props)
  = message_only 400 "Phone number is required and must be valid.".
Proof.
  intros [H|H]; unfold send_otp, request; cbn [get bind]; rewrite H; reflexivity.
Qed.

(** A request that passes the validation of the handler: the phone
    number is a non-empty string, the code is truthy and converts to a
    string, so that the provider is called with the normalized number
    [q]. *)
Lemma verify_otp_reaches_provider (w : world) (body : value) (p : string) (otp : value) :
  get body "phoneNumber" = Ok (VStr p) -> p <> "" ->
  get body "otpCode" = Ok otp -> truthy otp = true ->
  (exists t, ToString otp = Ok t) ->
  exists q,
    formatPhoneNumberForTwilio (VStr p) = Ok (VStr q)
    /\ verify_otp w body =
       match (verificationCheck <- verificationChecks_create w (VStr q) otp ;;
              st <- get verificationCheck "status" ;;
              Ok (if strict_eq_string st "approved" then approved_response
                  else invalid_otp_response st))%js with
       | Ok r => r
       | Throw error =>
           message_only 500
             (errorMessageForClient "Verification failed. Please try again." error)
       end.
Proof.
  intros Hp Hne Ho Hto (t & Ht).
  destruct (PhoneFacts.normalized_string p Hne) as (q & Hq & Hplus).
  exists q. split; [exact Hq|].
  unfold verify_otp. rewrite Hp, Ho. cbn [bind]. rewrite Hq. cbn [bind].
  rewrite (PhoneFacts.startsWith_plus_nonempty q Hplus), Hto. cbn [negb orb].
  unfold verify_otp_try. rewrite Ht. cbn [bind].
  destruct (verificationChecks_create w (VStr q) otp) as [check|e]; cbn [bind];
    [|reflexivity].
  destruct (get check "status") as [st|e]; cbn [bind]; [|reflexivity].
  destruct (strict_eq_string st "approved"); reflexivity.
Qed.

Lemma strict_eq_string_spec (v : value) (lit : string) :
  strict_eq_string v lit = true <-> v = VStr lit.
Proof.
  destruct v; simpl; split; try discriminate; intros H.
  - apply String.eqb_eq in H. congruence.
  - injection H as ->. apply String.eqb_refl.
Qed.


(** C6.  For a request that reaches the provider: when the verification
    check reports the status [st], the handler responds 200 with status
    "approved" if and only if [st] is "approved", and for any other
    [st] it responds 400 with [st] in the body; when the provider call
    throws, it responds 500. *)
Theorem verify_otp_follows_provider
    (w : world) (body : value) (p : string) (otp : value) :
  get body "phoneNumber" = Ok (VStr p) -> p <> "" ->
  get body "otpCode" = Ok otp -> truthy otp = true ->
  (exists t, ToString otp = Ok t) ->
  exists q,
    formatPhoneNumberForTwilio (VStr p) = Ok (VStr q)
    /\ (forall check st,
          verificationChecks_create w (VStr q) otp = Ok check ->
          get check "status" = Ok st ->
          (verify_otp w body = approved_response <-> st = VStr "approved")
          /\ (st <> VStr "approved" -> verify_otp w body = invalid_otp_response st))
    /\ (forall error,
          verificationChecks_create w (VStr q) otp = Throw error ->
          exists msg, verify_otp w body = message_only 500 msg).
Proof.
  intros Hp Hne Ho Hto Hts.
  destruct (verify_otp_reaches_provider w body p otp Hp Hne Ho Hto Hts)
    as (q & Hq & Hv).
  exists q. split; [exact Hq|]. split.
  - intros check st Hc Hst. rewrite Hv, Hc. cbn [bind]. rewrite Hst. cbn [bind].
    destruct (strict_eq_string st "approved") eqn:E.
    + apply strict_eq_string_spec in E. subst st. split; [tauto | congruence].
    + assert (Hn : st <> VStr "approved").
      { intros ->. simpl in E. discriminate. }
      split; [|reflexivity].
      split; [discriminate | contradiction].
  - intros error Hc. rewrite Hv, Hc. cbn [bind]. eexists. reflexivity.
Qed.

Lemma verify_otp_follows_provider_witness :
  verify_otp (checking (Ok (obj [("status", VStr "pending")])))
             (request [("phoneNumber", VStr "9876543210"); ("otpCode", VStr "123456")])
  = invalid_otp_response (VStr "pending").
Proof.
  destruct (verify_otp_follows_provider
              (checking (Ok (obj [("status", VStr "pending")])))
              (request [("phoneNumber", VStr "9876543210"); ("otpCode", VStr "123456")])
              "9876543210" (VStr "123456"))
    as (q & Hq & Hok & _).
  - reflexivity.
  - discriminate.
  - reflexivity.
  - reflexivity.
  - exists "123456". reflexivity.
  - destruct (Hok (obj [("status", VStr "pending")]) (VStr "pending")) as (_ & H).
    + reflexivity.
    + reflexivity.
    + apply H. discriminate.
Defined.

End OtpFacts.

(* ================================================================== *)
(** * Properties of POST /api/send-booking-sms *)
(* ================================================================== *)

Module BookingFacts.

Import Num Js Backend Shape.

Lemma field_or_absent (bookingDetails : value) (k fallback : string) :
  get bookingDetails k = Ok VUndef ->
  field_or bookingDetails k fallback = Ok fallback.
Proof. intros H. unfold field_or. rewrite H. reflexivity. Qed.

Lemma fare_text_absent (bookingDetails : value) :
  is_nullish bookingDetails = false ->
  get_opt (get_opt bookingDetails "fareDetails") "total" = VUndef ->
  fare_text bookingDetails = Ok "N/A".
Proof.
  intros Hb H. unfold fare_text, fare_total_fixed.
  destruct (JsFacts.get_of_not_nullish bookingDetails "fareDetails" Hb) as (fd & Hfd).
  unfold get_opt in H at 2. rewrite Hfd in H. rewrite Hfd. cbn [bind].
  destruct (is_nullish fd) eqn:N; [reflexivity|].
  destruct (JsFacts.get_of_not_nullish fd "total" N) as (t & Ht).
  unfold get_opt in H. rewrite Ht in H. subst t. rewrite Ht. reflexivity.
Qed.

(** A valid request with a string phone number: the handler builds the
    message and hands it to Twilio. *)
Lemma booking_sends_message
    (w : world) (body : value) (p : string) (bookingDetails : value) (m : string) :
  get body "phoneNumber" = Ok (VStr p) -> p <> "" ->
  get body "bookingDetails" = Ok bookingDetails -> truthy bookingDetails = true ->
  truthy (TWILIO_PHONE_NUMBER w) = true ->
  messageBody bookingDetails = Ok m ->
  exists q,
    formatPhoneNumberForTwilio (VStr p) = Ok (VStr q)
    /\ send_booking_sms w body
       = after_sending (messages_create w m (VStr q) (TWILIO_PHONE_NUMBER w)).
Proof.
  intros Hp Hne Hb Tb Tw Hm.
  destruct (PhoneFacts.normalized_string p Hne) as (q & Hq & Hplus).
  exists q. split; [exact Hq|].
  unfold send_booking_sms. rewrite Hp, Hb. cbn [bind]. rewrite Tb.
  destruct p as [|c r]; [congruence|]. cbn [truthy Str.is_empty negb orb].
  unfold send_booking_sms_try. rewrite Hm. cbn [bind ToString]. rewrite Hq. cbn [bind].
  rewrite (PhoneFacts.startsWith_plus_nonempty q Hplus), Tw. cbn [negb].
  destruct (messages_create w m (VStr q) (TWILIO_PHONE_NUMBER w)); reflexivity.
Qed.

(** C7.  When all optional fields of bookingDetails are absent, the
    message body the handler builds and sends is the template with "N/A"
    and "Assigned Soon" in the place of the fields, cleaned up: it has no
    line break, no two spaces in a row and no white space at either
    end. *)
Theorem placeholder_message_is_clean (bookingDetails : value) :
  all_absent bookingDetails ->
  messageBody bookingDetails = Ok placeholder_message
  /\ placeholder_message =
     Str.trim (Str.collapse_ws (Str.strip_blank_edges
       (template "N/A" "N/A" "N/A" "N/A" "N/A" "N/A" "Assigned Soon" "N/A")))
  /\ Str.contains is_line_break placeholder_message = false
  /\ has_double_space placeholder_message = false
  /\ no_outer_space placeholder_message = true
  /\ (forall w body p,
        get body "phoneNumber" = Ok (VStr p) -> p <> "" ->
        get body "bookingDetails" = Ok bookingDetails ->
        truthy bookingDetails = true ->
        truthy (TWILIO_PHONE_NUMBER w) = true ->
        exists q,
          formatPhoneNumberForTwilio (VStr p) = Ok (VStr q)
          /\ send_booking_sms w body
             = after_sending
                 (messages_create w placeholder_message (VStr q)
                    (TWILIO_PHONE_NUMBER w))).
Proof.
  intros [H Hfare]. 
  assert (Hb : is_nullish bookingDetails = false).
  { inversion H as [|k ks Hk _]. exact (JsFacts.get_not_nullish_source _ _ _ Hk). }
  repeat match goal with
         | H : Forall _ (_ :: _) |- _ => inversion H; subst; clear H
         end.
  assert (Hm : messageBody bookingDetails = Ok placeholder_message).
  { unfold messageBody.
    repeat (rewrite field_or_absent by assumption; cbn [bind]).
    rewrite fare_text_absent by assumption. cbn [bind].
    repeat (rewrite field_or_absent by assumption; cbn [bind]).
    vm_compute. reflexivity. }
  split; [exact Hm|].
  split; [vm_compute; reflexivity|].
  split; [vm_compute; reflexivity|].
  split; [vm_compute; reflexivity|].
  split; [vm_compute; reflexivity|].
  intros w body p Hp Hne Hbd Tb Tw.
  exact (booking_sends_message w body p bookingDetails placeholder_message
           Hp Hne Hbd Tb Tw Hm).
Qed.

Lemma placeholder_message_is_clean_witness :
  messageBody (obj [("fareDetails", obj [])]) = Ok placeholder_message
  /\ send_booking_sms delivering
       (request [("phoneNumber", VStr "98765 43210");
                 ("bookingDetails", obj [("fareDetails", obj [])])])
     = message_only 200 "Booking confirmation SMS sent.".
Proof.
  destruct (placeholder_message_is_clean (obj [("fareDetails", obj [])]))
    as (Hm & _ & _ & _ & _ & Hsend).
  - split; [repeat constructor | reflexivity].
  - split; [exact Hm|].
    destruct (Hsend delivering
                (request [("phoneNumber", VStr "98765 43210");
                          ("bookingDetails", obj [("fareDetails", obj [])])])
                "98765 43210") as (q & _ & ->); try reflexivity.
    discriminate.
Defined.

(** ** The fare *)

(** Only an object has a [fareDetails] that is not [undefined]. *)
Lemma fareDetails_owner_truthy (bookingDetails fareDetails : value) :
  get bookingDetails "fareDetails" = Ok fareDetails ->
  is_nullish fareDetails = false -> truthy bookingDetails = true.
Proof.
  destruct bookingDetails; simpl; try discriminate; try reflexivity;
    intros H; injection H as <-; discriminate.
Qed.

Lemma fare_text_throws (bookingDetails fareDetails total : value) :
  get bookingDetails "fareDetails" = Ok fareDetails ->
  get fareDetails "total" = Ok total ->
  is_nullish total = false -> is_number total = false ->
  exists e, fare_text bookingDetails = Throw e.
Proof.
  intros Hfd Ht Hn Hnum. unfold fare_text, fare_total_fixed.
  rewrite Hfd. cbn [bind]. rewrite (JsFacts.get_not_nullish_source _ _ _ Ht).
  rewrite Ht. cbn [bind]. rewrite Hn.
  destruct total; try discriminate; cbn [bind]; eauto.
Qed.

Lemma messageBody_throws_with_fare (bookingDetails : value) :
  (exists e, fare_text bookingDetails = Throw e) ->
  exists e, messageBody bookingDetails = Throw e.
Proof.
  intros (e & He). unfold messageBody.
  destruct (field_or bookingDetails "bookingId" "N/A"); cbn [bind]; [|eauto].
  destruct (field_or bookingDetails "pickup" "N/A"); cbn [bind]; [|eauto].
  destruct (field_or bookingDetails "dropoff" "N/A"); cbn [bind]; [|eauto].
  destruct (field_or bookingDetails "pickupDate" "N/A"); cbn [bind]; [|eauto].
  destruct (field_or bookingDetails "pickupTime" "N/A"); cbn [bind]; [|eauto].
  rewrite He. cbn [bind]. eauto.
Qed.

(** The exceptions of the message construction are TypeErrors of the
    language: they carry no [status]. *)
Lemma field_or_throws (bookingDetails : value) (k fallback : string) (e : exn) :
  field_or bookingDetails k fallback = Throw e -> exn_status e = None.
Proof.
  unfold field_or. destruct (get bookingDetails k) as [v|e0] eqn:G; cbn [bind].
  - intros H. apply JsFacts.ToString_throws in H. subst e. reflexivity.
  - intros H. injection H as <-. exact (JsFacts.get_throws _ _ _ G).
Qed.

Lemma fare_text_throws_status (bookingDetails : value) (e : exn) :
  fare_text bookingDetails = Throw e -> exn_status e = None.
Proof.
  unfold fare_text, fare_total_fixed.
  destruct (get bookingDetails "fareDetails") as [fd|e0] eqn:G; cbn [bind].
  - destruct (is_nullish fd); cbn [bind]; [discriminate|].
    destruct (get fd "total") as [t|e1] eqn:G1; cbn [bind].
    + destruct (is_nullish t); cbn [bind]; [discriminate|].
      destruct t; cbn [bind]; try (intros H; injection H as <-; reflexivity).
      intros H. apply JsFacts.ToString_throws in H. subst e. reflexivity.
    + intros H. injection H as <-. exact (JsFacts.get_throws _ _ _ G1).
  - intros H. injection H as <-. exact (JsFacts.get_throws _ _ _ G).
Qed.

Lemma messageBody_throws_status (bookingDetails : value) (e : exn) :
  messageBody bookingDetails = Throw e -> exn_status e = None.
Proof.
  unfold messageBody.
  destruct (field_or bookingDetails "bookingId" "N/A") eqn:F1; cbn [bind];
    [|intros H; injection H as <-; exact (field_or_throws _ _ _ _ F1)].
  destruct (field_or bookingDetails "pickup" "N/A") eqn:F2; cbn [bind];
    [|intros H; injection H as <-; exact (field_or_throws _ _ _ _ F2)].
  destruct (field_or bookingDetails "dropoff" "N/A") eqn:F3; cbn [bind];
    [|intros H; injection H as <-; exact (field_or_throws _ _ _ _ F3)].
  destruct (field_or bookingDetails "pickupDate" "N/A") eqn:F4; cbn [bind];
    [|intros H; injection H as <-; exact (field_or_throws _ _ _ _ F4)].
  destruct (field_or bookingDetails "pickupTime" "N/A") eqn:F5; cbn [bind];
    [|intros H; injection H as <-; exact (field_or_throws _ _ _ _ F5)].
  destruct (fare_text bookingDetails) eqn:F6; cbn [bind];
    [|intros H; injection H as <-; exact (fare_text_throws_status _ _ F6)].
  destruct (field_or bookingDetails "driverName" "Assigned Soon") eqn:F7; cbn [bind];
    [|intros H; injection H as <-; exact (field_or_throws _ _ _ _ F7)].
  destruct (field_or bookingDetails "driverVehicle" "N/A") eqn:F8; cbn [bind];
    [|intros H; injection H as <-; exact (field_or_throws _ _ _ _ F8)].
  discriminate.
Qed.

(** C10, counterexample.  A [total] that is present in the request and
    is not a number, namely [null], does not make the message
    construction throw: the placeholder is rendered and the handler
    responds 200. *)
Lemma null_total_renders_placeholder :
  has_own "total" [("total", VNull)] = true
  /\ is_number VNull = false
  /\ messageBody (obj [("fareDetails", obj [("total", VNull)])])
     = Ok placeholder_message
  /\ send_booking_sms delivering
       (request [("phoneNumber", VStr "9876543210");
                 ("bookingDetails", obj [("fareDetails", obj [("total", VNull)])])])
     = message_only 200 "Booking confirmation SMS sent.".
Proof. repeat split; vm_compute; reflexivity. Qed.

(** C10, amended.  When the required fields are there and
    bookingDetails.fareDetails.total is neither absent nor [null] and
    is not a number, building the message throws at [toFixed] (or
    before) and the handler responds 500; and the fare placeholder "N/A"
    is rendered only when [fareDetails] or [total] is absent or
    [null]. *)
Theorem non_number_total_gives_500
    (w : world) (body phoneNumber bookingDetails fareDetails total : value) :
  get body "phoneNumber" = Ok phoneNumber -> truthy phoneNumber = true ->
  get body "bookingDetails" = Ok bookingDetails ->
  get bookingDetails "fareDetails" = Ok fareDetails ->
  get fareDetails "total" = Ok total ->
  is_nullish total = false -> is_number total = false ->
  (exists e, fare_text bookingDetails = Throw e)
  /\ (exists e, messageBody bookingDetails = Throw e)
  /\ send_booking_sms w body
     = message_only 500 "Failed to send booking confirmation SMS."
  /\ (forall b, fare_text b = Ok "N/A" ->
        is_nullish (get_opt (get_opt b "fareDetails") "total") = true).
Proof.
  intros Hp Htp Hb Hfd Ht Hn Hnum.
  pose proof (fare_text_throws _ _ _ Hfd Ht Hn Hnum) as Hfare.
  pose proof (messageBody_throws_with_fare _ Hfare) as (e & He).
  split; [exact Hfare|]. split; [eauto|]. split.
  - unfold send_booking_sms. rewrite Hp, Hb. cbn [bind]. rewrite Htp.
    rewrite (fareDetails_owner_truthy _ _ Hfd (JsFacts.get_not_nullish_source _ _ _ Ht)).
    cbn [negb orb]. unfold send_booking_sms_try. rewrite He. cbn [bind].
    unfold has_status_and_message. rewrite (messageBody_throws_status _ _ He).
    reflexivity.
  - intros b. unfold fare_text, fare_total_fixed, get_opt.
    destruct (get b "fareDetails") as [fd|e0]; cbn [bind]; [|discriminate].
    destruct (is_nullish fd) eqn:Nfd.
    + destruct fd; try discriminate; reflexivity.
    + destruct (JsFacts.get_of_not_nullish fd "total" Nfd) as (t & Hget).
      rewrite Hget. cbn [bind].
      destruct (is_nullish t) eqn:Nt; [trivial|].
      destruct t; try discriminate.
      cbn [bind or_else truthy ToString].
      destruct (NumFacts.toFixed2_not_placeholder n) as [H1 H2].
      destruct (toFixed2 n) as [|c r] eqn:E; [congruence|].
      cbn [Str.is_empty negb ToString]. intros H. injection H as H. congruence.
Qed.

Lemma non_number_total_gives_500_witness :
  send_booking_sms delivering
    (request [("phoneNumber", VStr "9876543210");
              ("bookingDetails", obj [("fareDetails", obj [("total", VStr "1200")])])])
  = message_only 500 "Failed to send booking confirmation SMS.".
Proof.
  refine (proj1 (proj2 (proj2
    (non_number_total_gives_500 delivering
       (request [("phoneNumber", VStr "9876543210");
                 ("bookingDetails", obj [("fareDetails", obj [("total", VStr "1200")])])])
       (VStr "9876543210")
       (obj [("fareDetails", obj [("total", VStr "1200")])])
       (obj [("total", VStr "1200")])
       (VStr "1200") _ _ _ _ _ _ _)))); reflexivity.
Defined.

End BookingFacts.

(* ================================================================== *)
(** * Properties of POST /api/get-tolls *)
(* ================================================================== *)

Module TollFacts.

Import Num Js Backend Routes Shape.
Local Open Scope Z_scope.

(** ** The upstream error branch *)

(** With an error body that did not parse, or parsed to anything but
    [null], the status of the provider is passed on. *)
Lemma upstream_status_forwarded (googleResponse : response) :
  json googleResponse <> Ok VNull -> json googleResponse <> Ok VUndef ->
  exists details,
    toll_upstream_error googleResponse =
    Ok (Respond (status googleResponse)
          (obj [("message", VStr "Error fetching route from Google Maps API");
                ("details", details)])).
Proof.
  intros Hnull Hundef. unfold toll_upstream_error.
  set (errorData := match json googleResponse with Ok v => v | Throw _ => could_not_parse end).
  assert (Hn : is_nullish errorData = false).
  { subst errorData. destruct (json googleResponse) as [v|e]; [|reflexivity].
    destruct v; try reflexivity; congruence. }
  destruct (JsFacts.get_of_not_nullish errorData "error" Hn) as (err & ->).
  cbn [bind]. destruct (truthy err) eqn:T.
  - assert (Hne : is_nullish err = false) by (destruct err; try discriminate; reflexivity).
    destruct (JsFacts.get_of_not_nullish err "message" Hne) as (m & ->).
    cbn [bind]. eauto.
  - destruct (JsFacts.get_of_not_nullish errorData "message" Hn) as (m & ->).
    cbn [bind]. eauto.
Qed.

(** C5, at the failing input.  The routing provider answers 503 with
    the body [null]: reading [errorData.error] throws, the outer catch
    takes over and the handler responds 500, not 503. *)
Theorem null_error_body_gives_500 :
  get_tolls (routing (Ok (mkResponse 503 (Ok VNull))))
            (request [("pickup", VStr "Chennai"); ("dropoff", VStr "Madurai")])
  = Respond 500
      (obj [("message", VStr "Internal server error during toll calculation.");
            ("details", VStr "Cannot read properties of null (reading 'error')")]).
Proof. reflexivity. Qed.

(** ** The typed response under the handler's reads *)

Lemma strict_eq_INR (p : TollPrice) :
  strict_eq_string (piece_value (currencyCode p)) "INR" = is_INR p.
Proof. unfold is_INR. destruct (currencyCode p); reflexivity. Qed.

Lemma ToNumber_piece (q : piece) : ToNumber (piece_value q) = Ok (number_of q).
Proof. destruct q; reflexivity. Qed.

Lemma Number_or_0_piece (q : piece) : Number_or_0 (piece_value q) = Ok (coerced q).
Proof.
  unfold Number_or_0, coerced. rewrite ToNumber_piece. cbn [bind].
  destruct (number_of q); reflexivity.
Qed.

Lemma ToString_piece (q : piece) : exists t, ToString (piece_value q) = Ok t.
Proof. destruct q; cbn [piece_value ToString]; eauto. Qed.

(** After [Number(...) || 0] the value is never NaN: the branch that
    skips an entry cannot be taken. *)
Lemma Number_or_0_not_nan (v : value) (n : num) :
  Number_or_0 v = Ok n -> isNaN n = false.
Proof.
  unfold Number_or_0. destruct (ToNumber v) as [x|e]; cbn [bind]; [|discriminate].
  intros H. injection H as <-. destruct x; reflexivity.
Qed.

Lemma coerced_not_nan (q : piece) : isNaN (coerced q) = false.
Proof. apply (Number_or_0_not_nan (piece_value q)), Number_or_0_piece. Qed.

(** One step of the loop on a typed entry. *)
Lemma price_step_typed (t : num) (v : value) (p : TollPrice) :
  is_price v p ->
  price_step t v = Ok (if is_INR p then add t (amount p) else t).
Proof.
  intros (Hc & Hu & Hn).
  unfold price_step. rewrite Hc. cbn [bind]. rewrite strict_eq_INR.
  destruct (is_INR p); [|reflexivity].
  rewrite Hu. cbn [bind]. rewrite Number_or_0_piece. cbn [bind].
  rewrite Hn. cbn [bind]. rewrite Number_or_0_piece. cbn [bind].
  destruct (ToString_piece (units p)) as (tu & ->). cbn [bind].
  destruct (ToString_piece (nanos p)) as (tn & ->). cbn [bind].
  rewrite !coerced_not_nan. reflexivity.
Qed.

Lemma forEach_price_typed (vs : list value) (l : list TollPrice) :
  Forall2 is_price vs l ->
  forall t, forEach_price vs t = Ok (fold_left add (map amount (filter is_INR l)) t).
Proof.
  induction 1 as [|v p vs l Hp _ IH]; intros t; [reflexivity|].
  cbn [forEach_price filter]. rewrite (price_step_typed t v p Hp). cbn [bind].
  rewrite IH. destruct (is_INR p); reflexivity.
Qed.

Lemma length_is_positive (l : list value) :
  gt_zero (VNum (of_Z (Z.of_nat (List.length l))))
  = Ok (match l with [] => false | _ :: _ => true end).
Proof.
  unfold gt_zero. cbn [ToNumber bind]. destruct l as [|x l]; [reflexivity|].
  cbn [List.length Z.of_nat]. rewrite NumFacts.of_Z_positive. reflexivity.
Qed.

(** The links below a route: what the handler finds under
    [firstRoute.travelAdvisory]. *)
Lemma below_advisory (x : value) (a : TravelAdvisory) :
  is_advisory x a ->
  (if truthy x then
     tollInfo <- get x "tollInfo" ;;
     if truthy tollInfo then
       estimatedPrice <- get tollInfo "estimatedPrice" ;;
       if truthy estimatedPrice
       then forEach_estimatedPrice estimatedPrice zero
       else Ok zero
     else Ok zero
   else Ok zero)%js
  = Ok (fold_left add
          (map amount
             (filter is_INR
                match tollInfo a with
                | Some t => match estimatedPrice t with Some l => l | None => [] end
                | None => []
                end)) zero).
Proof.
  intros [Tx Hx]. rewrite Tx.
  destruct (tollInfo a) as [t|]; cbn [optional] in Hx.
  - destruct Hx as (y & -> & Ty & Hy). cbn [bind]. rewrite Ty.
    destruct (estimatedPrice t) as [l|]; cbn [optional] in Hy.
    + destruct Hy as (z & -> & vs & -> & Hvs). cbn [bind truthy].
      cbn [forEach_estimatedPrice]. apply forEach_price_typed, Hvs.
    + rewrite Hy. reflexivity.
  - rewrite Hx. reflexivity.
Qed.

(** The walk of the handler over a typed response computes the total
    the specification describes. *)
Lemma sum_tolls_typed (data : value) (r : RoutesResponse) :
  is_response data r -> sum_tolls data = Ok (inr_total r).
Proof.
  unfold is_response, sum_tolls, inr_total, prices_of.
  destruct (routes r) as [l|]; cbn [optional].
  - intros (x & -> & vs & -> & Hvs). cbn [bind truthy get].
    change (String.eqb "length" "length") with true. cbn iota.
    rewrite length_is_positive. cbn [bind].
    destruct Hvs as [|v first vs rest Hfirst _]; [reflexivity|].
    cbn [get_index0]. unfold is_route in Hfirst.
    destruct (travelAdvisory first) as [a|]; cbn [optional] in Hfirst.
    + destruct Hfirst as (y & -> & Hy). cbn [bind].
      apply (below_advisory y a Hy).
    + rewrite Hfirst. reflexivity.
  - intros ->. reflexivity.
Qed.

Lemma entry_is_price (p : TollPrice) : is_price (entry_of p) p.
Proof. repeat split. Qed.

Lemma one_route_is_response (p : TollPrice) :
  is_response (one_route_body (entry_of p)) (one_price p).
Proof.
  unfold is_response. cbn [optional routes one_price].
  eexists. split; [reflexivity|]. eexists. split; [reflexivity|].
  constructor; [|constructor].
  unfold is_route. cbn [optional travelAdvisory].
  eexists. split; [reflexivity|]. split; [reflexivity|].
  cbn [optional tollInfo]. eexists. split; [reflexivity|]. split; [reflexivity|].
  cbn [optional estimatedPrice]. eexists. split; [reflexivity|].
  eexists. split; [reflexivity|].
  constructor; [apply entry_is_price | constructor].
Qed.

(** What rounding to two decimals means, on numbers. *)
Lemma rounded2_nearest (x : num) :
  printed_in_digits x = true -> rounded2 x = nearest_hundredth x.
Proof.
  unfold rounded2. destruct x as [s|s| |s m e]; cbn [printed_in_digits nearest_hundredth].
  - reflexivity.
  - destruct s; reflexivity.
  - reflexivity.
  - intros H. apply NumFacts.parseFloat_toFixed2_below_1e21.
    destruct (at_least_1e21 m e); [discriminate | reflexivity].
Qed.

(** The test vectors of the specification for the toll handler. *)
Lemma toll_test_vectors :
  get_tolls (answering (one_route_body
               (price_entry (VStr "INR") (VStr "120") (VStr "500000000"))))
            toll_request
  = Respond 200 (toll_body n120_5)
  /\ get_tolls (answering (one_route_body
                  (price_entry (VStr "USD") (VStr "5") (VStr "0"))))
               toll_request
     = Respond 200 (toll_body zero)
  /\ get_tolls (answering (obj [])) toll_request = Respond 200 (toll_body zero).
Proof. repeat split; vm_compute; reflexivity. Qed.

(** ** The handler on a successful answer *)

(** A valid request whose upstream call succeeds with the parsed body
    [data]: the handler answers from [sum_tolls]. *)
Lemma get_tolls_on_success
    (w : world) (body pickup dropoff : value) (googleResponse : response) (data : value) :
  get body "pickup" = Ok pickup -> truthy pickup = true ->
  get body "dropoff" = Ok dropoff -> truthy dropoff = true ->
  fetch w pickup dropoff = Ok googleResponse ->
  ok googleResponse = true -> json googleResponse = Ok data ->
  get_tolls w body =
  match sum_tolls data with
  | Ok t => Respond 200 (toll_body (tollAmount (safeguard t)))
  | Throw error => internal_error error
  end.
Proof.
  intros Hp Tp Hd Td Hf Hok Hj.
  unfold get_tolls. rewrite Hp, Hd. cbn [bind]. rewrite Tp, Td. cbn [negb orb].
  unfold get_tolls_try. rewrite Hf. cbn [bind]. rewrite Hok. cbn [negb].
  unfold toll_success. rewrite Hj. cbn [bind].
  destruct (sum_tolls data); reflexivity.
Qed.

(** C1, counterexample.  One INR entry with units "Infinity" and nanos
    "-Infinity": the sum of the claim is NaN, and so is its rounding, but
    the handler answers [tollAmount: 0]. *)
Lemma nan_total_is_reported_as_zero :
  inr_total (one_price inr_undefined) = NaN
  /\ rounded2 NaN = NaN
  /\ get_tolls (answering (one_route_body (entry_of inr_undefined))) toll_request
     = Respond 200 (toll_body zero).
Proof. repeat split; vm_compute; reflexivity. Qed.

(** C1, amended.  For a valid request and a successful upstream answer
    of the shape the specification gives, the handler responds 200 with
    [tollAmount] equal to the rounding to two decimals of the running
    total, over the INR entries of
    routes[0].travelAdvisory.tollInfo.estimatedPrice, of
    units + nanos / 1_000_000_000 with both coerced to numbers, where a
    total that is NaN counts as 0.  Below 10^21 that rounding is the
    number nearest to the nearest hundredth.  Entries in other
    currencies add nothing, and with the routes, the advisory, the toll
    info or the prices absent the amount is 0. *)
Theorem toll_amount_is_rounded_inr_total
    (w : world) (body pickup dropoff : value) (googleResponse : response)
    (data : value) (r : RoutesResponse) :
  get body "pickup" = Ok pickup -> truthy pickup = true ->
  get body "dropoff" = Ok dropoff -> truthy dropoff = true ->
  fetch w pickup dropoff = Ok googleResponse ->
  ok googleResponse = true -> json googleResponse = Ok data ->
  is_response data r ->
  get_tolls w body =
    Respond 200
      (toll_body (rounded2 (if isNaN (inr_total r) then zero else inr_total r)))
  /\ (printed_in_digits (inr_total r) = true ->
      get_tolls w body =
        Respond 200
          (toll_body
             (nearest_hundredth (if isNaN (inr_total r) then zero else inr_total r))))
  /\ (filter is_INR (prices_of r) = [] ->
      get_tolls w body = Respond 200 (toll_body zero))
  /\ (prices_of r = [] -> get_tolls w body = Respond 200 (toll_body zero)).
Proof.
  intros Hp Tp Hd Td Hf Hok Hj Hr.
  pose proof (get_tolls_on_success w body pickup dropoff googleResponse
                data Hp Tp Hd Td Hf Hok Hj) as H.
  rewrite (sum_tolls_typed data r Hr) in H.
  assert (Hnone : filter is_INR (prices_of r) = [] ->
                  get_tolls w body = Respond 200 (toll_body zero)).
  { intros E. rewrite H. unfold inr_total. rewrite E. reflexivity. }
  split; [exact H|]. split; [|split; [exact Hnone|]].
  - intros Hd21. rewrite H. do 2 f_equal. fold (rounded2 (safeguard (inr_total r))).
    unfold safeguard. apply rounded2_nearest.
    destruct (isNaN (inr_total r)); [reflexivity | exact Hd21].
  - intros E. apply Hnone. rewrite E. reflexivity.
Qed.

Lemma toll_amount_is_rounded_inr_total_witness :
  get_tolls (answering (one_route_body (entry_of inr_120_5))) toll_request
  = Respond 200 (toll_body n120_5).
Proof.
  refine (eq_trans (proj1
    (toll_amount_is_rounded_inr_total
       (answering (one_route_body (entry_of inr_120_5)))
       toll_request (VStr "Chennai") (VStr "Madurai")
       (mkResponse 200 (Ok (one_route_body (entry_of inr_120_5))))
       (one_route_body (entry_of inr_120_5)) (one_price inr_120_5)
       _ _ _ _ _ _ _ _)) _);
    try reflexivity.
  apply one_route_is_response.
Defined.

(** C3, counterexample.  An INR entry whose units "abc" is not numeric
    is not skipped: with nanos 500000000 it adds 0.5, and the handler
    answers [tollAmount: 0.5]. *)
Lemma non_numeric_units_entry_adds_nanos :
  ToNumber (VStr "abc") = Ok NaN
  /\ price_step zero (price_entry (VStr "INR") (VStr "abc") (VStr "500000000"))
     = Ok half
  /\ get_tolls (answering (one_route_body
                  (price_entry (VStr "INR") (VStr "abc") (VStr "500000000"))))
               toll_request
     = Respond 200 (toll_body half)
  /\ half <> zero.
Proof. repeat split; try (vm_compute; reflexivity). discriminate. Qed.

(** C3, amended.  An INR entry whose units is not numeric is not
    skipped: its units count as 0, so it adds nanos / 1_000_000_000, with
    nanos coerced the same way, to the running total (so it adds 0 when
    its nanos is zero or not numeric either); the remaining entries are then
    processed from that total; and the branch that would skip an entry
    is never taken, since after [Number(...) || 0] a value is not NaN. *)
Theorem non_numeric_units_count_as_zero
    (v : value) (p : TollPrice) (t : num) (rest : list value) :
  is_price v p -> is_INR p = true -> isNaN (number_of (units p)) = true ->
  price_step t v = Ok (add t (add zero (div (coerced (nanos p)) billion)))
  /\ forEach_price (v :: rest) t
     = forEach_price rest (add t (add zero (div (coerced (nanos p)) billion)))
  /\ (Num.truthy (number_of (nanos p)) = false -> price_step t v = Ok (add t zero))
  /\ (forall x n, Number_or_0 x = Ok n -> isNaN n = false).
Proof.
  intros Hp Hinr Hnan.
  assert (Hu : coerced (units p) = zero).
  { unfold coerced. destruct (number_of (units p)); try discriminate. reflexivity. }
  assert (Hstep : price_step t v
                  = Ok (add t (add zero (div (coerced (nanos p)) billion)))).
  { rewrite (price_step_typed t v p Hp), Hinr. unfold amount. rewrite Hu. reflexivity. }
  split; [exact Hstep|]. split; [|split].
  - cbn [forEach_price]. rewrite Hstep. reflexivity.
  - intros Hz. rewrite Hstep. unfold coerced.
    destruct (number_of (nanos p)); try discriminate; reflexivity.
  - exact Number_or_0_not_nan.
Qed.

Lemma non_numeric_units_count_as_zero_witness :
  price_step n120_5 (entry_of inr_abc)
  = Ok (add n120_5 (add zero (div (coerced (PStr "500000000")) billion))).
Proof.
  apply (non_numeric_units_count_as_zero (entry_of inr_abc) inr_abc n120_5 []).
  - apply entry_is_price.
  - reflexivity.
  - reflexivity.
Defined.

(** C4, counterexample.  With units "Infinity" the total is infinite;
    the safeguard lets it through and the [tollAmount] the handler
    passes to [res.json] with the status 200 is Infinity, which is not a
    finite number and which JSON writes as [null]. *)
Lemma infinite_total_is_not_reset :
  sum_tolls (one_route_body (entry_of inr_infinite)) = Ok Infinity
  /\ get_tolls (answering (one_route_body (entry_of inr_infinite))) toll_request
     = Respond 200 (toll_body Infinity)
  /\ is_finite_number (VNum Infinity) = false
  /\ JSON_stringify_number Infinity = "null".
Proof. repeat split; vm_compute; reflexivity. Qed.

(** C4, amended.  The safeguard runs before the rounding and tests for
    NaN only.  Whenever the handler responds 200, the upstream answer
    was parsed to a body [data], the walk over [data] computed a total
    [t] (for a body of the shape the specification gives, the sum of the
    coerced units and nanos of its INR entries), and the body passed to
    [res.json] is [{ tollAmount }] where
    [tollAmount] is a number that is never NaN: it is 0 when [t] is NaN,
    and the rounding of [t] otherwise; when [t] is Infinity or -Infinity
    it is that infinity, not 0 and not a finite number, and JSON writes
    it as [null]. *)
Theorem toll_amount_is_never_nan (w : world) (body payload : value) :
  get_tolls w body = Respond 200 payload ->
  exists pickup dropoff googleResponse data t,
    get body "pickup" = Ok pickup
    /\ get body "dropoff" = Ok dropoff
    /\ fetch w pickup dropoff = Ok googleResponse
    /\ json googleResponse = Ok data
    /\ sum_tolls data = Ok t
    /\ (forall r, is_response data r -> t = inr_total r)
    /\ payload = toll_body (tollAmount (safeguard t))
    /\ isNaN (tollAmount (safeguard t)) = false
    /\ (isNaN t = true -> payload = toll_body zero)
    /\ (isNaN t = false -> payload = toll_body (tollAmount t))
    /\ (isFinite t = false -> isNaN t = false ->
        payload = toll_body t
        /\ is_finite_number (VNum t) = false
        /\ JSON_stringify_number t = "null").
Proof.
  intros H.
  unfold get_tolls in H.
  destruct (get body "pickup") as [pickup|e] eqn:Gp; cbn [bind] in H;
    [|discriminate].
  destruct (get body "dropoff") as [dropoff|e] eqn:Gd; cbn [bind] in H;
    [|discriminate].
  destruct (negb (truthy pickup) || negb (truthy dropoff)); [discriminate|].
  unfold get_tolls_try in H.
  destruct (fetch w pickup dropoff) as [googleResponse|e] eqn:F; cbn [bind] in H;
    [|discriminate].
  destruct (negb (ok googleResponse)) eqn:Hok.
  - unfold toll_upstream_error in H.
    match type of H with
    | context [get ?d "error"] => destruct (get d "error") as [err|e] eqn:G
    end; cbn [bind] in H; [|discriminate].
    match type of H with
    | context [bind ?c _] => destruct c as [details|e]
    end; cbn [bind] in H; [|discriminate].
    injection H as Hst _. unfold ok in Hok. rewrite Hst in Hok. discriminate.
  - unfold toll_success in H.
    destruct (json googleResponse) as [data|e] eqn:J; cbn [bind] in H;
      [|discriminate].
    destruct (sum_tolls data) as [t|e] eqn:S; cbn [bind] in H; [|discriminate].
    injection H as <-. exists pickup, dropoff, googleResponse, data, t.
    assert (Hs : isNaN (safeguard t) = false).
    { unfold safeguard. destruct (isNaN t) eqn:E; [reflexivity | exact E]. }
    do 5 (split; [first [reflexivity | assumption]|]).
    split.
    { intros r Hr. rewrite (sum_tolls_typed data r Hr) in S. congruence. }
    split; [reflexivity|].
    split; [apply NumFacts.parseFloat_toFixed2_not_nan, Hs|].
    split; [intros E; unfold safeguard; rewrite E; reflexivity|].
    split; [intros E; unfold safeguard; rewrite E; reflexivity|].
    intros Hf Hn. destruct t as [s|s| |s m e]; try discriminate.
    destruct s; repeat split; reflexivity.
Qed.

Lemma toll_amount_is_never_nan_witness :
  exists pickup dropoff googleResponse data t,
    get toll_request "pickup" = Ok pickup
    /\ get toll_request "dropoff" = Ok dropoff
    /\ fetch (answering (one_route_body (entry_of inr_infinite))) pickup dropoff
       = Ok googleResponse
    /\ json googleResponse = Ok data
    /\ sum_tolls data = Ok t
    /\ (forall r, is_response data r -> t = inr_total r)
    /\ toll_body Infinity = toll_body (tollAmount (safeguard t))
    /\ isNaN (tollAmount (safeguard t)) = false
    /\ (isNaN t = true -> toll_body Infinity = toll_body zero)
    /\ (isNaN t = false -> toll_body Infinity = toll_body (tollAmount t))
    /\ (isFinite t = false -> isNaN t = false ->
        toll_body Infinity = toll_body t
        /\ is_finite_number (VNum t) = false
        /\ JSON_stringify_number t = "null").
Proof.
  apply (toll_amount_is_never_nan
           (answering (one_route_body (entry_of inr_infinite)))
           toll_request (toll_body Infinity)).
  reflexivity.
Defined.

End TollFacts.

(* ================================================================== *)
(** * Properties of the white-space scans *)
(* ================================================================== *)

Module ScanFacts.

Import Str Shape Layout Num Js Backend.

Lemma string_length_ind (P : string -> Prop) :
  (forall s, (forall t, String.length t < String.length s -> P t) -> P s) ->
  forall s, P s.
Proof.
  intros H s. remember (String.length s) as n eqn:E. revert s E.
  induction n as [n IH] using lt_wf_ind. intros s ->.
  apply H. intros t Ht. exact (IH _ Ht t eq_refl).
Qed.

Lemma skip_length (n : nat) (s : string) :
  String.length (skip n s) = String.length s - n.
Proof.
  revert s. induction n as [|n IH]; intros [|c r]; simpl; auto.
Qed.

Lemma ws_len_bound (s : string) : ws_len s <= String.length s /\ ws_len s <= 3.
Proof.
  destruct s as [|c1 [|c2 [|c3 r]]]; simpl; repeat match goal with |- context [if ?b then _ else _] => destruct b end; simpl; lia.
Qed.

Lemma skip_shorter (s : string) :
  ws_len s <> 0 -> String.length (skip (ws_len s) s) < String.length s.
Proof.
  intros H. rewrite skip_length. pose proof (ws_len_bound s). lia.
Qed.

Lemma trimStart_step (s : string) :
  trimStart s = if Nat.eqb (ws_len s) 0 then s else trimStart (skip (ws_len s) s).
Proof.
  destruct s as [|c1 [|c2 [|c3 r]]]; cbn [trimStart ws_len];
    repeat (match goal with |- context [if ?b then _ else _] => destruct b end;
            cbn [Nat.eqb skip trimStart]); reflexivity.
Qed.

Lemma collapse_from_step (p : bool) (s : string) :
  collapse_from p s =
  match s with
  | EmptyString => EmptyString
  | String c r =>
      if Nat.eqb (ws_len s) 0 then String c (collapse_from false r)
      else (if p then EmptyString else " ") ++ collapse_from true (skip (ws_len s) s)
  end.
Proof.
  destruct s as [|c1 [|c2 [|c3 r]]]; cbn [collapse_from ws_len skip];
    repeat (match goal with |- context [if ?b then _ else _] => destruct b end;
            cbn [Nat.eqb skip collapse_from]); reflexivity.
Qed.

(** ** The bytes of white-space characters *)
Lemma ws1_low (c : ascii) : ws1 c = true -> (code c < 128)%N.
Proof.
  unfold ws1. rewrite orb_true_iff, andb_true_iff, !N.leb_le, N.eqb_eq. lia.
Qed.

Lemma ws2_bytes (c1 c2 : ascii) :
  ws2 c1 c2 = true -> code c1 = 194%N /\ code c2 = 160%N.
Proof. unfold ws2. rewrite andb_true_iff, !N.eqb_eq. tauto. Qed.

Lemma ws3_bytes (c1 c2 c3 : ascii) :
  ws3 c1 c2 c3 = true ->
  (224 < code c1 /\ 128 <= code c2 < 194 /\ 128 <= code c3 < 194)%N.
Proof.
  unfold ws3. cbv zeta.
  rewrite !orb_true_iff, !andb_true_iff, !orb_true_iff, !andb_true_iff,
          !N.eqb_eq, !N.leb_le. lia.
Qed.

Lemma ws_len_0_ws1 (c : ascii) (r : string) :
  ws_len (String c r) = 0 -> ws1 c = false.
Proof. simpl. destruct (ws1 c); [discriminate | reflexivity]. Qed.

Lemma ws_len_0_wide (s : string) : ws_len s = 0 -> wide_space_at s = false.
Proof.
  destruct s as [|c1 [|c2 [|c3 r]]]; simpl; try reflexivity;
    destruct (ws1 c1); try discriminate; destruct (ws2 c1 c2); try discriminate;
    try reflexivity.
  destruct (ws3 c1 c2 c3); [discriminate | reflexivity].
Qed.

Lemma ws_len_low (c : ascii) (r : string) :
  (code c < 128)%N -> ws_len (String c r) = if ws1 c then 1 else 0.
Proof.
  intros H. simpl. destruct (ws1 c); [reflexivity|].
  destruct r as [|c2 [|c3 r]]; try reflexivity.
  - destruct (ws2 c c2) eqn:E; [apply ws2_bytes in E; lia | reflexivity].
  - destruct (ws2 c c2) eqn:E; [apply ws2_bytes in E; lia |].
    destruct (ws3 c c2 c3) eqn:E3; [apply ws3_bytes in E3; lia | reflexivity].
Qed.

Lemma ws_len_continuation (c : ascii) (r : string) :
  (128 <= code c < 194)%N -> ws_len (String c r) = 0.
Proof.
  intros H. simpl.
  destruct (ws1 c) eqn:E1; [apply ws1_low in E1; lia|].
  destruct r as [|c2 [|c3 r]]; try reflexivity.
  - destruct (ws2 c c2) eqn:E; [apply ws2_bytes in E; lia | reflexivity].
  - destruct (ws2 c c2) eqn:E; [apply ws2_bytes in E; lia |].
    destruct (ws3 c c2 c3) eqn:E3; [apply ws3_bytes in E3; lia | reflexivity].
Qed.

Lemma wide_space_at_low (c : ascii) (r : string) :
  (code c < 128)%N -> wide_space_at (String c r) = false.
Proof.
  intros H. destruct r as [|c2 [|c3 r]]; simpl; try reflexivity.
  - destruct (ws2 c c2) eqn:E; [apply ws2_bytes in E; lia | reflexivity].
  - destruct (ws2 c c2) eqn:E; [apply ws2_bytes in E; lia |].
    destruct (ws3 c c2 c3) eqn:E3; [apply ws3_bytes in E3; lia | reflexivity].
Qed.

Lemma wide_space_at_second_low (c c2 : ascii) (r : string) :
  (code c2 < 128)%N -> wide_space_at (String c (String c2 r)) = false.
Proof.
  intros H. destruct r as [|c3 r]; simpl.
  - destruct (ws2 c c2) eqn:E; [apply ws2_bytes in E; lia | reflexivity].
  - destruct (ws2 c c2) eqn:E; [apply ws2_bytes in E; lia |].
    destruct (ws3 c c2 c3) eqn:E3; [apply ws3_bytes in E3; lia | reflexivity].
Qed.

Lemma contains_append (P : ascii -> bool) (a b : string) :
  contains P (a ++ b) = contains P a || contains P b.
Proof.
  induction a as [|c a IH]; simpl; [reflexivity|]. rewrite IH. apply orb_assoc.
Qed.

(** ** What the replacement of white-space runs leaves *)
Lemma collapse_no_control_space (s : string) :
  forall p, contains is_control_space (collapse_from p s) = false.
Proof.
  induction s as [s IH] using string_length_ind. intros p.
  rewrite collapse_from_step. destruct s as [|c r]; [reflexivity|].
  destruct (Nat.eqb (ws_len (String c r)) 0) eqn:E.
  - apply Nat.eqb_eq, ws_len_0_ws1 in E. cbn [contains].
    unfold is_control_space at 1. rewrite E. cbn [andb orb].
    apply IH. simpl. lia.
  - apply Nat.eqb_neq in E. rewrite contains_append.
    rewrite (IH _ (skip_shorter _ E)). destruct p; reflexivity.
Qed.

Lemma has_double_space_cons (a b : ascii) (t : string) :
  has_double_space (String a (String b t))
  = ((code a =? 32)%N && (code b =? 32)%N) || has_double_space (String b t).
Proof. reflexivity. Qed.

Lemma collapse_single_spaces (s : string) :
  forall p,
    has_double_space (collapse_from p s) = false
    /\ (p = true -> starts_with_space (collapse_from p s) = false).
Proof.
  induction s as [s IH] using string_length_ind. intros p.
  rewrite collapse_from_step. destruct s as [|c r]; [split; reflexivity|].
  destruct (Nat.eqb (ws_len (String c r)) 0) eqn:E.
  - apply Nat.eqb_eq, ws_len_0_ws1 in E.
    assert (Hc : (code c =? 32)%N = false).
    { apply N.eqb_neq. intros H. unfold ws1 in E. rewrite H in E. discriminate. }
    destruct (IH r ltac:(simpl; lia) false) as [Hd _].
    split; [|intros _; exact Hc].
    destruct (collapse_from false r) as [|b t]; [reflexivity|].
    rewrite has_double_space_cons, Hc. exact Hd.
  - apply Nat.eqb_neq in E.
    destruct (IH _ (skip_shorter _ E) true) as [Hd Hs]. specialize (Hs eq_refl).
    destruct p; cbn [append]; [split; auto|].
    split; [|discriminate].
    destruct (collapse_from true (skip (ws_len (String c r)) (String c r))) as [|b t];
      [reflexivity|].
    rewrite has_double_space_cons. cbn [starts_with_space] in Hs. rewrite Hs.
    rewrite andb_false_r. exact Hd.
Qed.

Lemma collapse_head (s : string) :
  match s with
  | EmptyString => collapse_from false s = ""
  | String c r =>
      if Nat.eqb (ws_len s) 0
      then collapse_from false s = String c (collapse_from false r)
      else exists t, collapse_from false s = String " " t
  end.
Proof.
  rewrite collapse_from_step. destruct s as [|c r]; [reflexivity|].
  destruct (Nat.eqb (ws_len (String c r)) 0); [reflexivity|].
  cbn [append]. eauto.
Qed.

Lemma ws_len_0_ws2 (c c2 : ascii) (r : string) :
  ws_len (String c (String c2 r)) = 0 -> ws2 c c2 = false.
Proof.
  simpl. destruct (ws1 c); [discriminate|]. destruct (ws2 c c2); [discriminate | reflexivity].
Qed.

Lemma ws_len_0_ws3 (c c2 c3 : ascii) (r : string) :
  ws_len (String c (String c2 (String c3 r))) = 0 -> ws3 c c2 c3 = false.
Proof.
  simpl. destruct (ws1 c); [discriminate|]. destruct (ws2 c c2); [discriminate|].
  destruct (ws3 c c2 c3); [discriminate | reflexivity].
Qed.

Lemma ws3_third_space (c c2 : ascii) : ws3 c c2 " " = false.
Proof.
  destruct (ws3 c c2 " ") eqn:E; [|reflexivity].
  apply ws3_bytes in E. change (code " ") with 32%N in E. lia.
Qed.

Lemma collapse_no_wide_space (s : string) :
  forall p, has_wide_space (collapse_from p s) = false.
Proof.
  induction s as [s IH] using string_length_ind. intros p.
  rewrite collapse_from_step. destruct s as [|c r]; [reflexivity|].
  destruct (Nat.eqb (ws_len (String c r)) 0) eqn:E.
  - apply Nat.eqb_eq in E. cbn [has_wide_space].
    rewrite (IH r ltac:(simpl; lia) false), orb_false_r.
    pose proof (collapse_head r) as H1.
    destruct r as [|c2 r2]; [rewrite H1; reflexivity|].
    destruct (Nat.eqb (ws_len (String c2 r2)) 0) eqn:E2.
    + rewrite H1. pose proof (collapse_head r2) as H2.
      pose proof (ws_len_0_ws2 _ _ _ E) as W2.
      destruct r2 as [|c3 r3]; [rewrite H2; simpl; rewrite W2; reflexivity|].
      pose proof (ws_len_0_ws3 _ _ _ _ E) as W3.
      destruct (Nat.eqb (ws_len (String c3 r3)) 0).
      * rewrite H2. simpl. rewrite W2, W3. reflexivity.
      * destruct H2 as (t & ->). simpl. rewrite W2, ws3_third_space. reflexivity.
    + destruct H1 as (t & ->). apply wide_space_at_second_low. reflexivity.
  - apply Nat.eqb_neq in E. pose proof (IH _ (skip_shorter _ E) true) as H.
    destruct p; cbn [append]; [exact H|].
    cbn [has_wide_space]. rewrite H, orb_false_r.
    apply wide_space_at_low. reflexivity.
Qed.

(** ** Trimming *)
Lemma take_skip (n : nat) (s : string) : s = take n s ++ skip n s.
Proof.
  revert s. induction n as [|n IH]; intros [|c r]; simpl; try reflexivity.
  f_equal. apply IH.
Qed.

Lemma append_assoc' (a b c : string) : (a ++ b) ++ c = a ++ b ++ c.
Proof. induction a as [|x a IH]; simpl; [reflexivity | now rewrite IH]. Qed.

Lemma trimStart_suffix (s : string) : exists a, s = a ++ trimStart s.
Proof.
  induction s as [s IH] using string_length_ind.
  rewrite trimStart_step. destruct (Nat.eqb (ws_len s) 0) eqn:E.
  - exists "". reflexivity.
  - apply Nat.eqb_neq in E. destruct (IH _ (skip_shorter _ E)) as (a & Ha).
    exists (take (ws_len s) s ++ a).
    rewrite append_assoc', <- Ha. apply take_skip.
Qed.

Lemma trimEnd_prefix (s : string) : exists b, s = trimEnd s ++ b.
Proof.
  induction s as [|c r (b & IH)].
  - exists "". reflexivity.
  - cbn [trimEnd]. destruct (all_ws (String c r)).
    + exists (String c r). reflexivity.
    + exists b. cbn [append]. now rewrite <- IH.
Qed.

Lemma trimStart_idempotent (s : string) : trimStart (trimStart s) = trimStart s.
Proof.
  induction s as [s IH] using string_length_ind.
  rewrite (trimStart_step s). destruct (Nat.eqb (ws_len s) 0) eqn:E.
  - rewrite trimStart_step, E. reflexivity.
  - apply Nat.eqb_neq in E. apply IH, skip_shorter, E.
Qed.

Lemma all_ws_trimStart (s : string) : all_ws (trimStart s) = all_ws s.
Proof. unfold all_ws. now rewrite trimStart_idempotent. Qed.

Lemma trimEnd_empty (s : string) : is_empty (trimEnd s) = all_ws s.
Proof.
  destruct s as [|c r]; [reflexivity|]. cbn [trimEnd].
  destruct (all_ws (String c r)); reflexivity.
Qed.

Lemma is_empty_eq (s : string) : is_empty s = true -> s = "".
Proof. destruct s; [reflexivity | discriminate]. Qed.

Lemma ws_len_prefix (a b : string) : ws_len (a ++ b) = 0 -> ws_len a = 0.
Proof.
  destruct a as [|c1 [|c2 [|c3 a]]]; cbn [append]; try reflexivity; intros H.
  - apply ws_len_0_ws1 in H. simpl. now rewrite H.
  - pose proof (ws_len_0_ws1 _ _ H) as H1. pose proof (ws_len_0_ws2 _ _ _ H) as H2.
    simpl. now rewrite H1, H2.
  - pose proof (ws_len_0_ws1 _ _ H) as H1. pose proof (ws_len_0_ws2 _ _ _ H) as H2.
    pose proof (ws_len_0_ws3 _ _ _ _ H) as H3.
    simpl. now rewrite H1, H2, H3.
Qed.

Lemma not_all_ws_head (s : string) :
  s <> "" -> ws_len s = 0 -> all_ws s = false.
Proof.
  intros Hs H. unfold all_ws. rewrite trimStart_step, H. cbn [Nat.eqb].
  destruct s; [congruence | reflexivity].
Qed.

(** Cutting the end never cuts inside the white-space character at the
    head. *)
Lemma trimEnd_keeps_head (s : string) :
  all_ws s = false ->
  trimEnd s = take (ws_len s) s ++ trimEnd (skip (ws_len s) s).
Proof.
  intros H.
  destruct s as [|c1 r1]; [reflexivity|].
  cbn [trimEnd]. rewrite H.
  cbn [ws_len]. destruct (ws1 c1) eqn:E1; [reflexivity|].
  destruct r1 as [|c2 r2].
  { cbn [take skip append trimEnd]. rewrite H. reflexivity. }
  destruct (ws2 c1 c2) eqn:E2.
  { apply ws2_bytes in E2 as [_ E2].
    cbn [take skip append trimEnd].
    rewrite (not_all_ws_head (String c2 r2)); [reflexivity | discriminate |].
    apply ws_len_continuation. lia. }
  destruct r2 as [|c3 r3].
  { cbn [take skip append trimEnd]. rewrite H. reflexivity. }
  destruct (ws3 c1 c2 c3) eqn:E3.
  { apply ws3_bytes in E3 as (_ & E3 & E4).
    cbn [take skip append trimEnd].
    rewrite (not_all_ws_head (String c2 (String c3 r3)));
      [| discriminate | apply ws_len_continuation; lia].
    rewrite (not_all_ws_head (String c3 r3));
      [reflexivity | discriminate | apply ws_len_continuation; lia]. }
  cbn [take skip append trimEnd]. rewrite H. reflexivity.
Qed.

Lemma ws_len_take (s x : string) :
  ws_len s <> 0 ->
  ws_len (take (ws_len s) s ++ x) = ws_len s
  /\ skip (ws_len s) (take (ws_len s) s ++ x) = x.
Proof.
  destruct s as [|c1 [|c2 [|c3 r]]]; cbn [ws_len]; try congruence.
  - destruct (ws1 c1) eqn:E1; [|congruence]. intros _. simpl. rewrite E1. auto.
  - destruct (ws1 c1) eqn:E1; [intros _; simpl; rewrite E1; auto|].
    destruct (ws2 c1 c2) eqn:E2; [|congruence]. intros _. simpl. rewrite E1, E2. auto.
  - destruct (ws1 c1) eqn:E1; [intros _; simpl; rewrite E1; auto|].
    destruct (ws2 c1 c2) eqn:E2; [intros _; simpl; rewrite E1, E2; auto|].
    destruct (ws3 c1 c2 c3) eqn:E3; [|congruence]. intros _. simpl.
    rewrite E1, E2, E3. auto.
Qed.

Lemma all_ws_skip (s : string) : all_ws (skip (ws_len s) s) = all_ws s.
Proof.
  unfold all_ws. destruct (Nat.eqb (ws_len s) 0) eqn:E.
  - apply Nat.eqb_eq in E. rewrite E. destruct s; reflexivity.
  - rewrite (trimStart_step s), E. reflexivity.
Qed.

Lemma trim_commutes (s : string) : trimStart (trimEnd s) = trimEnd (trimStart s).
Proof.
  induction s as [s IH] using string_length_ind.
  destruct (Nat.eqb (ws_len s) 0) eqn:E.
  - apply Nat.eqb_eq in E.
    rewrite (trimStart_step s), E. cbn [Nat.eqb].
    rewrite trimStart_step.
    destruct (trimEnd_prefix s) as (b & Hb).
    rewrite Hb in E. apply ws_len_prefix in E. rewrite E. reflexivity.
  - apply Nat.eqb_neq in E.
    rewrite (trimStart_step s). pose proof E as E'. apply Nat.eqb_neq in E'.
    rewrite E'. rewrite <- (IH _ (skip_shorter _ E)).
    destruct (all_ws s) eqn:A.
    + pose proof (trimEnd_empty s) as H1. rewrite A in H1. apply is_empty_eq in H1.
      pose proof (trimEnd_empty (skip (ws_len s) s)) as H2.
      rewrite all_ws_skip, A in H2. apply is_empty_eq in H2.
      rewrite H1, H2. reflexivity.
    + rewrite (trimEnd_keeps_head s A).
      destruct (ws_len_take s (trimEnd (skip (ws_len s) s)) E) as [W1 W2].
      rewrite trimStart_step, W1, E', W2. reflexivity.
Qed.

Lemma trimEnd_idempotent (s : string) : trimEnd (trimEnd s) = trimEnd s.
Proof.
  induction s as [|c r IH]; [reflexivity|].
  cbn [trimEnd]. destruct (all_ws (String c r)) eqn:A; [reflexivity|].
  assert (H : all_ws (String c (trimEnd r)) = false).
  { assert (Heq : String c (trimEnd r) = trimEnd (String c r))
      by (cbn [trimEnd]; rewrite A; reflexivity).
    rewrite Heq. unfold all_ws. rewrite trim_commutes.
    fold (all_ws (trimStart (String c r))).
    rewrite trimEnd_empty, all_ws_trimStart. exact A. }
  cbn [trimEnd]. rewrite H, IH. reflexivity.
Qed.

Lemma trim_no_outer_space (s : string) : no_outer_space (trim s) = true.
Proof.
  unfold no_outer_space, trim.
  rewrite trim_commutes, trimStart_idempotent, trimEnd_idempotent, String.eqb_refl.
  reflexivity.
Qed.

Lemma has_wide_space_suffix (a b : string) :
  has_wide_space (a ++ b) = false -> has_wide_space b = false.
Proof.
  induction a as [|c a IH]; cbn [append has_wide_space]; [auto|].
  intros H. apply orb_false_elim in H as [_ H]. auto.
Qed.

Lemma wide_space_at_prefix (a b : string) :
  wide_space_at (a ++ b) = false -> wide_space_at a = false.
Proof.
  destruct a as [|c1 [|c2 [|c3 a]]]; cbn [append wide_space_at]; auto.
  intros H. apply orb_false_elim in H as [H _]. rewrite H. reflexivity.
Qed.

Lemma has_wide_space_prefix (a b : string) :
  has_wide_space (a ++ b) = false -> has_wide_space a = false.
Proof.
  induction a as [|c a IH]; [reflexivity|].
  change (String c a ++ b) with (String c (a ++ b)).
  cbn [has_wide_space]. intros H. apply orb_false_elim in H as [H1 H2].
  rewrite (IH H2), orb_false_r.
  apply (wide_space_at_prefix (String c a) b). exact H1.
Qed.

Lemma has_double_space_suffix (a b : string) :
  has_double_space (a ++ b) = false -> has_double_space b = false.
Proof.
  induction a as [|c a IH]; cbn [append]; [auto|].
  destruct (a ++ b) as [|d t] eqn:E.
  - destruct a; [|discriminate]. simpl in E. subst b. reflexivity.
  - rewrite has_double_space_cons. intros H. apply orb_false_elim in H as [_ H]. auto.
Qed.

Lemma has_double_space_prefix (a b : string) :
  has_double_space (a ++ b) = false -> has_double_space a = false.
Proof.
  induction a as [|c a IH]; [reflexivity|].
  destruct a as [|d a]; [reflexivity|].
  change (String c (String d a) ++ b) with (String c (String d (a ++ b))).
  rewrite !has_double_space_cons. intros H. apply orb_false_elim in H as [H1 H2].
  rewrite H1. apply IH. exact H2.
Qed.

Lemma trim_split (s : string) : exists a b, s = a ++ trim s ++ b.
Proof.
  destruct (trimStart_suffix s) as (a & Ha).
  destruct (trimEnd_prefix (trimStart s)) as (b & Hb).
  exists a, b. unfold trim. now rewrite <- Hb.
Qed.

Lemma tidy_after_cleaning (y : string) :
  let m := trim (collapse_ws y) in
  contains is_control_space m = false
  /\ has_wide_space m = false
  /\ has_double_space m = false
  /\ contains is_line_break m = false
  /\ no_outer_space m = true.
Proof.
  intros m. destruct (trim_split (collapse_ws y)) as (a & b & H). fold m in H.
  pose proof (collapse_no_control_space y false) as H1.
  pose proof (collapse_no_wide_space y false) as H2.
  pose proof (proj1 (collapse_single_spaces y false)) as H3.
  fold (collapse_ws y) in H1, H2, H3. rewrite H in H1, H2, H3.
  rewrite !contains_append in H1.
  apply orb_false_elim in H1 as [_ H1]. apply orb_false_elim in H1 as [H1 _].
  apply has_wide_space_suffix, has_wide_space_prefix in H2.
  apply has_double_space_suffix, has_double_space_prefix in H3.
  repeat split; auto; [|apply trim_no_outer_space].
  clear - H1. induction m as [|c m IH]; [reflexivity|].
  cbn [contains] in *. apply orb_false_elim in H1 as [Hc Hm].
  rewrite (IH Hm), orb_false_r.
  unfold is_control_space in Hc. unfold is_line_break.
  destruct (code c =? 10)%N eqn:E10.
  { apply N.eqb_eq in E10. unfold ws1 in Hc. rewrite E10 in Hc. discriminate. }
  destruct (code c =? 13)%N eqn:E13.
  { apply N.eqb_eq in E13. unfold ws1 in Hc. rewrite E13 in Hc. discriminate. }
  reflexivity.
Qed.

(** ** White space around ASCII text *)
Lemma ws_len_before_low (z : string) (c : ascii) (t : string) :
  (code c < 128)%N -> z <> "" -> ws_len (z ++ String c t) = ws_len z.
Proof.
  intros Hc Hz. destruct z as [|c1 [|c2 [|c3 z]]]; [congruence| | |];
    cbn [append ws_len]; destruct (ws1 c1); try reflexivity.
  - destruct (ws2 c1 c) eqn:E; [apply ws2_bytes in E; lia|].
    destruct t as [|d t]; [reflexivity|].
    destruct (ws3 c1 c d) eqn:E3; [apply ws3_bytes in E3; lia | reflexivity].
  - destruct (ws2 c1 c2); [reflexivity|].
    destruct (ws3 c1 c2 c) eqn:E3; [apply ws3_bytes in E3; lia | reflexivity].
Qed.

Lemma skip_append (n : nat) (z x : string) :
  n <= String.length z -> skip n (z ++ x) = skip n z ++ x.
Proof.
  revert z. induction n as [|n IH]; intros z H; [reflexivity|].
  destruct z as [|c z]; simpl in *; [lia|]. apply IH. lia.
Qed.

Lemma all_ws_plain_inside (z : string) (c : ascii) (t : string) :
  is_plain c = true -> all_ws (z ++ String c t) = false.
Proof.
  intros Hc. unfold is_plain in Hc. apply andb_prop in Hc as [Hlow Hws].
  apply N.ltb_lt in Hlow. apply negb_true_iff in Hws.
  induction z as [z IH] using string_length_ind.
  destruct (Nat.eqb (ws_len (z ++ String c t)) 0) eqn:E.
  - apply Nat.eqb_eq in E. apply not_all_ws_head; [|exact E].
    destruct z; discriminate.
  - destruct z as [|c1 z1].
    + cbn [append] in E. rewrite (ws_len_low c t Hlow), Hws in E. discriminate.
    + rewrite <- all_ws_skip.
      rewrite ws_len_before_low in * by (auto; discriminate).
      apply Nat.eqb_neq in E.
      rewrite skip_append by apply ws_len_bound.
      apply IH, skip_shorter, E.
Qed.

Lemma cut_trailing_blank_plain (u : string) (c : ascii) (t : string) :
  is_plain c = true ->
  cut_trailing_blank (u ++ String c t) = u ++ cut_trailing_blank (String c t).
Proof.
  intros Hc. induction u as [|d u IH]; [reflexivity|].
  change (String d u ++ String c t) with (String d (u ++ String c t)).
  cbn [cut_trailing_blank]. rewrite (all_ws_plain_inside u c t Hc), andb_false_r, IH.
  reflexivity.
Qed.

Lemma trimEnd_plain_end (u : string) (c : ascii) :
  is_plain c = true -> trimEnd (u ++ String c "") = u ++ String c "".
Proof.
  intros Hc. induction u as [|d u IH].
  - pose proof (all_ws_plain_inside "" c "" Hc) as H. cbn [append] in H.
    cbn [append trimEnd]. rewrite H. reflexivity.
  - change (String d u ++ String c "") with (String d (u ++ String c "")).
    cbn [trimEnd].
    change (String d (u ++ String c "")) with (String d u ++ String c "") at 1.
    rewrite (all_ws_plain_inside (String d u) c "" Hc), IH. reflexivity.
Qed.

Lemma collapse_from_ascii (a : string) :
  all_ascii a = true ->
  forall p b,
    collapse_from p (a ++ b) = collapse_from p a ++ collapse_from (last_ws p a) b.
Proof.
  induction a as [|c a IH]; intros Ha p b; [reflexivity|].
  cbn [all_ascii] in Ha. apply andb_prop in Ha as [Hc Ha]. apply N.ltb_lt in Hc.
  change (String c a ++ b) with (String c (a ++ b)).
  rewrite (collapse_from_step p (String c (a ++ b))), (collapse_from_step p (String c a)).
  rewrite !(ws_len_low c _ Hc). cbn [last_ws].
  destruct (ws1 c); cbn [Nat.eqb skip].
  - rewrite (IH Ha). destruct p; reflexivity.
  - rewrite (IH Ha). reflexivity.
Qed.

Lemma collapse_from_cons (p : bool) (c : ascii) (r : string) :
  collapse_from p (String c r) =
  if Nat.eqb (ws_len (String c r)) 0 then String c (collapse_from false r)
  else (if p then EmptyString else " ")
       ++ collapse_from true (skip (ws_len (String c r)) (String c r)).
Proof. apply (collapse_from_step p (String c r)). Qed.

Lemma collapse_from_before_low (z : string) (c : ascii) (t : string) :
  (code c < 128)%N ->
  forall p, exists y p',
    collapse_from p (z ++ String c t) = y ++ collapse_from p' (String c t).
Proof.
  intros Hc. induction z as [z IH] using string_length_ind. intros p.
  destruct z as [|c1 z1]; [exists "", p; reflexivity|].
  change (String c1 z1 ++ String c t) with (String c1 (z1 ++ String c t)).
  rewrite collapse_from_cons.
  change (String c1 (z1 ++ String c t)) with (String c1 z1 ++ String c t).
  rewrite ws_len_before_low by (auto; discriminate).
  destruct (Nat.eqb (ws_len (String c1 z1)) 0) eqn:E.
  - destruct (IH z1 ltac:(simpl; lia) false) as (y & p' & ->).
    exists (String c1 y), p'. reflexivity.
  - apply Nat.eqb_neq in E. rewrite skip_append by apply ws_len_bound.
    destruct (IH _ (skip_shorter _ E) true) as (y & p' & ->).
    exists ((if p then "" else " ") ++ y), p'. now rewrite append_assoc'.
Qed.

Lemma trimStart_plain (c : ascii) (r : string) :
  is_plain c = true -> trimStart (String c r) = String c r.
Proof.
  intros H. apply andb_prop in H as [Hlow Hws].
  apply N.ltb_lt in Hlow. apply negb_true_iff in Hws.
  rewrite trimStart_step, (ws_len_low c r Hlow), Hws. reflexivity.
Qed.

Lemma cleaned_template_frame (id from to date time fare driver vehicle : string) :
  exists mid,
    trim (collapse_ws (strip_blank_edges
            (template id from to date time fare driver vehicle)))
    = message_head ++ mid ++ message_foot.
Proof.
  set (z := id ++ nl ++ indent ++ "From: " ++ from ++
            nl ++ indent ++ "To: " ++ to ++
            nl ++ indent ++ "Date: " ++ date ++ " " ++ time ++
            nl ++ indent ++ "Fare: â‚¹" ++ fare ++
            nl ++ indent ++ "Driver: " ++ driver ++ " (" ++ vehicle ++ ")").
  set (H1 := indent ++ "Fasttrack Drop Taxi Booking Confirmed!" ++ nl ++ indent ++ "ID: ").
  set (T1 := nl ++ indent ++ "Download App for updates").
  assert (E0 : strip_blank_edges (template id from to date time fare driver vehicle)
               = cut_trailing_blank ((H1 ++ z ++ T1) ++ String "!" (nl ++ "        "))).
  { subst z H1 T1. rewrite !append_assoc'. reflexivity. }
  rewrite E0, cut_trailing_blank_plain by reflexivity.
  change (cut_trailing_blank (String "!" (nl ++ "        "))) with "!".
  assert (E1 : (H1 ++ z ++ T1) ++ "!" = H1 ++ z ++ String Str.LF (indent ++ message_foot)).
  { subst T1. rewrite !append_assoc'. reflexivity. }
  rewrite E1. unfold collapse_ws.
  rewrite (collapse_from_ascii H1 eq_refl).
  change (collapse_from false H1) with (String " " message_head).
  change (last_ws false H1) with true.
  destruct (collapse_from_before_low z Str.LF (indent ++ message_foot) eq_refl true)
    as (y & p' & ->).
  assert (E2 : collapse_from p' (String Str.LF (indent ++ message_foot))
               = (if p' then "" else " ") ++ "Download App for updates" ++ "!").
  { destruct p'; reflexivity. }
  rewrite E2. clear E2 E1 E0.
  set (sp := if p' then "" else " ").
  exists (y ++ sp).
  assert (E3 : String " " message_head ++ y ++ sp ++ "Download App for updates" ++ "!"
               = String " " (String "F"
                   ("asttrack Drop Taxi Booking Confirmed! ID: " ++ y ++ sp
                    ++ "Download App for updates!"))) by reflexivity.
  rewrite E3. unfold trim.
  change (trimStart (String " " ?r)) with (trimStart r).
  rewrite trimStart_plain by reflexivity.
  assert (E4 : String "F" ("asttrack Drop Taxi Booking Confirmed! ID: " ++ y ++ sp
                           ++ "Download App for updates!")
               = (message_head ++ y ++ sp ++ "Download App for updates") ++ "!").
  { rewrite !append_assoc'. reflexivity. }
  rewrite E4, trimEnd_plain_end by reflexivity.
  rewrite !append_assoc'. reflexivity.
Qed.

End ScanFacts.

(* ================================================================== *)
(** * More on the phone number normalizer *)
(* ================================================================== *)

Module NormalizerFacts.

Import Num Js Backend Shape Layout.
Local Open Scope js_scope.

(** A string of digits and ['+'] is left as it is. *)
Lemma keep_digits_plus_fixed (q : string) :
  Str.contains (fun c => negb (digit_or_plus c)) q = false ->
  Str.keep_digits_plus q = q.
Proof.
  induction q as [|c q IH]; [reflexivity|].
  cbn [Str.contains Str.keep_digits_plus]. intros H.
  apply orb_false_elim in H as [Hc Hq]. apply negb_false_iff in Hc.
  unfold digit_or_plus, is_plus in Hc. rewrite Hc, (IH Hq). reflexivity.
Qed.

Lemma keep_digits_plus_twice (s : string) :
  Str.keep_digits_plus (Str.keep_digits_plus s) = Str.keep_digits_plus s.
Proof. apply keep_digits_plus_fixed, PhoneFacts.keep_digits_plus_only. Qed.

Lemma digits_of_kept (s : string) :
  digits_of (Str.keep_digits_plus s) = digits_of s.
Proof.
  induction s as [|c s IH]; [reflexivity|].
  cbn [Str.keep_digits_plus digits_of].
  destruct (Str.is_digit c) eqn:D; cbn [orb digits_of].
  - rewrite D, IH. reflexivity.
  - destruct (Str.code c =? 43)%N; cbn [digits_of]; [rewrite D|]; exact IH.
Qed.

(** X1.  Normalizing twice is normalizing once: the normalizer leaves
    its own output as it is, whatever the input was (a string, a falsy
    value for which it returns [null], or a value on which it
    throws). *)
Theorem normalizer_is_idempotent (number : value) :
  (q <- formatPhoneNumberForTwilio number ;; formatPhoneNumberForTwilio q)
  = formatPhoneNumberForTwilio number.
Proof.
  destruct (formatPhoneNumberForTwilio number) as [q|e] eqn:E; cbn [bind];
    [|reflexivity].
  unfold formatPhoneNumberForTwilio in E.
  destruct (truthy number); cbn [negb] in E; [|injection E as <-; reflexivity].
  destruct number as [| |b|n|s|l|props]; try discriminate E.
  destruct (Str.startsWith_plus (Str.keep_digits_plus s)) eqn:P; cbn [negb] in E;
    injection E as <-; unfold formatPhoneNumberForTwilio.
  - rewrite (PhoneFacts.startsWith_plus_nonempty _ P). cbn [negb].
    rewrite keep_digits_plus_twice, P. reflexivity.
  - cbn [truthy Str.is_empty append negb].
    change (Str.keep_digits_plus (String "+" (String "9" (String "1" (Str.keep_digits_plus s)))))
      with ("+91" ++ Str.keep_digits_plus (Str.keep_digits_plus s)).
    rewrite keep_digits_plus_twice. reflexivity.
Qed.

(** X2.  The result of the normalizer on a string starts with ['+'],
    consists of digits and ['+'] only, and has the digits of the input,
    all of them and in their order, after the digits 91 when the first
    character kept of the input is not a ['+']. *)
Theorem normalizer_keeps_the_digits (s q : string) :
  formatPhoneNumberForTwilio (VStr s) = Ok (VStr q) ->
  Str.startsWith_plus q = true
  /\ Str.contains (fun c => negb (digit_or_plus c)) q = false
  /\ digits_of q
     = (if Str.startsWith_plus (Str.keep_digits_plus s) then "" else "91")
       ++ digits_of s.
Proof.
  unfold formatPhoneNumberForTwilio.
  destruct (truthy (VStr s)); cbn [negb]; [|discriminate].
  pose proof (PhoneFacts.keep_digits_plus_only s) as K.
  destruct (Str.startsWith_plus (Str.keep_digits_plus s)) eqn:P; cbn [negb];
    intros H; injection H as <-.
  - repeat split; auto. apply digits_of_kept.
  - repeat split; auto. cbn. rewrite digits_of_kept. reflexivity.
Qed.

Lemma normalizer_keeps_the_digits_witness :
  digits_of "+919876543210" = "91" ++ digits_of "98-765 43210".
Proof.
  exact (proj2 (proj2
    (normalizer_keeps_the_digits "98-765 43210" "+919876543210" eq_refl))).
Defined.

(** A truthy value that is not a string has no [replace]. *)
Lemma normalizer_throws_on_non_strings (number : value) :
  truthy number = true -> is_string number = false ->
  exists e, formatPhoneNumberForTwilio number = Throw e /\ exn_status e = None.
Proof.
  intros T S. unfold formatPhoneNumberForTwilio. rewrite T. cbn [negb].
  destruct number; try discriminate; eexists; split; reflexivity.
Qed.

(** X3.  A phone number that is truthy and not a string (a number of
    JSON, say) makes the normalizer throw.  In the two OTP handlers the
    call stands before the try block: the exception escapes the handler
    and no response is sent.  In the booking handler the call is inside
    the try block, and the handler answers 500 with its fixed text. *)
Theorem non_string_phone_number_is_not_handled
    (w : world) (body phoneNumber : value) :
  get body "phoneNumber" = Ok phoneNumber ->
  truthy phoneNumber = true -> is_string phoneNumber = false ->
  (exists e, send_otp w body = Rejected e)
  /\ (exists e, verify_otp w body = Rejected e)
  /\ (forall bookingDetails,
        get body "bookingDetails" = Ok bookingDetails ->
        truthy bookingDetails = true ->
        send_booking_sms w body
        = message_only 500 "Failed to send booking confirmation SMS.").
Proof.
  intros Hp T S.
  destruct (normalizer_throws_on_non_strings phoneNumber T S) as (e & He & Hst).
  split; [|split].
  - exists e. unfold send_otp. rewrite Hp. cbn [bind]. rewrite He. reflexivity.
  - exists e. unfold verify_otp. rewrite Hp. cbn [bind].
    destruct (JsFacts.get_of_not_nullish body "otpCode"
                (JsFacts.get_not_nullish_source _ _ _ Hp)) as (o & ->).
    cbn [bind]. rewrite He. reflexivity.
  - intros bd Hb Tb. unfold send_booking_sms. rewrite Hp, Hb. cbn [bind].
    rewrite T, Tb. cbn [negb orb]. unfold send_booking_sms_try.
    destruct (messageBody bd) as [m|e1] eqn:M; cbn [bind].
    + destruct (ToString phoneNumber) as [t|e2] eqn:TS; cbn [bind].
      * rewrite He. cbn [bind]. unfold has_status_and_message. rewrite Hst.
        reflexivity.
      * apply JsFacts.ToString_throws in TS. subst e2. reflexivity.
    + unfold has_status_and_message.
      rewrite (BookingFacts.messageBody_throws_status _ _ M). reflexivity.
Qed.

Lemma non_string_phone_number_is_not_handled_witness :
  exists e,
    send_otp delivering (request [("phoneNumber", VNum (of_Z 9876543210))])
    = Rejected e.
Proof.
  exact (proj1
    (non_string_phone_number_is_not_handled delivering
       (request [("phoneNumber", VNum (of_Z 9876543210))])
       (VNum (of_Z 9876543210)) eq_refl eq_refl eq_refl)).
Defined.

End NormalizerFacts.

(* ================================================================== *)
(** * More on the three Twilio handlers *)
(* ================================================================== *)

Module HandlerFacts.

Import Num Js Backend Shape Layout.
Local Open Scope js_scope.
Local Open Scope Z_scope.

(** ** Sending an OTP *)

(** A request with a string phone number that is not empty: the handler
    hands the normalized number [q] to the provider. *)
Lemma send_otp_reaches_provider (w : world) (body : value) (p : string) :
  get body "phoneNumber" = Ok (VStr p) -> p <> "" ->
  exists q,
    formatPhoneNumberForTwilio (VStr p) = Ok (VStr q)
    /\ Str.startsWith_plus q = true
    /\ send_otp w body =
       match (verification <- verifications_create w (VStr q) ;;
              sid <- get verification "sid" ;;
              Ok (Respond 200 (obj [("message", VStr "OTP sent successfully!");
                                    ("sid", sid)]))) with
       | Ok r => r
       | Throw error =>
           message_only 500
             (errorMessageForClient "Failed to send OTP. Please try again." error)
       end.
Proof.
  intros Hp Hne.
  destruct (PhoneFacts.normalized_string p Hne) as (q & Hq & Hplus).
  exists q. split; [exact Hq|]. split; [exact Hplus|].
  unfold send_otp. rewrite Hp. cbn [bind]. rewrite Hq.
  rewrite (PhoneFacts.startsWith_plus_nonempty q Hplus). reflexivity.
Qed.

(** X4.  For a request whose phone number is a string that is not
    empty, [/api/send-otp] starts a verification for the normalized
    number and follows the provider: 200 with the [sid] of the
    verification when the call returns one, 500 with the message made
    from the exception when the call throws, and 500 with a Server
    Error message when the call returns [null] or [undefined]. *)
Theorem send_otp_follows_provider (w : world) (body : value) (p : string) :
  get body "phoneNumber" = Ok (VStr p) -> p <> "" ->
  exists q,
    formatPhoneNumberForTwilio (VStr p) = Ok (VStr q)
    /\ Str.startsWith_plus q = true
    /\ (forall verification sid,
          verifications_create w (VStr q) = Ok verification ->
          get verification "sid" = Ok sid ->
          send_otp w body
          = Respond 200 (obj [("message", VStr "OTP sent successfully!");
                              ("sid", sid)]))
    /\ (forall error,
          verifications_create w (VStr q) = Throw error ->
          send_otp w body
          = message_only 500
              (errorMessageForClient "Failed to send OTP. Please try again." error))
    /\ (forall verification,
          verifications_create w (VStr q) = Ok verification ->
          is_nullish verification = true ->
          exists m, send_otp w body = message_only 500 ("Server Error: " ++ m)).
Proof.
  intros Hp Hne.
  destruct (send_otp_reaches_provider w body p Hp Hne) as (q & Hq & Hplus & Hs).
  exists q. split; [exact Hq|]. split; [exact Hplus|].
  rewrite Hs. split; [|split].
  - intros v sid -> Hsid. cbn [bind]. rewrite Hsid. reflexivity.
  - intros error ->. reflexivity.
  - intros v -> Hn. cbn [bind].
    destruct v; try discriminate Hn; cbn [get bind]; eexists; reflexivity.
Qed.

Lemma send_otp_follows_provider_witness :
  send_otp
    {| TWILIO_PHONE_NUMBER := VStr "+15005550006";
       verifications_create := fun _ => Ok (obj [("sid", VStr "VE1")]);
       verificationChecks_create := fun _ _ => Throw unreachable;
       messages_create := fun _ _ _ => Throw unreachable;
       fetch := fun _ _ => Throw unreachable |}
    (request [("phoneNumber", VStr "98765 43210")])
  = Respond 200 (obj [("message", VStr "OTP sent successfully!");
                      ("sid", VStr "VE1")]).
Proof.
  destruct (send_otp_follows_provider
              {| TWILIO_PHONE_NUMBER := VStr "+15005550006";
                 verifications_create := fun _ => Ok (obj [("sid", VStr "VE1")]);
                 verificationChecks_create := fun _ _ => Throw unreachable;
                 messages_create := fun _ _ _ => Throw unreachable;
                 fetch := fun _ _ => Throw unreachable |}
              (request [("phoneNumber", VStr "98765 43210")])
              "98765 43210" eq_refl ltac:(discriminate))
    as (q & _ & _ & Hok & _).
  exact (Hok (obj [("sid", VStr "VE1")]) (VStr "VE1") eq_refl eq_refl).
Defined.

(** ** The messages of the catch blocks *)

Lemma twilio_error_text (error : exn) (st : num) (m : string) :
  exn_status error = Some st -> Num.truthy st = true ->
  exn_message error = Some m -> m <> "" ->
  has_status_and_message error = true
  /\ twilio_api_error error
     = "Twilio API Error (" ++ numberToString st ++ "): " ++ m.
Proof.
  intros Hs Ts Hm Nm. unfold has_status_and_message, twilio_api_error,
    status_text, message_text. rewrite Hs, Hm, Ts.
  destruct m; [congruence|]. split; reflexivity.
Qed.

(** X5.  An exception of a provider call that has a truthy [status]
    and a [message] that is not empty is reported in the same way by
    the three handlers: 500 with the message
    [Twilio API Error (<status>): <message>]. *)
Theorem twilio_errors_are_reported_alike
    (w : world) (error : exn) (st : num) (m : string) :
  exn_status error = Some st -> Num.truthy st = true ->
  exn_message error = Some m -> m <> "" ->
  let text := "Twilio API Error (" ++ numberToString st ++ "): " ++ m in
  (forall body p,
     get body "phoneNumber" = Ok (VStr p) -> p <> "" ->
     (forall to, verifications_create w to = Throw error) ->
     send_otp w body = message_only 500 text)
  /\ (forall body p otp,
        get body "phoneNumber" = Ok (VStr p) -> p <> "" ->
        get body "otpCode" = Ok otp -> truthy otp = true ->
        (exists t, ToString otp = Ok t) ->
        (forall to code, verificationChecks_create w to code = Throw error) ->
        verify_otp w body = message_only 500 text)
  /\ (forall body p bookingDetails sms,
        get body "phoneNumber" = Ok (VStr p) -> p <> "" ->
        get body "bookingDetails" = Ok bookingDetails ->
        truthy bookingDetails = true ->
        truthy (TWILIO_PHONE_NUMBER w) = true ->
        messageBody bookingDetails = Ok sms ->
        (forall text to from, messages_create w text to from = Throw error) ->
        send_booking_sms w body = message_only 500 text).
Proof.
  intros Hs Ts Hm Nm text.
  destruct (twilio_error_text error st m Hs Ts Hm Nm) as [Hh Ht].
  split; [|split].
  - intros body p Hp Hne Hc.
    destruct (send_otp_reaches_provider w body p Hp Hne) as (q & _ & _ & ->).
    rewrite Hc. cbn [bind]. unfold errorMessageForClient. rewrite Hh, Ht.
    reflexivity.
  - intros body p otp Hp Hne Ho To Hts Hc.
    destruct (OtpFacts.verify_otp_reaches_provider w body p otp Hp Hne Ho To Hts)
      as (q & _ & ->).
    rewrite Hc. cbn [bind]. unfold errorMessageForClient. rewrite Hh, Ht.
    reflexivity.
  - intros body p bd sms Hp Hne Hb Tb Tw Hsms Hc.
    destruct (BookingFacts.booking_sends_message w body p bd sms Hp Hne Hb Tb Tw Hsms)
      as (q & _ & ->).
    rewrite Hc. cbn [after_sending]. rewrite Hh, Ht. reflexivity.
Qed.

Lemma twilio_errors_are_reported_alike_witness :
  send_otp
    {| TWILIO_PHONE_NUMBER := VStr "+15005550006";
       verifications_create :=
         fun _ => Throw {| exn_isError := true;
                           exn_status := Some (of_Z 429);
                           exn_message := Some "Too many requests" |};
       verificationChecks_create := fun _ _ => Throw unreachable;
       messages_create := fun _ _ _ => Throw unreachable;
       fetch := fun _ _ => Throw unreachable |}
    (request [("phoneNumber", VStr "9876543210")])
  = message_only 500
      ("Twilio API Error (" ++ numberToString (of_Z 429) ++ "): Too many requests").
Proof.
  refine (proj1
    (twilio_errors_are_reported_alike
       {| TWILIO_PHONE_NUMBER := VStr "+15005550006";
          verifications_create :=
            fun _ => Throw {| exn_isError := true;
                              exn_status := Some (of_Z 429);
                              exn_message := Some "Too many requests" |};
          verificationChecks_create := fun _ _ => Throw unreachable;
          messages_create := fun _ _ _ => Throw unreachable;
          fetch := fun _ _ => Throw unreachable |}
       {| exn_isError := true; exn_status := Some (of_Z 429);
          exn_message := Some "Too many requests" |}
       (of_Z 429) "Too many requests" eq_refl eq_refl eq_refl ltac:(discriminate))
    (request [("phoneNumber", VStr "9876543210")]) "9876543210" eq_refl
    ltac:(discriminate) (fun _ => eq_refl)).
Defined.

(** X6.  An exception of a provider call that is an Error without a
    [status] reaches the client of the two OTP handlers with its
    message, after [Server Error: ]; the booking handler keeps it back
    and answers with its fixed text. *)
Theorem plain_errors_are_reported_differently
    (w : world) (error : exn) (m : string) :
  exn_isError error = true -> exn_status error = None ->
  exn_message error = Some m ->
  (forall body p,
     get body "phoneNumber" = Ok (VStr p) -> p <> "" ->
     (forall to, verifications_create w to = Throw error) ->
     send_otp w body = message_only 500 ("Server Error: " ++ m))
  /\ (forall body p otp,
        get body "phoneNumber" = Ok (VStr p) -> p <> "" ->
        get body "otpCode" = Ok otp -> truthy otp = true ->
        (exists t, ToString otp = Ok t) ->
        (forall to code, verificationChecks_create w to code = Throw error) ->
        verify_otp w body = message_only 500 ("Server Error: " ++ m))
  /\ (forall body p bookingDetails sms,
        get body "phoneNumber" = Ok (VStr p) -> p <> "" ->
        get body "bookingDetails" = Ok bookingDetails ->
        truthy bookingDetails = true ->
        truthy (TWILIO_PHONE_NUMBER w) = true ->
        messageBody bookingDetails = Ok sms ->
        (forall text to from, messages_create w text to from = Throw error) ->
        send_booking_sms w body
        = message_only 500 "Failed to send booking confirmation SMS.").
Proof.
  intros He Hs Hm.
  assert (Hh : has_status_and_message error = false)
    by (unfold has_status_and_message; rewrite Hs; reflexivity).
  split; [|split].
  - intros body p Hp Hne Hc.
    destruct (send_otp_reaches_provider w body p Hp Hne) as (q & _ & _ & ->).
    rewrite Hc. cbn [bind]. unfold errorMessageForClient, message_text.
    rewrite Hh, He, Hm. reflexivity.
  - intros body p otp Hp Hne Ho To Hts Hc.
    destruct (OtpFacts.verify_otp_reaches_provider w body p otp Hp Hne Ho To Hts)
      as (q & _ & ->).
    rewrite Hc. cbn [bind]. unfold errorMessageForClient, message_text.
    rewrite Hh, He, Hm. reflexivity.
  - intros body p bd sms Hp Hne Hb Tb Tw Hsms Hc.
    destruct (BookingFacts.booking_sends_message w body p bd sms Hp Hne Hb Tb Tw Hsms)
      as (q & _ & ->).
    rewrite Hc. cbn [after_sending]. rewrite Hh. reflexivity.
Qed.

Lemma plain_errors_are_reported_differently_witness :
  send_otp (checking (Ok VNull)) (request [("phoneNumber", VStr "9876543210")])
  = message_only 500 "Server Error: unreachable".
Proof.
  refine (proj1
    (plain_errors_are_reported_differently (checking (Ok VNull)) unreachable
       "unreachable" eq_refl eq_refl eq_refl)
    (request [("phoneNumber", VStr "9876543210")]) "9876543210" eq_refl
    ltac:(discriminate) (fun _ => eq_refl)).
Defined.

(** ** All the outcomes of a handler *)

(** What the normalizer returned tells what it was given. *)
Lemma normalizer_result (number q : value) :
  formatPhoneNumberForTwilio number = Ok q ->
  (truthy number = false /\ q = VNull)
  \/ (exists s t, number = VStr s /\ s <> "" /\ q = VStr t
                  /\ Str.startsWith_plus t = true).
Proof.
  intros H. destruct (truthy number) eqn:T.
  - right. unfold formatPhoneNumberForTwilio in H. rewrite T in H. cbn [negb] in H.
    destruct number as [| |b|n|s|l|props]; try discriminate H.
    assert (Hs : s <> "") by (destruct s; [discriminate T | congruence]).
    destruct (Str.startsWith_plus (Str.keep_digits_plus s)) eqn:P; cbn [negb] in H;
      injection H as <-; eexists s, _; repeat split; auto.
  - left. unfold formatPhoneNumberForTwilio in H. rewrite T in H.
    cbn [negb] in H. split; congruence.
Qed.

Lemma send_otp_cases (w : world) (body : value) :
  (exists e, send_otp w body = Rejected e)
  \/ (send_otp w body = message_only 400 "Phone number is required and must be valid."
      /\ exists p, get body "phoneNumber" = Ok p /\ truthy p = false)
  \/ (exists p q verification sid,
        get body "phoneNumber" = Ok (VStr p)
        /\ formatPhoneNumberForTwilio (VStr p) = Ok (VStr q)
        /\ verifications_create w (VStr q) = Ok verification
        /\ get verification "sid" = Ok sid
        /\ send_otp w body
           = Respond 200 (obj [("message", VStr "OTP sent successfully!");
                               ("sid", sid)]))
  \/ (exists msg p,
        send_otp w body = message_only 500 msg
        /\ get body "phoneNumber" = Ok p /\ truthy p = true).
Proof.
  unfold send_otp.
  destruct (get body "phoneNumber") as [p|e] eqn:G; cbn [bind]; [|eauto].
  destruct (formatPhoneNumberForTwilio p) as [q|e] eqn:F; [|eauto].
  destruct (normalizer_result p q F) as [[T ->]|(s & t & -> & Hs & -> & Hplus)].
  - right. left. cbn [truthy negb]. eauto.
  - right. right. rewrite (PhoneFacts.startsWith_plus_nonempty t Hplus). cbn [negb].
    assert (T : truthy (VStr s) = true) by (destruct s; [congruence | reflexivity]).
    destruct (verifications_create w (VStr t)) as [v|e] eqn:C; cbn [bind];
      [|right; eauto].
    destruct (get v "sid") as [sid|e] eqn:S; cbn [bind]; [|right; eauto].
    left. exists s, t, v, sid. auto.
Qed.

Lemma verify_otp_cases (w : world) (body : value) :
  (exists e, verify_otp w body = Rejected e)
  \/ (verify_otp w body = message_only 400 "Phone number and OTP code are required."
      /\ exists p o, get body "phoneNumber" = Ok p /\ get body "otpCode" = Ok o
                     /\ (truthy p = false \/ (is_string p = true /\ truthy o = false)))
  \/ (exists p o,
        get body "phoneNumber" = Ok p /\ get body "otpCode" = Ok o
        /\ truthy p = true /\ truthy o = true
        /\ ((verify_otp w body = approved_response
             /\ exists to check,
                  verificationChecks_create w to o = Ok check
                  /\ get check "status" = Ok (VStr "approved"))
            \/ (exists st, verify_otp w body = invalid_otp_response st)
            \/ (exists msg, verify_otp w body = message_only 500 msg))).
Proof.
  unfold verify_otp.
  destruct (get body "phoneNumber") as [p|e] eqn:G; cbn [bind]; [|eauto].
  destruct (get body "otpCode") as [o|e] eqn:G2; cbn [bind]; [|eauto].
  destruct (formatPhoneNumberForTwilio p) as [q|e] eqn:F; cbn [bind]; [|eauto].
  destruct (normalizer_result p q F) as [[T ->]|(s & t & -> & Hs & -> & Hplus)].
  - right. left. cbn [truthy negb orb]. split; [reflexivity|]. eauto 6.
  - rewrite (PhoneFacts.startsWith_plus_nonempty t Hplus). cbn [negb orb].
    assert (T : truthy (VStr s) = true) by (destruct s; [congruence | reflexivity]).
    destruct (truthy o) eqn:To; cbn [negb].
    + right. right. exists (VStr s), o. repeat split; auto.
      unfold verify_otp_try.
      destruct (ToString o) as [ts|e]; cbn [bind]; [|eauto].
      destruct (verificationChecks_create w (VStr t) o) as [check|e] eqn:C;
        cbn [bind]; [|eauto].
      destruct (get check "status") as [st|e] eqn:S; cbn [bind]; [|eauto].
      destruct (strict_eq_string st "approved") eqn:E.
      * left. apply OtpFacts.strict_eq_string_spec in E. subst st.
        split; [reflexivity|]. eauto.
      * right. left. exists st. reflexivity.
    + right. left. split; [reflexivity|]. exists (VStr s), o. auto.
Qed.

Lemma send_booking_sms_cases (w : world) (body : value) :
  (exists e, send_booking_sms w body = Rejected e)
  \/ (send_booking_sms w body
      = message_only 400 "Phone number and booking details are required."
      /\ exists p b, get body "phoneNumber" = Ok p /\ get body "bookingDetails" = Ok b
                     /\ (truthy p = false \/ truthy b = false))
  \/ (exists p b,
        get body "phoneNumber" = Ok p /\ get body "bookingDetails" = Ok b
        /\ truthy p = true /\ truthy b = true
        /\ ((send_booking_sms w body = message_only 200 "Booking confirmation SMS sent."
             /\ exists text to sent,
                  messageBody b = Ok text
                  /\ formatPhoneNumberForTwilio p = Ok to
                  /\ messages_create w text to (TWILIO_PHONE_NUMBER w) = Ok sent)
            \/ (exists msg, send_booking_sms w body = message_only 500 msg))).
Proof.
  unfold send_booking_sms.
  destruct (get body "phoneNumber") as [p|e] eqn:G; cbn [bind]; [|eauto].
  destruct (get body "bookingDetails") as [b|e] eqn:G2; cbn [bind]; [|eauto].
  destruct (truthy p) eqn:T; cbn [negb orb];
    [|right; left; split; [reflexivity|]; eauto 6].
  destruct (truthy b) eqn:Tb; cbn [negb];
    [|right; left; split; [reflexivity|]; eauto 6].
  right. right. exists p, b. repeat split; auto.
  unfold send_booking_sms_try.
  destruct (messageBody b) as [text|e]; cbn [bind]; [|eauto].
  destruct (ToString p) as [ts|e]; cbn [bind]; [|eauto].
  destruct (formatPhoneNumberForTwilio p) as [q|e] eqn:F; cbn [bind]; [|eauto].
  destruct (normalizer_result p q F) as [[T' _]|(s & t & -> & Hs & -> & Hplus)];
    [congruence|].
  rewrite (PhoneFacts.startsWith_plus_nonempty t Hplus). cbn [negb].
  destruct (truthy (TWILIO_PHONE_NUMBER w)); cbn [negb]; [|eauto].
  destruct (messages_create w text (VStr t) (TWILIO_PHONE_NUMBER w)) as [sent|e] eqn:C;
    cbn [bind]; [|eauto].
  left. split; [reflexivity|]. eauto 6.
Qed.

Lemma get_tolls_cases (w : world) (body : value) :
  (exists e, get_tolls w body = Rejected e)
  \/ (get_tolls w body = message_only 400 "Pickup and dropoff locations are required."
      /\ exists p d, get body "pickup" = Ok p /\ get body "dropoff" = Ok d
                     /\ (truthy p = false \/ truthy d = false))
  \/ (exists p d,
        get body "pickup" = Ok p /\ get body "dropoff" = Ok d
        /\ truthy p = true /\ truthy d = true
        /\ ((exists r data t,
               fetch w p d = Ok r /\ ok r = true /\ json r = Ok data
               /\ sum_tolls data = Ok t
               /\ get_tolls w body = Respond 200 (toll_body (tollAmount (safeguard t))))
            \/ (exists r details,
                  fetch w p d = Ok r /\ ok r = false
                  /\ get_tolls w body
                     = Respond (status r)
                         (obj [("message", VStr "Error fetching route from Google Maps API");
                               ("details", details)]))
            \/ (exists error, get_tolls w body = internal_error error))).
Proof.
  unfold get_tolls.
  destruct (get body "pickup") as [p|e] eqn:G; cbn [bind]; [|eauto].
  destruct (get body "dropoff") as [d|e] eqn:G2; cbn [bind]; [|eauto].
  destruct (truthy p) eqn:T; cbn [negb orb];
    [|right; left; split; [reflexivity|]; eauto 6].
  destruct (truthy d) eqn:Td; cbn [negb];
    [|right; left; split; [reflexivity|]; eauto 6].
  right. right. exists p, d. repeat split; auto.
  unfold get_tolls_try.
  destruct (fetch w p d) as [r|e] eqn:F; cbn [bind]; [|eauto].
  destruct (ok r) eqn:K; cbn [negb].
  - unfold toll_success.
    destruct (json r) as [data|e] eqn:J; cbn [bind]; [|eauto].
    destruct (sum_tolls data) as [t|e] eqn:S; cbn [bind]; [|eauto].
    left. exists r, data, t. auto.
  - unfold toll_upstream_error.
    destruct (get _ "error") as [err|e]; cbn [bind]; [|eauto].
    match goal with
    | |- context [bind ?c _] => destruct c as [details|e]; cbn [bind]; [|eauto]
    end.
    right. left. exists r, details. auto.
Qed.

(** X7.  Each handler answers 400 with its message about required
    fields exactly when a required field of the request is falsy
    (missing, [null], empty, 0 or [false]), and it does so whatever the
    providers would answer.  For [/api/verify-otp] a missing code is
    found only when the phone number is a string, since the normalizer
    runs first. *)
Theorem incomplete_requests_are_refused (w : world) (body : value) :
  (forall p,
     get body "phoneNumber" = Ok p ->
     (send_otp w body = message_only 400 "Phone number is required and must be valid."
      <-> truthy p = false))
  /\ (forall p o,
        get body "phoneNumber" = Ok p -> get body "otpCode" = Ok o ->
        (verify_otp w body = message_only 400 "Phone number and OTP code are required."
         <-> truthy p = false \/ (is_string p = true /\ truthy o = false)))
  /\ (forall p b,
        get body "phoneNumber" = Ok p -> get body "bookingDetails" = Ok b ->
        (send_booking_sms w body
         = message_only 400 "Phone number and booking details are required."
         <-> truthy p = false \/ truthy b = false))
  /\ (forall p d,
        get body "pickup" = Ok p -> get body "dropoff" = Ok d ->
        (get_tolls w body = message_only 400 "Pickup and dropoff locations are required."
         <-> truthy p = false \/ truthy d = false)).
Proof.
  split; [|split; [|split]].
  - intros p Hp. split.
    + intros H. destruct (send_otp_cases w body)
        as [(e & E)|[(_ & p' & Hp' & T)|[(s & q & v & sid & _ & _ & _ & _ & E)|(m & p' & E & _)]]];
        try (rewrite E in H; discriminate H).
      congruence.
    + intros T. unfold send_otp. rewrite Hp. cbn [bind].
      unfold formatPhoneNumberForTwilio. rewrite T. reflexivity.
  - intros p o Hp Ho. split.
    + intros H. destruct (verify_otp_cases w body)
        as [(e & E)|[(_ & p' & o' & Hp' & Ho' & C)|(p' & o' & _ & _ & _ & _ & C)]].
      * rewrite E in H. discriminate H.
      * congruence.
      * destruct C as [(E & _)|[(st & E)|(m & E)]]; rewrite E in H; discriminate H.
    + intros C. unfold verify_otp. rewrite Hp, Ho. cbn [bind].
      destruct C as [T|[S T]].
      * unfold formatPhoneNumberForTwilio. rewrite T. reflexivity.
      * destruct p as [| |b|n|s|l|props]; try discriminate S.
        unfold formatPhoneNumberForTwilio.
        destruct (truthy (VStr s)); cbn [negb bind]; [|reflexivity].
        destruct (negb (Str.startsWith_plus (Str.keep_digits_plus s)));
          cbn [bind]; rewrite T; cbn [negb]; rewrite orb_true_r; reflexivity.
  - intros p b Hp Hb. split.
    + intros H. destruct (send_booking_sms_cases w body)
        as [(e & E)|[(_ & p' & b' & Hp' & Hb' & C)|(p' & b' & _ & _ & _ & _ & C)]].
      * rewrite E in H. discriminate H.
      * congruence.
      * destruct C as [(E & _)|(m & E)]; rewrite E in H; discriminate H.
    + intros C. unfold send_booking_sms. rewrite Hp, Hb. cbn [bind].
      destruct C as [T|T]; rewrite T; cbn [negb orb]; [|rewrite orb_true_r];
        reflexivity.
  - intros p d Hp Hd. split.
    + intros H. destruct (get_tolls_cases w body)
        as [(e & E)|[(_ & p' & d' & Hp' & Hd' & C)|(p' & d' & _ & _ & _ & _ & C)]].
      * rewrite E in H. discriminate H.
      * congruence.
      * destruct C as [(r & data & t & _ & _ & _ & _ & E)|[(r & details & _ & _ & E)|(e & E)]];
          rewrite E in H; discriminate H.
    + intros C. unfold get_tolls. rewrite Hp, Hd. cbn [bind].
      destruct C as [T|T]; rewrite T; cbn [negb orb]; [|rewrite orb_true_r];
        reflexivity.
Qed.

(** X8.  The three Twilio handlers answer with the status 200, 400 or
    500 and no other; [/api/get-tolls] answers with one of these or
    with the status of an upstream response that was not ok. *)
Theorem handlers_answer_with_known_statuses
    (w : world) (body : value) (code : Z) (payload : value) :
  (send_otp w body = Respond code payload
   \/ verify_otp w body = Respond code payload
   \/ send_booking_sms w body = Respond code payload ->
   code = 200 \/ code = 400 \/ code = 500)
  /\ (get_tolls w body = Respond code payload ->
      code = 200 \/ code = 400 \/ code = 500
      \/ exists pickup dropoff r,
           fetch w pickup dropoff = Ok r /\ ok r = false /\ code = status r).
Proof.
  split.
  - intros [H|[H|H]].
    + destruct (send_otp_cases w body)
        as [(e & E)|[(E & _)|[(s & q & v & sid & _ & _ & _ & _ & E)|(m & p' & E & _)]]];
        rewrite E in H; try discriminate H; injection H as <- _; tauto.
    + destruct (verify_otp_cases w body)
        as [(e & E)|[(E & _)|(p' & o' & _ & _ & _ & _ & [(E & _)|[(st & E)|(m & E)]])]];
        rewrite E in H; try discriminate H; injection H as <- _; tauto.
    + destruct (send_booking_sms_cases w body)
        as [(e & E)|[(E & _)|(p' & b' & _ & _ & _ & _ & [(E & _)|(m & E)])]];
        rewrite E in H; try discriminate H; injection H as <- _; tauto.
  - intros H. destruct (get_tolls_cases w body)
      as [(e & E)|[(E & _)|(p & d & _ & _ & _ & _ & C)]].
    + rewrite E in H. discriminate H.
    + rewrite E in H. injection H as <- _. tauto.
    + destruct C as [(r & data & t & _ & _ & _ & _ & E)|[(r & details & F & K & E)|(e & E)]];
        rewrite E in H; injection H as <- _; [tauto | | tauto].
      right. right. right. eauto 10.
Qed.


End HandlerFacts.

(* ================================================================== *)
(** * More on the booking message *)
(* ================================================================== *)

Module MessageFacts.

Import Num Js Backend Routes Shape Layout.
Local Open Scope js_scope.

(** A message that was built is the template, filled in and cleaned. *)
Lemma messageBody_is_cleaned_template (bookingDetails : value) (m : string) :
  messageBody bookingDetails = Ok m ->
  exists id from to date time fare driver vehicle,
    m = Str.trim (Str.collapse_ws (Str.strip_blank_edges
          (template id from to date time fare driver vehicle))).
Proof.
  unfold messageBody.
  destruct (field_or bookingDetails "bookingId" "N/A") as [id|]; cbn [bind];
    [|discriminate].
  destruct (field_or bookingDetails "pickup" "N/A") as [from|]; cbn [bind];
    [|discriminate].
  destruct (field_or bookingDetails "dropoff" "N/A") as [to|]; cbn [bind];
    [|discriminate].
  destruct (field_or bookingDetails "pickupDate" "N/A") as [date|]; cbn [bind];
    [|discriminate].
  destruct (field_or bookingDetails "pickupTime" "N/A") as [time|]; cbn [bind];
    [|discriminate].
  destruct (fare_text bookingDetails) as [fare|]; cbn [bind]; [|discriminate].
  destruct (field_or bookingDetails "driverName" "Assigned Soon") as [driver|];
    cbn [bind]; [|discriminate].
  destruct (field_or bookingDetails "driverVehicle" "N/A") as [vehicle|];
    cbn [bind]; [|discriminate].
  intros H. injection H as <-. eauto 10.
Qed.

(** X10.  Whatever the booking details hold, a message that is built
    is one line of words separated by single spaces: it has no TAB, line
    feed, carriage return or other control white space, no no-break
    space or other white-space character of several bytes, no two
    spaces in a row, and no white space at either end. *)
Theorem booking_message_is_one_tidy_line (bookingDetails : value) (m : string) :
  messageBody bookingDetails = Ok m ->
  Str.contains is_control_space m = false
  /\ has_wide_space m = false
  /\ has_double_space m = false
  /\ Str.contains is_line_break m = false
  /\ no_outer_space m = true.
Proof.
  intros H.
  destruct (messageBody_is_cleaned_template _ _ H)
    as (id & from & to & date & time & fare & driver & vehicle & ->).
  apply ScanFacts.tidy_after_cleaning.
Qed.

Lemma booking_message_is_one_tidy_line_witness :
  has_double_space
    "Fasttrack Drop Taxi Booking Confirmed! ID: B 7 From: N/A To: N/A Date: N/A N/A Fare: â‚¹N/A Driver: Assigned Soon (N/A) Download App for updates!"
  = false.
Proof.
  exact (proj1 (proj2 (proj2
    (booking_message_is_one_tidy_line
       (obj [("bookingId", VStr (String (ascii_of_N 9) "B   7  "))])
       "Fasttrack Drop Taxi Booking Confirmed! ID: B 7 From: N/A To: N/A Date: N/A N/A Fare: â‚¹N/A Driver: Assigned Soon (N/A) Download App for updates!"
       eq_refl)))).
Defined.

(** X11.  Whatever the booking details hold, a message that is built
    starts with [Fasttrack Drop Taxi Booking Confirmed! ID: ] and ends
    with [Download App for updates!]: no value of a field changes the
    first or the last words of the text. *)
Theorem booking_message_keeps_its_frame (bookingDetails : value) (m : string) :
  messageBody bookingDetails = Ok m ->
  exists mid, m = message_head ++ mid ++ message_foot.
Proof.
  intros H.
  destruct (messageBody_is_cleaned_template _ _ H)
    as (id & from & to & date & time & fare & driver & vehicle & ->).
  apply ScanFacts.cleaned_template_frame.
Qed.

Lemma booking_message_keeps_its_frame_witness :
  exists mid,
    placeholder_message = message_head ++ mid ++ message_foot.
Proof.
  exact (booking_message_keeps_its_frame (obj []) placeholder_message eq_refl).
Defined.

(** ** The fare *)

Lemma two_decimals_signed (neg : bool) (a b : string) :
  Str.all_digits a = true -> digit_first a = true ->
  Str.all_digits b = true -> String.length b = 2 ->
  two_decimals ((if neg then "-" else "") ++ a ++ "." ++ b) = true.
Proof.
  intros Da Fa Db Lb.
  destruct b as [|d1 [|d2 [|d3 b]]]; try discriminate Lb.
  cbn [Str.all_digits] in Db. apply andb_prop in Db as [D1 Db].
  apply andb_prop in Db as [D2 _].
  assert (G : (let '(ip, r) :=
                 Str.span Str.is_digit (a ++ "." ++ String d1 (String d2 "")) in
               negb (Str.is_empty ip)
               && match r with
                  | String p (String e1 (String e2 EmptyString)) =>
                      (Str.code p =? 46)%N && Str.is_digit e1 && Str.is_digit e2
                  | _ => false
                  end) = true).
  { rewrite (NumFacts.span_digits a ("." ++ String d1 (String d2 "")) Da eq_refl).
    destruct a; [discriminate Fa|]. cbn. rewrite D1, D2. reflexivity. }
  destruct neg.
  - exact G.
  - destruct a as [|c r]; [discriminate Fa|].
    cbn [digit_first] in Fa. pose proof (NumFacts.digit_code c Fa) as Hc.
    assert (Hm : (Str.code c =? 45)%N = false) by (apply N.eqb_neq; lia).
    unfold two_decimals. cbn [append]. rewrite Hm. exact G.
Qed.

(** [toFixed(2)] of a finite number below 10^21 is digits, a point and
    two digits, after a minus sign for a negative number. *)
Lemma toFixed2_two_decimals (x : num) :
  isFinite x = true -> printed_in_digits x = true ->
  two_decimals (toFixed2 x) = true.
Proof.
  destruct x as [s|s| |s m e]; try discriminate; [reflexivity|].
  intros _ P. cbn [printed_in_digits] in P. apply negb_true_iff in P.
  unfold toFixed2. rewrite P.
  pose proof (NumFacts.of_N_padded_length 3 (hundredths m e)) as L.
  pose proof (NumFacts.of_N_padded_all_digits 3 (hundredths m e)) as D.
  pose proof (NumFacts.of_N_padded_digit_first 3 (hundredths m e)) as F.
  set (ds := Str.of_N_padded 3 (hundredths m e)) in *.
  destruct (NumFacts.substring_split (String.length ds - 2) ds ltac:(lia)) as [E Len].
  set (a := String.substring 0 (String.length ds - 2) ds) in *.
  set (b := substring_from (String.length ds - 2) ds) in *.
  rewrite <- E, NumFacts.all_digits_append in D. apply andb_prop in D as [Da Db].
  assert (Fa : digit_first a = true).
  { subst a. destruct (String.length ds) as [|[|[|j]]]; try lia.
    replace (S (S (S j)) - 2) with (S j) by lia.
    apply NumFacts.digit_first_substring, F. }
  apply two_decimals_signed; auto. lia.
Qed.

(** X12.  When [fareDetails.total] is a number, the fare in the message
    is that number printed by [toFixed(2)], also for 0 and for NaN: the
    placeholder N/A is not used.  For a finite number below 10^21 the
    text is digits, a point and exactly two digits, after a minus sign
    if the number is negative. *)
Theorem numeric_fare_is_printed_with_two_decimals
    (bookingDetails fareDetails : value) (n : num) :
  get bookingDetails "fareDetails" = Ok fareDetails ->
  get fareDetails "total" = Ok (VNum n) ->
  fare_text bookingDetails = Ok (toFixed2 n)
  /\ toFixed2 n <> "N/A"
  /\ (isFinite n = true -> printed_in_digits n = true ->
      two_decimals (toFixed2 n) = true).
Proof.
  intros Hf Ht.
  destruct (NumFacts.toFixed2_not_placeholder n) as [Hne Hna].
  split; [|split; [exact Hna | apply toFixed2_two_decimals]].
  unfold fare_text, fare_total_fixed. rewrite Hf. cbn [bind].
  rewrite (JsFacts.get_not_nullish_source _ _ _ Ht), Ht. cbn [bind is_nullish].
  unfold or_else. cbn [truthy].
  destruct (toFixed2 n) as [|c r]; [congruence | reflexivity].
Qed.

Lemma numeric_fare_is_printed_with_two_decimals_witness :
  fare_text (obj [("fareDetails", obj [("total", VNum zero)])]) = Ok "0.00".
Proof.
  exact (proj1
    (numeric_fare_is_printed_with_two_decimals
       (obj [("fareDetails", obj [("total", VNum zero)])])
       (obj [("total", VNum zero)]) zero eq_refl eq_refl)).
Defined.

End MessageFacts.

(* ================================================================== *)
(** * More on POST /api/get-tolls *)
(* ================================================================== *)

Module RouteFacts.

Import Num Js Backend Routes Shape Layout.
Local Open Scope js_scope.
Local Open Scope Z_scope.

(** Only an array has [forEach]. *)
Lemma forEach_needs_an_array (v : value) (t : num) :
  (forall l, v <> VArr l) ->
  forEach_estimatedPrice v t
  = Throw (TypeError
      "firstRoute.travelAdvisory.tollInfo.estimatedPrice.forEach is not a function").
Proof. intros H. destruct v; try reflexivity. destruct (H elems eq_refl). Qed.

(** The walk reads [routes[0]] and nothing of what follows it. *)
Lemma sum_tolls_of_first_route (data first : value) (rest : list value) :
  get data "routes" = Ok (VArr (first :: rest)) ->
  sum_tolls data = sum_tolls (obj [("routes", VArr [first])]).
Proof.
  intros H. unfold sum_tolls. rewrite H.
  cbn [obj get lookup String.eqb Ascii.eqb Bool.eqb bind truthy].
  change (String.eqb "length" "length") with true. cbv iota.
  rewrite !TollFacts.length_is_positive. reflexivity.
Qed.

(** X13.  Only the first route of the upstream answer is priced: two
    answers whose [routes] arrays start with the same route give the
    same total and the same response, whatever routes follow. *)
Theorem only_the_first_route_is_priced
    (w w' : world) (body pickup dropoff : value) (r r' : response)
    (data data' first : value) (rest rest' : list value) :
  get body "pickup" = Ok pickup -> truthy pickup = true ->
  get body "dropoff" = Ok dropoff -> truthy dropoff = true ->
  fetch w pickup dropoff = Ok r -> ok r = true -> json r = Ok data ->
  fetch w' pickup dropoff = Ok r' -> ok r' = true -> json r' = Ok data' ->
  get data "routes" = Ok (VArr (first :: rest)) ->
  get data' "routes" = Ok (VArr (first :: rest')) ->
  sum_tolls data = sum_tolls data' /\ get_tolls w body = get_tolls w' body.
Proof.
  intros Hp Tp Hd Td F K J F' K' J' R R'.
  assert (E : sum_tolls data = sum_tolls data').
  { rewrite (sum_tolls_of_first_route data first rest R),
            (sum_tolls_of_first_route data' first rest' R'). reflexivity. }
  split; [exact E|].
  rewrite (TollFacts.get_tolls_on_success w body pickup dropoff r data Hp Tp Hd Td F K J),
          (TollFacts.get_tolls_on_success w' body pickup dropoff r' data' Hp Tp Hd Td F' K' J'),
          E.
  reflexivity.
Qed.

Lemma only_the_first_route_is_priced_witness :
  get_tolls
    (answering (routes_body
       [tolled_route (price_entry (VStr "INR") (VStr "120") (VStr "500000000"));
        tolled_route (price_entry (VStr "INR") (VStr "999") (VStr "0"))]))
    toll_request
  = get_tolls
      (answering (routes_body
         [tolled_route (price_entry (VStr "INR") (VStr "120") (VStr "500000000"))]))
      toll_request.
Proof.
  exact (proj2
    (only_the_first_route_is_priced
       (answering (routes_body
          [tolled_route (price_entry (VStr "INR") (VStr "120") (VStr "500000000"));
           tolled_route (price_entry (VStr "INR") (VStr "999") (VStr "0"))]))
       (answering (routes_body
          [tolled_route (price_entry (VStr "INR") (VStr "120") (VStr "500000000"))]))
       toll_request (VStr "Chennai") (VStr "Madurai")
       _ _ _ _
       (tolled_route (price_entry (VStr "INR") (VStr "120") (VStr "500000000")))
       [tolled_route (price_entry (VStr "INR") (VStr "999") (VStr "0"))] []
       eq_refl eq_refl eq_refl eq_refl eq_refl eq_refl eq_refl
       eq_refl eq_refl eq_refl eq_refl eq_refl)).
Defined.

(** ** When the provider fails *)




(** X15.  In the try block of the handler every failure ends in the
    outer catch and is answered with 500 and the message of the
    exception: a call to the provider that throws, a body of a
    successful answer that is not JSON, a body that is [null], a first
    route that is [null], and an [estimatedPrice] that is truthy but is
    not an array. *)
Theorem toll_failures_answer_500
    (w : world) (body pickup dropoff : value) :
  get body "pickup" = Ok pickup -> truthy pickup = true ->
  get body "dropoff" = Ok dropoff -> truthy dropoff = true ->
  (forall error,
     fetch w pickup dropoff = Throw error ->
     get_tolls w body = internal_error error)
  /\ (forall r error,
        fetch w pickup dropoff = Ok r -> ok r = true -> json r = Throw error ->
        get_tolls w body = internal_error error)
  /\ (forall r data,
        fetch w pickup dropoff = Ok r -> ok r = true -> json r = Ok data ->
        is_nullish data = true ->
        exists error, get_tolls w body = internal_error error)
  /\ (forall r data first rest,
        fetch w pickup dropoff = Ok r -> ok r = true -> json r = Ok data ->
        get data "routes" = Ok (VArr (first :: rest)) ->
        is_nullish first = true ->
        exists error, get_tolls w body = internal_error error)
  /\ (forall r data first rest travelAdvisory tollInfo estimatedPrice,
        fetch w pickup dropoff = Ok r -> ok r = true -> json r = Ok data ->
        get data "routes" = Ok (VArr (first :: rest)) ->
        get first "travelAdvisory" = Ok travelAdvisory ->
        truthy travelAdvisory = true ->
        get travelAdvisory "tollInfo" = Ok tollInfo -> truthy tollInfo = true ->
        get tollInfo "estimatedPrice" = Ok estimatedPrice ->
        truthy estimatedPrice = true ->
        (forall prices, estimatedPrice <> VArr prices) ->
        get_tolls w body
        = internal_error (TypeError
            "firstRoute.travelAdvisory.tollInfo.estimatedPrice.forEach is not a function")).
Proof.
  intros Hp Tp Hd Td.
  assert (Hthrow : forall error,
            get_tolls_try w pickup dropoff = Throw error ->
            get_tolls w body = internal_error error).
  { intros error E. unfold get_tolls. rewrite Hp, Hd. cbn [bind].
    rewrite Tp, Td. cbn [negb orb]. rewrite E. reflexivity. }
  split; [|split; [|split; [|split]]].
  - intros error F. apply Hthrow. unfold get_tolls_try. rewrite F. reflexivity.
  - intros r error F K J. apply Hthrow. unfold get_tolls_try. rewrite F.
    cbn [bind]. rewrite K. cbn [negb]. unfold toll_success. rewrite J. reflexivity.
  - intros r data F K J N.
    rewrite (TollFacts.get_tolls_on_success w body pickup dropoff r data
               Hp Tp Hd Td F K J).
    unfold sum_tolls. destruct data; try discriminate N; cbn [get bind]; eauto.
  - intros r data first rest F K J R N.
    rewrite (TollFacts.get_tolls_on_success w body pickup dropoff r data
               Hp Tp Hd Td F K J).
    rewrite (sum_tolls_of_first_route data first rest R). unfold sum_tolls.
    cbn [obj get lookup String.eqb Ascii.eqb Bool.eqb bind truthy].
    change (String.eqb "length" "length") with true. cbv iota.
    rewrite TollFacts.length_is_positive. cbn [bind get_index0].
    destruct first; try discriminate N; cbn [get bind]; eauto.
  - intros r data first rest ta ti ep F K J R Hta Tta Hti Tti Hep Tep Hna.
    rewrite (TollFacts.get_tolls_on_success w body pickup dropoff r data
               Hp Tp Hd Td F K J).
    rewrite (sum_tolls_of_first_route data first rest R). unfold sum_tolls.
    cbn [obj get lookup String.eqb Ascii.eqb Bool.eqb bind truthy].
    change (String.eqb "length" "length") with true. cbv iota.
    rewrite TollFacts.length_is_positive. cbn [bind get_index0].
    rewrite Hta. cbn [bind]. rewrite Tta, Hti. cbn [bind]. rewrite Tti, Hep.
    cbn [bind]. rewrite Tep, (forEach_needs_an_array ep zero Hna). reflexivity.
Qed.

Lemma toll_failures_answer_500_witness :
  get_tolls (routing (Throw unreachable)) toll_request
  = Respond 500
      (obj [("message", VStr "Internal server error during toll calculation.");
            ("details", VStr "unreachable")]).
Proof.
  exact (proj1
    (toll_failures_answer_500 (routing (Throw unreachable)) toll_request
       (VStr "Chennai") (VStr "Madurai") eq_refl eq_refl eq_refl eq_refl)
    unreachable eq_refl).
Defined.

End RouteFacts.

(* ================================================================== *)
(** * The sign of the toll *)
(* ================================================================== *)

Module SignFacts.

Import Num Js Backend Routes Shape Layout.
Local Open Scope Z_scope.

Lemma binary_round_aux_sign (sx : bool) (mx ex : Z) (lx : location) :
  0 <= mx -> sign_is sx (binary_round_aux prec emax sx mx ex lx).
Proof.
  intros H. pose proof (NumFacts.binary_round_aux_not_nan sx mx ex lx H) as N.
  unfold binary_round_aux in *.
  destruct (shr_fexp prec emax mx ex lx) as [mrs' e'].
  destruct (shr_fexp prec emax _ e' loc_Exact) as [mrs'' e''].
  destruct (shr_m mrs'') as [|m|m]; [reflexivity| |discriminate N].
  destruct (e'' <=? emax - prec); reflexivity.
Qed.

Lemma binary_round_sign (sx : bool) (mx : positive) (ex : Z) :
  sign_is sx (binary_round prec emax sx mx ex).
Proof.
  unfold binary_round. destruct (shl_align mx ex _) as [mz ez].
  apply binary_round_aux_sign. lia.
Qed.

Lemma div_finite_sign (sx sy : bool) (mx my : positive) (ex ey : Z) :
  sign_is (xorb sx sy) (SFdiv prec emax (S754_finite sx mx ex) (S754_finite sy my ey)).
Proof.
  unfold SFdiv, SFdiv_core_binary.
  set (s := _ - _ - Z.min _ _).
  set (m' := match s with Z0 => Z.pos mx | Z.pos _ => Z.shiftl (Z.pos mx) s | Z.neg _ => 0 end).
  assert (Hm : 0 <= m').
  { subst m'. destruct s; try lia. apply Z.shiftl_nonneg. lia. }
  pose proof (Z.div_pos m' (Z.pos my) Hm ltac:(lia)) as Hq.
  unfold Z.div in Hq.
  destruct (Z.div_eucl m' (Z.pos my)) as [q r]. simpl in Hq.
  apply binary_round_aux_sign. exact Hq.
Qed.

Lemma of_decimal_sign (neg : bool) (m : N) (e10 : Z) :
  sign_is neg (of_decimal neg m e10).
Proof.
  unfold of_decimal. destruct m as [|p]; [reflexivity|].
  destruct (0 <=? e10).
  - apply binary_round_sign.
  - replace neg with (xorb neg false) at 1 by (destruct neg; reflexivity).
    apply div_finite_sign.
Qed.

Lemma sign_is_positive (x : num) : sign_is false x -> positive_sign x = true.
Proof. destruct x; simpl; intros H; try contradiction; subst; reflexivity. Qed.

Lemma add_positive_sign (a b : num) :
  positive_sign a = true -> positive_sign b = true -> positive_sign (add a b) = true.
Proof.
  destruct a as [[|]|[|]| |[|] ma ea]; try discriminate;
    destruct b as [[|]|[|]| |[|] mb eb]; try discriminate; intros _ _;
    try reflexivity.
  apply sign_is_positive. unfold add, SFadd. cbn [cond_Zopp Z.add].
  apply binary_round_sign.
Qed.

Lemma div_billion_positive_sign (a : num) :
  positive_sign a = true -> positive_sign (div a billion) = true.
Proof.
  destruct a as [[|]|[|]| |[|] ma ea]; try discriminate; intros _; try reflexivity.
  apply sign_is_positive. apply (div_finite_sign false false).
Qed.

Lemma positive_sign_not_below_zero (x : num) :
  positive_sign x = true -> isNaN x = false /\ ltb x zero = false.
Proof. destruct x as [[|]|[|]| |[|] m e]; try discriminate; split; reflexivity. Qed.

Lemma coerced_positive_sign (q : piece) :
  ltb (number_of q) zero = false -> positive_sign (coerced q) = true.
Proof.
  unfold coerced. destruct (number_of q) as [[|]|[|]| |[|] m e]; try reflexivity;
    discriminate.
Qed.

Lemma parseFloat_digit_first (s : string) :
  digit_first s = true -> positive_sign (parseFloat s) = true.
Proof.
  destruct s as [|c r]; [discriminate|]. cbn [digit_first]. intros H.
  pose proof (NumFacts.digit_code c H) as Hc. unfold parseFloat.
  rewrite (NumFacts.not_ws_lead c r) by lia.
  unfold read_sign.
  replace (Str.code c =? 45)%N with false by (symmetry; apply N.eqb_neq; lia).
  replace (Str.code c =? 43)%N with false by (symmetry; apply N.eqb_neq; lia).
  rewrite (NumFacts.not_Infinity (String c r) H).
  destruct (NumFacts.read_decimal_digit_first (String c r) H) as (m & e & rest & ->).
  apply sign_is_positive, of_decimal_sign.
Qed.

Lemma tollAmount_positive_sign (x : num) :
  positive_sign x = true -> positive_sign (tollAmount x) = true.
Proof.
  destruct x as [[|]|[|]| |[|] m e]; try discriminate; intros _; try reflexivity.
  unfold tollAmount. destruct (at_least_1e21 m e) eqn:A.
  - apply parseFloat_digit_first. unfold toFixed2. rewrite A.
    unfold numberToString.
    destruct (fraction m e) as [n d].
    destruct (shortest_digits _ _ _ _ _ _) as [ds p'].
    cbn [append].
    apply NumFacts.layout_digits_digit_first, NumFacts.of_N_digit_first.
  - rewrite (NumFacts.parseFloat_toFixed2_below_1e21 false m e A).
    apply sign_is_positive, of_decimal_sign.
Qed.

Lemma total_positive_sign (l : list TollPrice) :
  Forall (fun p => ltb (number_of (units p)) zero = false
                   /\ ltb (number_of (nanos p)) zero = false) l ->
  forall t, positive_sign t = true ->
  positive_sign (fold_left add (map amount l) t) = true.
Proof.
  induction 1 as [|p l [Hu Hn] _ IH]; intros t Ht; [exact Ht|].
  cbn [map fold_left]. apply IH. apply add_positive_sign; [exact Ht|].
  unfold amount. apply add_positive_sign.
  - apply coerced_positive_sign, Hu.
  - apply div_billion_positive_sign, coerced_positive_sign, Hn.
Qed.

(** X20.  For an upstream answer of the shape the specification gives
    in which no INR entry of the first route has units or nanos below
    zero (pieces that are not numeric count as 0), the handler answers
    200 with a [tollAmount] that is a number and is not below zero. *)
Theorem tolls_are_never_negative
    (w : world) (body pickup dropoff : value) (googleResponse : response)
    (data : value) (r : RoutesResponse) :
  get body "pickup" = Ok pickup -> truthy pickup = true ->
  get body "dropoff" = Ok dropoff -> truthy dropoff = true ->
  fetch w pickup dropoff = Ok googleResponse ->
  ok googleResponse = true -> json googleResponse = Ok data ->
  is_response data r ->
  Forall (fun p => ltb (number_of (units p)) zero = false
                   /\ ltb (number_of (nanos p)) zero = false)
         (filter is_INR (prices_of r)) ->
  exists x,
    get_tolls w body = Respond 200 (toll_body x)
    /\ isNaN x = false /\ ltb x zero = false.
Proof.
  intros Hp Tp Hd Td F K J R A.
  rewrite (TollFacts.get_tolls_on_success w body pickup dropoff googleResponse data
             Hp Tp Hd Td F K J).
  rewrite (TollFacts.sum_tolls_typed data r R).
  pose proof (total_positive_sign _ A zero eq_refl) as P.
  fold (inr_total r) in P.
  exists (tollAmount (safeguard (inr_total r))).
  split; [reflexivity|].
  apply positive_sign_not_below_zero.
  unfold safeguard.
  destruct (positive_sign_not_below_zero _ P) as [-> _].
  apply tollAmount_positive_sign, P.
Qed.

Lemma tolls_are_never_negative_witness :
  exists x,
    get_tolls (answering (one_route_body (entry_of inr_120_5))) toll_request
    = Respond 200 (toll_body x)
    /\ isNaN x = false /\ ltb x zero = false.
Proof.
  apply (tolls_are_never_negative
           (answering (one_route_body (entry_of inr_120_5))) toll_request
           (VStr "Chennai") (VStr "Madurai")
           (mkResponse 200 (Ok (one_route_body (entry_of inr_120_5))))
           (one_route_body (entry_of inr_120_5)) (one_price inr_120_5));
    try reflexivity.
  - apply TollFacts.one_route_is_response.
  - repeat constructor.
Defined.

End SignFacts.

(* ================================================================== *)
(** * Properties of the start-up *)
(* ================================================================== *)

Module StartupFacts.

Import Num Js Backend Shape Startup.
Local Open Scope js_scope.
Local Open Scope Z_scope.

Lemma truthy_env (e : environment) (name : string) :
  truthy (env e name) = is_set e name.
Proof. unfold env, is_set. destruct (e name); reflexivity. Qed.

Lemma port_of_env (e : environment) :
  or_else (env e "PORT") (VNum n5000)
  = if is_set e "PORT" then env e "PORT" else VNum n5000.
Proof. unfold or_else. rewrite truthy_env. reflexivity. Qed.

(** The three ways the module can end, by what the environment holds. *)
Lemma load_cases (declared : list string) (e : environment)
    (twilio : value -> value -> result value) :
  load declared e twilio =
  if negb (is_set e "TWILIO_ACCOUNT_SID" && is_set e "TWILIO_AUTH_TOKEN"
           && is_set e "TWILIO_VERIFY_SERVICE_SID" && is_set e "TWILIO_PHONE_NUMBER")
  then Exit 1
  else
    match twilio (env e "TWILIO_ACCOUNT_SID") (env e "TWILIO_AUTH_TOKEN") with
    | Throw error => Uncaught error
    | Ok _ =>
        if negb (is_set e "GOOGLE_ROUTES_API_KEY") then Exit 1
        else if existsb (String.eqb "allowedOrigin") declared
        then Configured {| port := if is_set e "PORT" then env e "PORT"
                                else VNum n5000;
                        TWILIO_VERIFY_SERVICE_SID := env e "TWILIO_VERIFY_SERVICE_SID";
                        TWILIO_PHONE_NUMBER := env e "TWILIO_PHONE_NUMBER";
                        GOOGLE_ROUTES_API_KEY := env e "GOOGLE_ROUTES_API_KEY";
                        allowedOrigin := VStr "http://localhost:3000" |}
        else Uncaught (ReferenceError "allowedOrigin")
    end.
Proof.
  unfold load, identifier. rewrite !truthy_env, port_of_env.
  destruct (is_set e "TWILIO_ACCOUNT_SID"), (is_set e "TWILIO_AUTH_TOKEN"),
    (is_set e "TWILIO_VERIFY_SERVICE_SID"), (is_set e "TWILIO_PHONE_NUMBER");
    cbn [negb orb andb]; try reflexivity.
  destruct (twilio _ _); [|reflexivity].
  destruct (is_set e "GOOGLE_ROUTES_API_KEY"); cbn [negb]; [|reflexivity].
  destruct (existsb _ declared); reflexivity.
Qed.

(** X16.  The module gets as far as registering its routes only when
    each of the five required variables is set to a string that is not
    empty; the port is then the variable PORT when that is set and not
    empty, and 5000 otherwise.  With one of them missing the module
    exits with the code 1, unless the constructor of the Twilio client
    has thrown before the key of the routing provider is looked at.
    With all five set and a client constructed, part_000 does get that
    far. *)
Theorem server_needs_its_whole_configuration
    (declared : list string) (e : environment)
    (twilio : value -> value -> result value) :
  (forall c,
     load declared e twilio = Configured c ->
     forallb (is_set e) required = true
     /\ Startup.TWILIO_PHONE_NUMBER c = env e "TWILIO_PHONE_NUMBER"
     /\ truthy (Startup.TWILIO_PHONE_NUMBER c) = true
     /\ truthy (GOOGLE_ROUTES_API_KEY c) = true
     /\ port c = (if is_set e "PORT" then env e "PORT" else VNum n5000))
  /\ (forallb (is_set e) required = false ->
      load declared e twilio = Exit 1
      \/ exists error,
           twilio (env e "TWILIO_ACCOUNT_SID") (env e "TWILIO_AUTH_TOKEN") = Throw error
           /\ load declared e twilio = Uncaught error)
  /\ (forallb (is_set e) required = true ->
      forall client,
        twilio (env e "TWILIO_ACCOUNT_SID") (env e "TWILIO_AUTH_TOKEN") = Ok client ->
        exists c, load part_000 e twilio = Configured c).
Proof.
  rewrite !load_cases. cbn [forallb required].
  destruct (is_set e "TWILIO_ACCOUNT_SID"), (is_set e "TWILIO_AUTH_TOKEN"),
    (is_set e "TWILIO_VERIFY_SERVICE_SID"), (is_set e "TWILIO_PHONE_NUMBER") eqn:P;
    cbn [negb andb];
    try (split; [discriminate | split; [auto | discriminate]]).
  destruct (twilio _ _) as [client|error].
  - destruct (is_set e "GOOGLE_ROUTES_API_KEY") eqn:K; cbn [negb].
    + split; [|split; [discriminate|]].
      * destruct (existsb _ declared); [|discriminate].
        intros c H. injection H as <-.
        cbn [Startup.TWILIO_PHONE_NUMBER GOOGLE_ROUTES_API_KEY port].
        rewrite !truthy_env, P, K. auto.
      * intros _ _ _.
        change (existsb (String.eqb "allowedOrigin") part_000) with true.
        cbv iota. eauto.
    + split; [discriminate|]. split; [auto | discriminate].
  - split; [discriminate|]. split; [eauto | discriminate].
Qed.

(** X17.  In a module that got as far as registering its routes the
    sender number is set: the booking handler never answers from its
    branch for a missing TWILIO_PHONE_NUMBER. *)
Theorem sender_number_is_never_missing
    (declared : list string) (e : environment)
    (twilio : value -> value -> result value) (c : constants)
    (w : world) (body : value) :
  load declared e twilio = Configured c ->
  Backend.TWILIO_PHONE_NUMBER w = Startup.TWILIO_PHONE_NUMBER c ->
  send_booking_sms w body
  <> message_only 500
       "Server configuration error: Twilio phone number for sending SMS is missing.".
Proof.
  intros L Hw.
  assert (T : truthy (Backend.TWILIO_PHONE_NUMBER w) = true).
  { rewrite Hw. rewrite load_cases in L.
    destruct (is_set e "TWILIO_ACCOUNT_SID"), (is_set e "TWILIO_AUTH_TOKEN"),
      (is_set e "TWILIO_VERIFY_SERVICE_SID"), (is_set e "TWILIO_PHONE_NUMBER") eqn:P;
      cbn [negb andb] in L; try discriminate L.
    destruct (twilio _ _); [|discriminate L].
    destruct (negb _); [discriminate L|].
    destruct (existsb _ declared); [|discriminate L].
    injection L as <-. cbn [Startup.TWILIO_PHONE_NUMBER].
    rewrite truthy_env. exact P. }
  assert (Hcatch : forall error,
            message_only 500
              (if has_status_and_message error then twilio_api_error error
               else "Failed to send booking confirmation SMS.")
            <> message_only 500
                 "Server configuration error: Twilio phone number for sending SMS is missing.").
  { intros error. destruct (has_status_and_message error); discriminate. }
  unfold send_booking_sms.
  destruct (get body "phoneNumber") as [p|]; cbn [bind]; [|discriminate].
  destruct (get body "bookingDetails") as [b|]; cbn [bind]; [|discriminate].
  destruct (negb (truthy p) || negb (truthy b)); [discriminate|].
  unfold send_booking_sms_try.
  destruct (messageBody b); cbn [bind]; [|apply Hcatch].
  destruct (ToString p); cbn [bind]; [|apply Hcatch].
  destruct (formatPhoneNumberForTwilio p) as [q|]; cbn [bind]; [|apply Hcatch].
  destruct (negb (truthy q)); [discriminate|].
  rewrite T. cbn [negb].
  destruct (messages_create w _ q _); cbn [bind]; [discriminate | apply Hcatch].
Qed.

(** An environment with the five variables and no other. *)
Lemma sender_number_is_never_missing_witness :
  send_booking_sms delivering (request [("phoneNumber", VStr "9876543210")])
  <> message_only 500
       "Server configuration error: Twilio phone number for sending SMS is missing.".
Proof.
  exact (sender_number_is_never_missing part_000
           (fun name =>
              if String.eqb name "TWILIO_PHONE_NUMBER" then Some "+15005550006"
              else if existsb (String.eqb name) required then Some "x" else None)
           (fun _ _ => Ok VNull)
           {| port := VNum n5000;
              TWILIO_VERIFY_SERVICE_SID := VStr "x";
              TWILIO_PHONE_NUMBER := VStr "+15005550006";
              GOOGLE_ROUTES_API_KEY := VStr "x";
              allowedOrigin := VStr "http://localhost:3000" |}
           delivering (request [("phoneNumber", VStr "9876543210")])
           eq_refl eq_refl).
Defined.

(** X18.  [src/backend.js] never gets as far as registering its routes:
    it reads [allowedOrigin] in the options of the cors middleware, and
    no declaration of the file binds that name.  With its whole
    configuration in place the module ends with a ReferenceError. *)
Theorem backend_js_stops_before_its_routes
    (e : environment) (twilio : value -> value -> result value) :
  (forall c, load backend_js e twilio <> Configured c)
  /\ (forallb (is_set e) required = true ->
      forall client,
        twilio (env e "TWILIO_ACCOUNT_SID") (env e "TWILIO_AUTH_TOKEN") = Ok client ->
        load backend_js e twilio = Uncaught (ReferenceError "allowedOrigin")).
Proof.
  rewrite load_cases. cbn [forallb required].
  change (existsb (String.eqb "allowedOrigin") backend_js) with false.
  destruct (is_set e "TWILIO_ACCOUNT_SID"), (is_set e "TWILIO_AUTH_TOKEN"),
    (is_set e "TWILIO_VERIFY_SERVICE_SID"), (is_set e "TWILIO_PHONE_NUMBER");
    cbn [negb andb]; try (split; discriminate).
  destruct (twilio _ _) as [client|error].
  - destruct (is_set e "GOOGLE_ROUTES_API_KEY"); cbn [negb]; split;
      try discriminate; reflexivity.
  - split; discriminate.
Qed.

End StartupFacts.

(* ================================================================== *)
(** * Properties of the preflight handler *)
(* ================================================================== *)

Module PreflightFacts.

Import Js Preflight.
Local Open Scope Z_scope.

Lemma header_filter (k k' : string) (hs : list (string * string)) :
  String.eqb k k' = false ->
  header k (filter (fun h => negb (String.eqb (fst h) k')) hs) = header k hs.
Proof.
  intros H. induction hs as [|[a v] hs IH]; [reflexivity|].
  cbn [filter fst header]. destruct (String.eqb a k') eqn:E; cbn [negb header].
  - apply String.eqb_eq in E. subst a. rewrite H. exact IH.
  - rewrite IH. reflexivity.
Qed.

Lemma getHeader_setHeader_other (name key value : string) (r : res) :
  String.eqb (toLowerCase name) (toLowerCase key) = false ->
  getHeader name (setHeader key value r) = getHeader name r.
Proof.
  intros H. unfold getHeader, setHeader. cbn [headers header]. rewrite H.
  apply header_filter, H.
Qed.

(** X19.  The handler of the OPTIONS requests of part_000 answers 200,
    ends the response, and sets the four CORS headers to what the
    options of the cors middleware of the same file say: its origin,
    its methods and its allowed headers, each list joined with a comma
    and a space, and its credentials.  A value the response had for one
    of these headers is replaced; every other header is left as it
    was. *)
Theorem preflight_advertises_the_cors_options (r0 : res) :
  exists r,
    options_handler r0 = Ok r
    /\ statusCode r = 200
    /\ finished r = true
    /\ getHeader "Access-Control-Allow-Origin" r = Some (origin cors_config)
    /\ getHeader "Access-Control-Allow-Methods" r
       = Some (listed (methods cors_config))
    /\ getHeader "Access-Control-Allow-Headers" r
       = Some (listed (allowedHeaders cors_config))
    /\ getHeader "Access-Control-Allow-Credentials" r
       = Some (if credentials cors_config then "true" else "false")
    /\ (forall name,
          existsb (String.eqb (toLowerCase name))
                  (map toLowerCase (keys CORS_HEADERS)) = false ->
          getHeader name r = getHeader name r0).
Proof.
  exists (end_ (status 200
            (setHeader "Access-Control-Allow-Credentials" "true"
               (setHeader "Access-Control-Allow-Headers"
                  (listed (allowedHeaders cors_config))
                  (setHeader "Access-Control-Allow-Methods"
                     (listed (methods cors_config))
                     (setHeader "Access-Control-Allow-Origin" allowedOrigin r0)))))).
  split; [reflexivity|].
  do 6 (split; [reflexivity|]).
  intros name H. cbn [existsb map keys CORS_HEADERS fst] in H.
  apply orb_false_elim in H as [H1 H].
  apply orb_false_elim in H as [H2 H].
  apply orb_false_elim in H as [H3 H].
  apply orb_false_elim in H as [H4 _].
  change (getHeader name (end_ (status 200 ?x))) with (getHeader name x).
  rewrite (getHeader_setHeader_other name _ _ _ H4),
          (getHeader_setHeader_other name _ _ _ H3),
          (getHeader_setHeader_other name _ _ _ H2),
          (getHeader_setHeader_other name _ _ _ H1).
  reflexivity.
Qed.

End PreflightFacts.
